(** * Tip-Monad: a shallow embedding of the settlement engine

    The repository holds two generations of a custodial Telegram tip bot:

    - [src/bot.js]: the Solana bot ([/tip], one transaction carrying the
      tip and the fee, confirmation with a 30 s timeout and a status
      re-check);
    - [src/unnamed/part_000]: the Monad-testnet bot ([/pay], [/gmonad],
      the rate governor [rateLimitedDelay] and the retry executor
      [sendTransactionWithRetry]).

    Handlers are embedded as computations in a state-and-exception monad
    over a [World] that holds the process globals ([claimWallets],
    [activeGmonadGiveaways], [lastRpcCall], ...), the clock and the trace
    of every call that leaves the process (RPC, database, Telegram,
    timers).  The collaborators answer through an [Env]: the [n]-th call
    of a given kind receives the [n]-th scripted answer of that kind, so
    a theorem quantified over [Env] holds for every behaviour of the
    chain, the database and Telegram. *)

From Stdlib Require Import ZArith QArith Bool String List Lia.
From Stdlib Require Import Floats.PrimFloat Floats.SpecFloat Floats.FloatOps Floats.FloatAxioms.
From Stdlib Require Uint63.
From stdpp Require Import base option list gmap strings.

Local Open Scope Z_scope.
Local Open Scope string_scope.
Local Open Scope list_scope.

(** ** JavaScript numbers

    Amounts and balances are JavaScript numbers.  The handlers only add,
    subtract, multiply and compare them, so the development is parametric
    in the number type: [JsNumber] lists the operations and the literals
    the sources use.  Two instances are given at the end of the file:
    binary64 floats (what the runtime computes with) and exact
    rationals. *)

Class JsNumber (num : Type) := {
  js_0 : num;                       (* 0 *)
  js_0_10 : num;                    (* 0.10 *)
  js_0_000005 : num;                (* 0.000005 *)
  js_0_0001 : num;                  (* 0.0001 *)
  js_0_00001 : num;                 (* 0.00001 *)
  js_1000000000 : num;              (* 1000000000, LAMPORTS_PER_SOL *)
  js_of_nat : nat -> num;           (* the number parseInt read from digits *)
  js_add : num -> num -> num;       (* x + y *)
  js_sub : num -> num -> num;       (* x - y *)
  js_mul : num -> num -> num;       (* x * y *)
  js_lt : num -> num -> bool;       (* x < y *)
  js_le : num -> num -> bool;       (* x <= y *)
  js_isNaN : num -> bool;           (* isNaN(x) *)
  js_truthy : num -> bool           (* ToBoolean(x): false on 0 and NaN *)
}.

Declare Scope js_scope.
Delimit Scope js_scope with js.
Infix "+" := js_add : js_scope.
Infix "-" := js_sub : js_scope.
Infix "*" := js_mul : js_scope.
Infix "<?" := js_lt : js_scope.
Infix "<=?" := js_le : js_scope.

(** What the balance checks rest on: zero lies below the positive
    literals, a number that is neither NaN nor at most zero is positive,
    and sums and products of positive numbers do not fall to zero or
    below.  Both instances satisfy these laws; for binary64 they hold
    whatever the rounding. *)
Class JsNumberLaws (num : Type) `{JsNumber num} : Prop := {
  js_0_le_0 : (js_0 <=? js_0)%js = true;
  js_0_lt_0_10 : (js_0 <? js_0_10)%js = true;
  js_0_le_0_000005 : (js_0 <=? js_0_000005)%js = true;
  js_0_le_0_0001 : (js_0 <=? js_0_0001)%js = true;
  js_lt_of_not_le : forall a,
    js_isNaN a = false -> (a <=? js_0)%js = false -> (js_0 <? a)%js = true;
  js_add_pos : forall a b,
    (js_0 <? a)%js = true -> (js_0 <=? b)%js = true -> (js_0 <? a + b)%js = true;
  js_mul_nonneg : forall a b,
    (js_0 <? a)%js = true -> (js_0 <? b)%js = true -> (js_0 <=? a * b)%js = true;
  js_mul_count_pos : forall a k,
    (js_0 <? a)%js = true -> (1 <= k <= 50)%nat -> (js_0 <? a * js_of_nat k)%js = true
}.

(** [x || 0] on a number. *)
Definition js_or_0 {num} `{JsNumber num} (x : num) : num :=
  if js_truthy x then x else js_0.

(** ** Errors and results *)

(** A thrown JavaScript error: its constructor name, its [message] and,
    for an error of the Telegram client, [response.body.description]
    (empty otherwise). *)
Record Error := mkError { name : string; message : string; description : string }.

Definition error (msg : string) : Error := mkError "Error" msg "".
Definition ReferenceError (ident : string) : Error :=
  mkError "ReferenceError" (ident ++ " is not defined") "".
Definition TypeError (msg : string) : Error := mkError "TypeError" msg "".

Inductive result (A : Type) : Type :=
| Ok (a : A)
| Throw (e : Error).
Arguments Ok {A} a.
Arguments Throw {A} e.

(** [String.prototype.includes]. *)
Fixpoint includes (needle hay : string) : bool :=
  String.prefix needle hay
  || match hay with
     | EmptyString => false
     | String _ rest => includes needle rest
     end.

(** ** Data model *)

Section Runtime.
Context {num : Type} {NUM : JsNumber num}.

(** A funding wallet as [userWallets] stores it. *)
Record Wallet := mkWallet { privateKey : string; publicKey : string }.

(** A claim wallet as [claimWallets] stores it; [cw_amount] is its
    [amount] field, the accrued figure (the spec's ClaimAccrual). *)
Record ClaimWallet := mkClaimWallet {
  cw_privateKey : string;
  cw_publicKey : string;
  cw_fromUserId : string;
  cw_amount : num
}.

(** [wallet.amount = a] on the stored object. *)
Definition cw_set_amount (cw : ClaimWallet) (a : num) : ClaimWallet :=
  mkClaimWallet (cw_privateKey cw) (cw_publicKey cw) (cw_fromUserId cw) a.

(** An ethers transaction request: [{ to, value, nonce }]. *)
Record Tx := mkTx { tx_to : string; tx_value : Z; tx_nonce : option Z }.

Definition tx_with_nonce (tx : Tx) (n : Z) : Tx :=
  mkTx (tx_to tx) (tx_value tx) (Some n).

(** A web3.js [SystemProgram.transfer] instruction and a transaction made
    of them, with its fee payer. *)
Record Transfer := mkTransfer { fromPubkey : string; toPubkey : string; lamports : num }.
Record SolTransaction := mkSolTransaction {
  instructions : list Transfer;
  recentBlockhash : string;
  feePayer : string
}.

(** A row of the [tips] table (and of [payments], which [/pay] names). *)
Record TipRow := mkTipRow {
  from_user_id : string;
  to_username : string;
  row_amount : num;
  fee_amount : num;
  transaction_signature : string
}.

(** The [status] object of a running [/pay] handler. *)
Record Status := mkStatus {
  sent : bool;
  confirming : bool;
  success : bool;
  failed : bool;
  errorMessage : string;
  txHash : option string
}.

(** The texts the bot sends, by template and parameters. *)
Inductive Message : Type :=
| InvalidAmount
| NoWalletYet
| OnlyInGroups
| InvalidFormat
| InvalidAddress
| NoClaimWallet
| NoFundingWallet
| InsufficientBalance (required : option num) (balance : num)
| InsufficientForGas (balance gasCost : num)
| NoFundsAvailable
| PaymentStatus (recipient : string) (amt : num) (s : Status)
| PaymentSent (amt fee : num) (recipient hash : string)
| PaymentFailed (msg : string)
| TransferSuccessful (amt : num) (hash : string)
| TransferFailed (msg : string)
| WithdrawalSuccessful (amt : num) (dest hash : string)
| WithdrawalFailed (msg : string)
| EnterAmount (balance : num)
| GiveawayStarted (amt : num)
| GiveawayNoParticipants
| GiveawayWinner (winner : string) (prize : num) (participants : nat) (hash : string)
| PrizeFailed (msg : string)
| Processing (amt : num)
| TipSent (amt fee : num) (recipient signature : string)
| TipFailed (msg : string)
| OnlyAdmins
| AdminCheckFailed
| RandomUsage
| WinnersOutOfRange
| InvalidRole
| InsufficientForWinners (required balance amt : num) (winners : nat)
| NoEligibleMembers (role : string)
| NotEnoughMembers (found needed : nat)
| DrawingWinners (winners : nat)
| RandomComplete (amt : num) (winners : list string) (botUsername : string)
                 (failed : list string)
| GiveawayFailed (msg : string).

(** Where a fixed two-second [setTimeout] pause sits in the source. *)
Inductive SleepSite : Type :=
| RetryBackoff   (* sendTransactionWithRetry, before the nonce refresh *)
| StatusPoll.    (* checkTransactionStatus *)

(** Everything that leaves the process, and the fixed pauses, in program
    order.  (The pause of the rate governor only moves the clock.) *)
Inductive Event : Type :=
| RpcGetBalance (address : string)
| RpcGetTransactionCount (address blockTag : string)
| RpcSendTransaction (from : string) (tx : Tx)
| RpcWait (hash : string)
| RpcEstimateGas (from to : string)
| RpcGetFeeData
| RpcGetTransactionReceipt (hash : string)
| SolGetBalance (pubkey : string)
| SolGetLatestBlockhash
| SolSendTransaction (tx : SolTransaction)
| SolConfirmTransaction (signature : string)
| SolGetSignatureStatus (signature : string)
| Sleep (site : SleepSite) (ms : Z)
| SetTimer (ms : Z) (giveawayKey : Z * Z)
| WalletCreateRandom
| MathRandom
| DbUpsertUserWallet (userId : string) (w : Wallet)
| DbUpsertClaimWallet (username : string) (w : ClaimWallet)
| DbInsert (table : string) (row : TipRow)
| BotSendMessage (chatId : Z) (m : Message)
| BotEditMessageText (chatId messageId : Z) (m : Message)
| BotDeleteMessage (chatId messageId : Z)
| BotAnswerCallbackQuery (callbackQueryId : string)
| BotGetChatMember (chatId userId : Z)
| BotGetChatAdministrators (chatId : Z)
| BotGetMe
| ConsoleError (tag : string) (e : Error)
| ConsoleLog (tag : string).

(** The collaborator method behind an event. *)
Inductive Kind : Type :=
| KGetBalance | KGetTransactionCount | KSendTransaction | KWait | KEstimateGas
| KGetFeeData | KGetTransactionReceipt
| KSolGetBalance | KSolGetLatestBlockhash | KSolSendTransaction
| KSolConfirmTransaction | KSolGetSignatureStatus
| KSleep | KSetTimer | KCreateRandom | KMathRandom
| KDb | KBot | KGetChatMember | KGetChatAdministrators | KGetMe | KConsole.

Definition kind (e : Event) : Kind :=
  match e with
  | RpcGetBalance _ => KGetBalance
  | RpcGetTransactionCount _ _ => KGetTransactionCount
  | RpcSendTransaction _ _ => KSendTransaction
  | RpcWait _ => KWait
  | RpcEstimateGas _ _ => KEstimateGas
  | RpcGetFeeData => KGetFeeData
  | RpcGetTransactionReceipt _ => KGetTransactionReceipt
  | SolGetBalance _ => KSolGetBalance
  | SolGetLatestBlockhash => KSolGetLatestBlockhash
  | SolSendTransaction _ => KSolSendTransaction
  | SolConfirmTransaction _ => KSolConfirmTransaction
  | SolGetSignatureStatus _ => KSolGetSignatureStatus
  | Sleep _ _ => KSleep
  | SetTimer _ _ => KSetTimer
  | WalletCreateRandom => KCreateRandom
  | MathRandom => KMathRandom
  | DbUpsertUserWallet _ _ | DbUpsertClaimWallet _ _ | DbInsert _ _ => KDb
  | BotSendMessage _ _ | BotEditMessageText _ _ _ | BotDeleteMessage _ _
  | BotAnswerCallbackQuery _ => KBot
  | BotGetChatMember _ _ => KGetChatMember
  | BotGetChatAdministrators _ => KGetChatAdministrators
  | BotGetMe => KGetMe
  | ConsoleError _ _ | ConsoleLog _ => KConsole
  end.

Definition kind_eqb (a b : Kind) : bool :=
  match a, b with
  | KGetBalance, KGetBalance
  | KGetTransactionCount, KGetTransactionCount
  | KSendTransaction, KSendTransaction
  | KWait, KWait
  | KEstimateGas, KEstimateGas
  | KGetFeeData, KGetFeeData
  | KGetTransactionReceipt, KGetTransactionReceipt
  | KSolGetBalance, KSolGetBalance
  | KSolGetLatestBlockhash, KSolGetLatestBlockhash
  | KSolSendTransaction, KSolSendTransaction
  | KSolConfirmTransaction, KSolConfirmTransaction
  | KSolGetSignatureStatus, KSolGetSignatureStatus
  | KSleep, KSleep
  | KSetTimer, KSetTimer
  | KCreateRandom, KCreateRandom
  | KMathRandom, KMathRandom
  | KDb, KDb
  | KBot, KBot
  | KGetChatMember, KGetChatMember
  | KGetChatAdministrators, KGetChatAdministrators
  | KGetMe, KGetMe
  | KConsole, KConsole => true
  | _, _ => false
  end.

(** How many calls of kind [k] a trace holds. *)
Fixpoint calls_of (k : Kind) (tr : list Event) : nat :=
  match tr with
  | [] => O
  | x :: rest => if kind_eqb k (kind x) then S (calls_of k rest) else calls_of k rest
  end.

(** A [/gmonad] giveaway.  [participants] is the JavaScript [Map] from
    user id to [{ id, username }], in insertion order. *)
Record Giveaway := mkGiveaway {
  g_chatId : Z;
  senderId : string;
  senderWallet : Wallet;
  g_amount : num;
  g_fee : num;
  participants : list (Z * string);
  messageId : Z;
  startTime : Z
}.

Definition g_set_participants (g : Giveaway) (ps : list (Z * string)) : Giveaway :=
  mkGiveaway (g_chatId g) (senderId g) (senderWallet g) (g_amount g) (g_fee g)
             ps (messageId g) (startTime g).

(** A member of a chat as [getChatAdministrators] reports it:
    [user.id], [user.username] (absent for a user without one) and
    [user.is_bot]. *)
Record ChatUser := mkChatUser {
  user_id : Z;
  user_username : option string;
  user_is_bot : bool
}.

(** An entry of [withdrawalState].  The Monad bot keeps the wallet object
    ([wd_claim], [wd_funding]); the Solana bot keeps the username, the
    step and, once given, the destination ([wd_step]). *)
Inductive Withdrawal : Type :=
| wd_claim (username : string) (claimWallet : ClaimWallet)
| wd_funding (userWallet : Wallet)
| wd_step (username : string) (destinationAddress : option string).

(** The process state: module-level variables of the bot, the clock,
    and the trace. *)
Record World := mkWorld {
  clock : Z;                                         (* Date.now() *)
  lastRpcCall : Z;
  trace : list Event;
  userWallets : gmap string Wallet;
  claimWallets : gmap string ClaimWallet;
  withdrawalState : gmap Z Withdrawal;
  activeGmonadGiveaways : list ((Z * Z) * Giveaway);  (* key: `${chatId}_${Date.now()}` *)
  status : Status                                    (* of the running /pay handler *)
}.

Definition set_clock (t : Z) (w : World) : World :=
  mkWorld t (lastRpcCall w) (trace w) (userWallets w) (claimWallets w)
          (withdrawalState w) (activeGmonadGiveaways w) (status w).
Definition set_lastRpcCall (t : Z) (w : World) : World :=
  mkWorld (clock w) t (trace w) (userWallets w) (claimWallets w)
          (withdrawalState w) (activeGmonadGiveaways w) (status w).
Definition set_trace (tr : list Event) (w : World) : World :=
  mkWorld (clock w) (lastRpcCall w) tr (userWallets w) (claimWallets w)
          (withdrawalState w) (activeGmonadGiveaways w) (status w).
Definition set_userWallets (m : gmap string Wallet) (w : World) : World :=
  mkWorld (clock w) (lastRpcCall w) (trace w) m (claimWallets w)
          (withdrawalState w) (activeGmonadGiveaways w) (status w).
Definition set_claimWallets (m : gmap string ClaimWallet) (w : World) : World :=
  mkWorld (clock w) (lastRpcCall w) (trace w) (userWallets w) m
          (withdrawalState w) (activeGmonadGiveaways w) (status w).
Definition set_withdrawalState (m : gmap Z Withdrawal) (w : World) : World :=
  mkWorld (clock w) (lastRpcCall w) (trace w) (userWallets w) (claimWallets w)
          m (activeGmonadGiveaways w) (status w).
Definition set_giveaways (g : list ((Z * Z) * Giveaway)) (w : World) : World :=
  mkWorld (clock w) (lastRpcCall w) (trace w) (userWallets w) (claimWallets w)
          (withdrawalState w) g (status w).
Definition set_status (s : Status) (w : World) : World :=
  mkWorld (clock w) (lastRpcCall w) (trace w) (userWallets w) (claimWallets w)
          (withdrawalState w) (activeGmonadGiveaways w) s.

(** What [Promise.race([confirmTransaction(sig), timeout(30000)])]
    settles to in [bot.js]. *)
Inductive Confirmation : Type :=
| Confirmed (err : bool)        (* resolved; [err] is [confirmation.value?.err] *)
| ConfirmRejected (e : Error)   (* confirmTransaction rejected *)
| ConfirmTimeout.               (* the 30 s timer won the race *)

(** The collaborators.  [env_f n] answers the call of [f] made after [n]
    earlier calls of its kind (the database methods share one count, and
    so do the Telegram methods that send, edit, delete or answer); the
    unit conversions and the address checks are pure functions of their
    argument. *)
Record Env := mkEnv {
  env_getBalance : nat -> result num;            (* parseFloat(formatEther(await provider.getBalance(a))) *)
  env_getTransactionCount : nat -> result Z;
  env_sendTransaction : nat -> result string;    (* the response's hash *)
  env_wait : nat -> result unit;                 (* transaction.wait() *)
  env_estimateGas : nat -> result Z;
  env_getFeeData : nat -> result Z;              (* gasPrice *)
  env_getTransactionReceipt : nat -> result (option Z);  (* receipt.status, None for null *)
  env_parseEther : num -> result Z;              (* ethers.parseEther(x.toString()) *)
  env_formatEther : Z -> num;                    (* parseFloat(ethers.formatEther(x)) *)
  env_isAddress : option string -> bool;         (* ethers.isAddress(text) *)
  env_isPublicKey : option string -> bool;       (* new PublicKey(text) does not throw *)
  env_createRandom : nat -> Wallet;              (* Wallet.createRandom / Keypair.generate *)
  env_random : nat -> nat -> nat;                (* Math.floor(Math.random() * n) *)
  env_db : nat -> result unit;                   (* pool.query *)
  env_bot : nat -> result Z;                     (* Telegram call; message_id *)
  env_getChatMember : nat -> result string;      (* member.status *)
  env_getChatAdministrators : nat -> result (list ChatUser);
  env_getMe : nat -> result string;              (* (await bot.getMe()).username *)
  env_elapsed : nat -> N;                        (* time the n-th event takes, in ms *)
  env_sol_getBalance : nat -> result num;        (* lamports / LAMPORTS_PER_SOL *)
  env_sol_getLatestBlockhash : nat -> result string;
  env_sol_sendTransaction : nat -> result string;
  env_sol_confirm : nat -> Confirmation;
  env_sol_getSignatureStatus : nat -> result bool  (* confirmed or finalized *)
}.

(** ** The handler monad: state and exceptions *)

Definition M (A : Type) : Type := World -> result A * World.

Definition ret {A} (a : A) : M A := fun w => (Ok a, w).
Definition throw {A} (e : Error) : M A := fun w => (Throw e, w).
Definition bind {A B} (m : M A) (k : A -> M B) : M B :=
  fun w => match m w with
           | (Ok a, w') => k a w'
           | (Throw e, w') => (Throw e, w')
           end.
(** [try { m } catch (error) { h error }]. *)
Definition try_catch {A} (m : M A) (h : Error -> M A) : M A :=
  fun w => match m w with
           | (Ok a, w') => (Ok a, w')
           | (Throw e, w') => h e w'
           end.
Definition get : M World := fun w => (Ok w, w).
Definition modify (f : World -> World) : M unit := fun w => (Ok tt, f w).

End Runtime.

Arguments Wallet : clear implicits.
Arguments ClaimWallet : clear implicits.
Arguments World : clear implicits.
Arguments Env : clear implicits.
Arguments Event : clear implicits.
Arguments Message : clear implicits.
Arguments M : clear implicits.
Arguments Giveaway : clear implicits.
Arguments TipRow : clear implicits.
Arguments Transfer : clear implicits.
Arguments SolTransaction : clear implicits.
Arguments Withdrawal : clear implicits.

Declare Scope monad_scope.
Delimit Scope monad_scope with monad.
Notation "x <- m ;; k" := (bind m (fun x => k))
  (at level 100, m at next level, right associativity) : monad_scope.
Notation "m ;; k" := (bind m (fun _ => k))
  (at level 100, right associativity) : monad_scope.

Local Open Scope monad_scope.

(** ** Calls to the collaborators *)

Section Effects.
Context {num : Type} {NUM : JsNumber num} (env : Env num).

(** An event happens: it joins the trace and time passes. *)
Definition perform (e : Event num) : M num unit :=
  modify (fun w =>
    set_clock (clock w + Z.of_N (env_elapsed env (length (trace w))))
              (set_trace (trace w ++ [e]) w)).

(** A call whose answer the collaborator chooses: the [n]-th call of a
    kind gets the [n]-th answer of that kind. *)
Definition call {A} (e : Event num) (answer : nat -> result A) : M num A :=
  fun w => (answer (calls_of (kind e) (trace w)), snd (perform e w)).

(** [await new Promise(resolve => setTimeout(resolve, ms))]: the timer
    fires [ms] later, or later still. *)
Definition pause (ms : Z) : M num unit :=
  modify (fun w =>
    set_clock (clock w + ms + Z.of_N (env_elapsed env (length (trace w)))) w).

(** The same at a site the trace records. *)
Definition sleep (site : SleepSite) (ms : Z) : M num unit :=
  perform (Sleep site ms) ;;
  modify (fun w => set_clock (clock w + ms) w).

Definition sendMessage (chatId : Z) (m : Message num) : M num Z :=
  call (BotSendMessage chatId m) (env_bot env).

Definition console_error (tag : string) (e : Error) : M num unit :=
  perform (ConsoleError tag e).

Definition console_log (tag : string) : M num unit :=
  perform (ConsoleLog tag).

(** [saveWallet(userId, wallet, true)]: the upsert into [claim_wallets];
    a database error is logged and swallowed. *)
Definition saveClaimWallet (username : string) (wallet : ClaimWallet num) : M num unit :=
  try_catch
    (call (DbUpsertClaimWallet username wallet) (env_db env))
    (fun e => console_error "Error saving wallet:" e).

(** [saveWallet(userId, wallet)]: the upsert into [user_wallets]. *)
Definition saveUserWallet (userId : string) (wallet : Wallet) : M num unit :=
  try_catch
    (call (DbUpsertUserWallet userId wallet) (env_db env))
    (fun e => console_error "Error saving wallet:" e).

(** A fresh keypair ([ethers.Wallet.createRandom()], [Keypair.generate()]). *)
Definition createRandom : M num Wallet :=
  fun w => (Ok (env_createRandom env (calls_of KCreateRandom (trace w))),
            snd (perform WalletCreateRandom w)).

End Effects.

(** ** The Monad-testnet bot ([src/unnamed/part_000]) *)

Module Monad.
Section Handlers.
Context {num : Type} {NUM : JsNumber num} (env : Env num).

Definition FEES_WALLET : string := "0x0000000000000000000000000000000000000000".
Definition FEE_PERCENTAGE : num := js_0_10.
Definition NETWORK_FEE : num := js_0_000005.
Definition MIN_RPC_DELAY : Z := 100.

(** [rateLimitedDelay]: the read of [lastRpcCall], the optional pause and
    the write of [lastRpcCall], as one handler runs them. *)
Definition rateLimitedDelay : M num unit :=
  w <- get ;;
  let now := clock w in
  let timeSinceLastCall := now - lastRpcCall w in
  (if (timeSinceLastCall <? MIN_RPC_DELAY)%Z
   then pause env (MIN_RPC_DELAY - timeSinceLastCall)
   else ret tt) ;;
  modify (fun w => set_lastRpcCall (clock w) w).

(** The caller's lifecycle callbacks; each receives the response's hash. *)
Record Options := mkOptions {
  onSent : option (string -> M num unit);
  onConfirming : option (string -> M num unit);
  onConfirmed : option (string -> M num unit)
}.

Definition no_options : Options := mkOptions None None None.

Definition invokeCallback (callback : option (string -> M num unit))
    (transaction : string) : M num unit :=
  match callback with
  | None => ret tt
  | Some f =>
      try_catch (f transaction)
        (fun callbackError =>
           console_error env "Callback error in sendTransactionWithRetry:" callbackError)
  end.

(** The test of the [catch] block on [error.message]. *)
Definition retryable (e : Error) : bool :=
  includes "nonce" (message e) || includes "priority" (message e)
  || includes "rate" (message e) || includes "limit" (message e).

(** What one pass of the [for] loop leaves: a value to return, or the
    request to go round again with the refreshed [tx]. *)
Inductive Pass : Type :=
| Return (transaction : string)
| Again (tx : Tx).

(** The body of the [try]: one submission and its confirmation. *)
Definition attempt (address : string) (tx : Tx) (options : Options) : M num Pass :=
  rateLimitedDelay ;;
  transaction <- call env (RpcSendTransaction address tx) (env_sendTransaction env) ;;
  invokeCallback (onSent options) transaction ;;
  rateLimitedDelay ;;
  invokeCallback (onConfirming options) transaction ;;
  call env (RpcWait transaction) (env_wait env) ;;
  invokeCallback (onConfirmed options) transaction ;;
  ret (Return transaction).

(** The body of the [catch], in pass [i] of [maxRetries]. *)
Definition recover (i maxRetries : nat) (address : string) (tx : Tx)
    (error : Error) : M num Pass :=
  if (i =? maxRetries - 1)%nat then throw error
  else if retryable error then
    console_log env "Error detected, retrying..." ;;
    sleep env RetryBackoff 2000 ;;
    rateLimitedDelay ;;
    newNonce <- call env (RpcGetTransactionCount address "latest")
                         (env_getTransactionCount env) ;;
    ret (Again (tx_with_nonce tx newNonce))
  else throw error.

(** The [for (let i = 0; i < maxRetries; i++)] loop, from pass [i] with
    [remaining = maxRetries - i] passes to go.  Falling out of the loop
    returns [undefined] ([None]). *)
Fixpoint retry_from (remaining i maxRetries : nat) (address : string) (tx : Tx)
    (options : Options) : M num (option string) :=
  match remaining with
  | O => ret None
  | S remaining' =>
      pass <- try_catch (attempt address tx options)
                        (recover i maxRetries address tx) ;;
      match pass with
      | Return transaction => ret (Some transaction)
      | Again tx' => retry_from remaining' (S i) maxRetries address tx' options
      end
  end.

(** [sendTransactionWithRetry(wallet, tx, { maxRetries, ... })]. *)
Definition sendTransactionWithRetry (maxRetries : nat) (address : string) (tx : Tx)
    (options : Options) : M num (option string) :=
  retry_from maxRetries 0 maxRetries address tx options.

(** The default [maxRetries = 3]; every caller in the file uses it, and
    reads [.hash] of the result. *)
Definition sendTransaction3 (address : string) (tx : Tx) (options : Options) : M num string :=
  r <- sendTransactionWithRetry 3 address tx options ;;
  match r with
  | Some transaction => ret transaction
  | None => throw (TypeError "Cannot read properties of undefined (reading 'hash')")
  end.

(** [getWalletBalance(address)]. *)
Definition getWalletBalance (address : string) : M num num :=
  try_catch
    (rateLimitedDelay ;;
     call env (RpcGetBalance address) (env_getBalance env))
    (fun e => console_error env "Error getting balance:" e ;; ret js_0).

(** [checkTransactionStatus(txHash, maxRetries)]: defined in the file,
    called nowhere in it. *)
Fixpoint checkTransactionStatus (txHash : string) (maxRetries : nat) : M num bool :=
  match maxRetries with
  | O => ret false
  | S n =>
      found <- try_catch
        (receipt <- call env (RpcGetTransactionReceipt txHash)
                             (env_getTransactionReceipt env) ;;
         match receipt with
         | Some 1 => ret true
         | _ => sleep env StatusPoll 2000 ;; ret false
         end)
        (fun e => console_error env "Error checking transaction status" e ;; ret false) ;;
      if found then ret true else checkTransactionStatus txHash n
  end.

(** A pure collaborator function that may throw. *)
Definition lift {A} (r : result A) : M num A := fun w => (r, w).

(** *** [/pay @recipient amount] *)

Definition initial_status : Status := mkStatus false false false false "" None.

(** [updateStatusMessage]: the edit of the status message; a failure of
    the edit is swallowed (and logged unless Telegram says the text did
    not change). *)
Definition updateStatusMessage (chatId messageId : Z) (recipient : string)
    (amount : num) : M num unit :=
  w <- get ;;
  try_catch
    (call env (BotEditMessageText chatId messageId
                 (PaymentStatus recipient amount (status w))) (env_bot env) ;;
     ret tt)
    (fun statusError =>
       if includes "message is not modified" (description statusError) then ret tt
       else console_error env "Error updating status message:" statusError).

(** [setStatus(changes)]: [Object.assign(status, changes)], then the edit. *)
Definition setStatus (chatId messageId : Z) (recipient : string) (amount : num)
    (changes : Status -> Status) : M num unit :=
  modify (fun w => set_status (changes (status w)) w) ;;
  updateStatusMessage chatId messageId recipient amount.

Definition status_sent (hash : string) (s : Status) : Status :=
  mkStatus true true (success s) (failed s) (errorMessage s) (Some hash).
Definition status_confirming (s : Status) : Status :=
  mkStatus (sent s) true (success s) (failed s) (errorMessage s) (txHash s).
Definition status_confirmed (hash : string) (s : Status) : Status :=
  mkStatus (sent s) false true (failed s) (errorMessage s) (Some hash).

(** Lines 772-784: the recipient's claim wallet, created and persisted
    when [claimWallets] has none. *)
Definition getOrCreateClaimWallet (recipientUsername fromId : string)
    : M num (ClaimWallet num) :=
  w <- get ;;
  match claimWallets w !! recipientUsername with
  | Some recipientWallet => ret recipientWallet
  | None =>
      wallet <- createRandom env ;;
      let recipientWallet :=
        mkClaimWallet (privateKey wallet) (publicKey wallet) fromId js_0 in
      modify (fun w => set_claimWallets
                         (<[recipientUsername := recipientWallet]> (claimWallets w)) w) ;;
      saveClaimWallet env recipientUsername recipientWallet ;;
      ret recipientWallet
  end.

(** Lines 881-883: [recipientWallet.amount = (recipientWallet.amount || 0)
    + amount] on the object [claimWallets] holds, then its upsert. *)
Definition accrue (recipientUsername : string) (recipientWallet : ClaimWallet num)
    (amount : num) : M num unit :=
  w <- get ;;
  let current := default recipientWallet (claimWallets w !! recipientUsername) in
  let updated := cw_set_amount current (js_or_0 (cw_amount current) + amount)%js in
  modify (fun w => set_claimWallets
                     (<[recipientUsername := updated]> (claimWallets w)) w) ;;
  saveClaimWallet env recipientUsername updated.

(** Lines 846-866: the principal transfer, with the status callbacks.
    [sender] is [senderWallet.address], the address of the funding
    wallet's key. *)
Definition pay_principal (chatId : Z) (recipientUsername : string) (amount : num)
    (sender : string) (recipientWallet : ClaimWallet num) (statusMessage : Z)
    : M num string :=
  let set := setStatus chatId statusMessage recipientUsername amount in
  rateLimitedDelay ;;
  nonce <- call env (RpcGetTransactionCount sender "latest")
                    (env_getTransactionCount env) ;;
  value <- lift (env_parseEther env amount) ;;
  let tx := mkTx (cw_publicKey recipientWallet) value (Some nonce) in
  sendTransaction3 sender tx
    (mkOptions (Some (fun hash => set (status_sent hash)))
               (Some (fun _ => set status_confirming))
               (Some (fun hash => set (status_confirmed hash)))).

(** Lines 868-879: the fee transfer. *)
Definition pay_fee (fee : num) (sender : string) : M num string :=
  rateLimitedDelay ;;
  feeNonce <- call env (RpcGetTransactionCount sender "latest")
                       (env_getTransactionCount env) ;;
  feeValue <- lift (env_parseEther env fee) ;;
  let feeTx := mkTx FEES_WALLET feeValue (Some feeNonce) in
  sendTransaction3 sender feeTx no_options.

(** Lines 881-903: the accrual, the row and the success message. *)
Definition pay_record (chatId : Z) (userId recipientUsername : string)
    (amount fee : num) (recipientWallet : ClaimWallet num) (transaction : string)
    : M num unit :=
  accrue recipientUsername recipientWallet amount ;;
  call env (DbInsert "payments"
              (mkTipRow userId recipientUsername amount fee transaction))
           (env_db env) ;;
  sendMessage env chatId (PaymentSent amount fee recipientUsername transaction) ;;
  ret tt.

(** The [try] block once [setStatus] is assigned (lines 846-903). *)
Definition pay_transfers (chatId : Z) (userId recipientUsername : string)
    (amount fee : num) (sender : string) (recipientWallet : ClaimWallet num)
    (statusMessage : Z) : M num unit :=
  transaction <- pay_principal chatId recipientUsername amount sender
                               recipientWallet statusMessage ;;
  pay_fee fee sender ;;
  pay_record chatId userId recipientUsername amount fee recipientWallet transaction.

(** The [catch] block (lines 905-911) once [setStatus] is assigned:
    after the log, building the argument of [setStatus] evaluates
    [status?.sent], and [status] is a [const] of the [try] block, out of
    scope in the [catch]: a ReferenceError leaves the handler. *)
Definition pay_catch (error : Error) : M num unit :=
  console_error env "Tip error:" error ;;
  throw (ReferenceError "status").

(** The [try]/[catch] of [/pay] (lines 769-911).  [setStatus] is [null]
    until line 841: an error before that point is reported to the chat,
    an error after it runs [pay_catch]. *)
Definition pay_settle (chatId : Z) (userId recipientUsername : string)
    (amount fee : num) (userWallet : Wallet) : M num unit :=
  opened <- try_catch
    (recipientWallet <- getOrCreateClaimWallet recipientUsername userId ;;
     modify (set_status initial_status) ;;
     statusMessage <- sendMessage env chatId
                        (PaymentStatus recipientUsername amount initial_status) ;;
     ret (Some (recipientWallet, statusMessage)))
    (fun error =>
       console_error env "Tip error:" error ;;
       sendMessage env chatId (PaymentFailed (message error)) ;;
       ret None) ;;
  match opened with
  | None => ret tt
  | Some (recipientWallet, statusMessage) =>
      try_catch
        (pay_transfers chatId userId recipientUsername amount fee
                       (publicKey userWallet) recipientWallet statusMessage)
        pay_catch
  end.

(** The handler of [/pay (@\w+) (.+)]: [amount] is [parseFloat(match[2])]. *)
Definition pay (chatId : Z) (userId recipientUsername : string) (amount : num)
    : M num unit :=
  if js_isNaN amount || (amount <=? js_0)%js then
    sendMessage env chatId InvalidAmount ;; ret tt
  else
    w <- get ;;
    match userWallets w !! userId with
    | None => sendMessage env chatId NoWalletYet ;; ret tt
    | Some userWallet =>
        balance <- getWalletBalance (publicKey userWallet) ;;
        let fee := (amount * FEE_PERCENTAGE)%js in
        let totalRequired := (amount + fee + NETWORK_FEE)%js in
        if (balance <? totalRequired)%js then
          sendMessage env chatId (InsufficientBalance (Some totalRequired) balance) ;;
          ret tt
        else pay_settle chatId userId recipientUsername amount fee userWallet
    end.

(** *** Draining a wallet: [transfer_all_<username>] and the withdrawal
    conversation *)

(** Lines 375-401 (and 582-609, 638-665): the gas estimate, the amount
    left after gas and the 0.00001 buffer, the transfer and its
    confirmation.  [None] when the handler has already answered that the
    balance does not cover the gas.  The submission does not go through
    [sendTransactionWithRetry] nor [rateLimitedDelay]. *)
Definition drain (chatId : Z) (from to : string) (balance : num)
    : M num (option (num * string)) :=
  rateLimitedDelay ;;
  value <- lift (env_parseEther env balance) ;;
  gasEstimate <- call env (RpcEstimateGas from to) (env_estimateGas env) ;;
  rateLimitedDelay ;;
  gasPrice <- call env RpcGetFeeData (env_getFeeData env) ;;
  let gasCost := env_formatEther env (gasEstimate * gasPrice)%Z in
  let amountToSend := (balance - gasCost - js_0_00001)%js in
  if (amountToSend <=? js_0)%js then
    sendMessage env chatId (InsufficientForGas balance gasCost) ;;
    ret None
  else
    value <- lift (env_parseEther env amountToSend) ;;
    let tx := mkTx to value None in
    transaction <- call env (RpcSendTransaction from tx) (env_sendTransaction env) ;;
    call env (RpcWait transaction) (env_wait env) ;;
    ret (Some (amountToSend, transaction)).

(** [claimWallet.amount = 0] on the stored object, then its upsert. *)
Definition resetAccrual (username : string) (claimWallet : ClaimWallet num) : M num unit :=
  let zeroed := cw_set_amount claimWallet js_0 in
  modify (fun w => set_claimWallets
                     (alter (fun cw => cw_set_amount cw js_0) username (claimWallets w)) w) ;;
  saveClaimWallet env username zeroed.

(** The callback query [transfer_all_<username>] (lines 343-425);
    [userId] is [userId.toString()]. *)
Definition transfer_all (chatId : Z) (userId username : string) : M num unit :=
  w <- get ;;
  match claimWallets w !! username with
  | None => sendMessage env chatId NoClaimWallet ;; ret tt
  | Some claimWallet =>
      balance <- getWalletBalance (cw_publicKey claimWallet) ;;
      if (balance <=? NETWORK_FEE)%js then
        sendMessage env chatId (InsufficientBalance None balance) ;; ret tt
      else
        w <- get ;;
        userWallet <-
          match userWallets w !! userId with
          | Some userWallet => ret userWallet
          | None =>
              userWallet <- createRandom env ;;
              modify (fun w => set_userWallets (<[userId := userWallet]> (userWallets w)) w) ;;
              saveUserWallet env userId userWallet ;;
              ret userWallet
          end ;;
        try_catch
          (sent <- drain chatId (cw_publicKey claimWallet) (publicKey userWallet) balance ;;
           match sent with
           | None => ret tt
           | Some (amountToSend, transaction) =>
               resetAccrual username claimWallet ;;
               sendMessage env chatId (TransferSuccessful amountToSend transaction) ;;
               ret tt
           end)
          (fun error =>
             console_error env "Transfer error:" error ;;
             sendMessage env chatId (TransferFailed (message error)) ;;
             ret tt)
  end.

Definition withdrawal_delete (userId : Z) : M num unit :=
  modify (fun w => set_withdrawalState (delete userId (withdrawalState w)) w).

(** One branch of the withdrawal handler (lines 569-624 and 625-677):
    [accrued] is the claim wallet to zero after the transfer, when the
    withdrawal is from a claim wallet. *)
Definition withdraw_from (chatId userId : Z) (address text : string)
    (accrued : option (string * ClaimWallet num)) : M num bool :=
  balance <- getWalletBalance address ;;
  if (balance <=? js_0_0001)%js then
    sendMessage env chatId (InsufficientBalance None balance) ;;
    withdrawal_delete userId ;;
    ret false
  else
    sent <- drain chatId address text balance ;;
    match sent with
    | None => withdrawal_delete userId ;; ret false
    | Some (amountToSend, transaction) =>
        match accrued with
        | Some (username, claimWallet) => resetAccrual username claimWallet
        | None => ret tt
        end ;;
        sendMessage env chatId (WithdrawalSuccessful amountToSend text transaction) ;;
        ret true
    end.

(** The [message] listener of the withdrawal conversation (lines 550-685). *)
Definition withdrawal_message (chatId userId : Z) (text : option string) : M num unit :=
  w <- get ;;
  match withdrawalState w !! userId with
  | None => ret tt
  | Some state =>
      if match text with Some t => String.prefix "/" t | None => false end then ret tt
      else if negb (env_isAddress env text) then
        sendMessage env chatId InvalidAddress ;; ret tt
      else
        let dest := default "" text in
        try_catch
          (finished <-
             match state with
             | wd_claim username claimWallet =>
                 withdraw_from chatId userId (cw_publicKey claimWallet) dest
                               (Some (username, claimWallet))
             | wd_funding userWallet =>
                 withdraw_from chatId userId (publicKey userWallet) dest None
             | wd_step _ _ => ret true
             end ;;
           if finished then withdrawal_delete userId else ret tt)
          (fun error =>
             console_error env "Withdrawal error:" error ;;
             sendMessage env chatId (WithdrawalFailed (message error)) ;;
             withdrawal_delete userId)
  end.

(** *** [/gmonad <amount>]: the interactive giveaway *)

Definition key_eqb (a b : Z * Z) : bool := (fst a =? fst b)%Z && (snd a =? snd b)%Z.

(** [Map.prototype.get], [set] (an existing key keeps its place) and
    [delete] on [activeGmonadGiveaways]. *)
Fixpoint giveaway_get (key : Z * Z) (gs : list ((Z * Z) * Giveaway num))
    : option (Giveaway num) :=
  match gs with
  | [] => None
  | (k, g) :: rest => if key_eqb key k then Some g else giveaway_get key rest
  end.

Fixpoint giveaway_set (key : Z * Z) (g : Giveaway num)
    (gs : list ((Z * Z) * Giveaway num)) : list ((Z * Z) * Giveaway num) :=
  match gs with
  | [] => [(key, g)]
  | (k, g') :: rest =>
      if key_eqb key k then (k, g) :: rest else (k, g') :: giveaway_set key g rest
  end.

Definition giveaway_delete (key : Z * Z) (gs : list ((Z * Z) * Giveaway num))
    : list ((Z * Z) * Giveaway num) :=
  List.filter (fun kg => negb (key_eqb key (fst kg))) gs.

(** [participants.has(userId)]. *)
Definition has_participant (userId : Z) (ps : list (Z * string)) : bool :=
  existsb (fun p => (fst p =? userId)%Z) ps.

Definition is_group (chatType : string) : bool :=
  String.eqb chatType "group" || String.eqb chatType "supergroup".

(** The handler of [/gmonad(?:\s+([\d.]+))?] (lines 1229-1314):
    [amountArg] is [parseFloat(match[1])] when the amount was given. *)
Definition gmonad (chatId : Z) (userId chatType : string) (amountArg : option num)
    (message_id : Z) : M num unit :=
  if negb (is_group chatType) then sendMessage env chatId OnlyInGroups ;; ret tt
  else match amountArg with
  | None => sendMessage env chatId InvalidFormat ;; ret tt
  | Some amount =>
      if js_isNaN amount || (amount <=? js_0)%js then
        sendMessage env chatId InvalidAmount ;; ret tt
      else
        w <- get ;;
        match userWallets w !! userId with
        | None => sendMessage env chatId NoWalletYet ;; ret tt
        | Some userWallet =>
            balance <- getWalletBalance (publicKey userWallet) ;;
            let fee := (amount * FEE_PERCENTAGE)%js in
            let totalRequired := (amount + fee + NETWORK_FEE)%js in
            if (balance <? totalRequired)%js then
              sendMessage env chatId (InsufficientBalance (Some totalRequired) balance) ;;
              ret tt
            else
              w <- get ;;
              let giveawayKey := (chatId, clock w) in
              modify (fun w => set_giveaways
                (giveaway_set giveawayKey
                   (mkGiveaway chatId userId userWallet amount fee [] message_id (clock w))
                   (activeGmonadGiveaways w)) w) ;;
              perform env (SetTimer 60000 giveawayKey) ;;
              sendMessage env chatId (GiveawayStarted amount) ;;
              ret tt
        end
  end.

(** Texts are strings of bytes, the UTF-8 encoding of the JavaScript
    string.  [String.prototype.toLowerCase] on the letters A-Z (the
    texts compared below are ASCII, and no other character lowers to
    one of their letters). *)
Definition lower_ascii (c : Ascii.ascii) : Ascii.ascii :=
  let n := Ascii.nat_of_ascii c in
  if ((65 <=? n) && (n <=? 90))%nat then Ascii.ascii_of_nat (n + 32) else c.

Fixpoint toLowerCase (s : string) : string :=
  match s with
  | EmptyString => EmptyString
  | String c rest => String (lower_ascii c) (toLowerCase rest)
  end.

(** [String.prototype.trim] strips the code points of WhiteSpace and
    LineTerminator: U+0009 to U+000D, U+0020, U+00A0, U+1680, U+2000 to
    U+200A, U+2028, U+2029, U+202F, U+205F, U+3000 and U+FEFF.  Their
    encodings take one, two or three bytes. *)
Definition is_white1 (b : nat) : bool :=
  ((b =? 32) || ((9 <=? b) && (b <=? 13)))%nat.

Definition is_white2 (b0 b1 : nat) : bool :=
  ((b0 =? 194) && (b1 =? 160))%nat.                                  (* U+00A0 *)

Definition is_white3 (b0 b1 b2 : nat) : bool :=
  (((b0 =? 225) && (b1 =? 154) && (b2 =? 128))                       (* U+1680 *)
   || ((b0 =? 226) && (b1 =? 128)
       && (((128 <=? b2) && (b2 <=? 138))                            (* U+2000..U+200A *)
           || (b2 =? 168) || (b2 =? 169) || (b2 =? 175)))            (* U+2028, U+2029, U+202F *)
   || ((b0 =? 226) && (b1 =? 129) && (b2 =? 159))                    (* U+205F *)
   || ((b0 =? 227) && (b1 =? 128) && (b2 =? 128))                    (* U+3000 *)
   || ((b0 =? 239) && (b1 =? 187) && (b2 =? 191)))%nat.              (* U+FEFF *)

(** The number of bytes of the white-space code point that the bytes
    [bs] start with, [0] when they start with none. *)
Definition white_space (bs : list nat) : nat :=
  match bs with
  | b0 :: rest =>
      if is_white1 b0 then 1
      else match rest with
           | b1 :: rest' =>
               if is_white2 b0 b1 then 2
               else match rest' with
                    | b2 :: _ => if is_white3 b0 b1 b2 then 3 else 0
                    | [] => 0
                    end
           | [] => 0
           end
  | [] => 0
  end%nat.

(** The same at the end of a text, on its bytes in reverse order. *)
Definition white_space_rev (bs : list nat) : nat :=
  match bs with
  | b2 :: rest =>
      if is_white1 b2 then 1
      else match rest with
           | b1 :: rest' =>
               if is_white2 b1 b2 then 2
               else match rest' with
                    | b0 :: _ => if is_white3 b0 b1 b2 then 3 else 0
                    | [] => 0
                    end
           | [] => 0
           end
  | [] => 0
  end%nat.

(** Strips the code points [width] recognises from the front of [s];
    [fuel] bounds their number, and the length of [s] is enough. *)
Fixpoint strip (width : list nat -> nat) (fuel : nat) (s : list Ascii.ascii)
    : list Ascii.ascii :=
  match fuel with
  | O => s
  | S fuel' =>
      match width (map Ascii.nat_of_ascii s) with
      | O => s
      | n => strip width fuel' (skipn n s)
      end
  end.

Definition trimStart (s : list Ascii.ascii) : list Ascii.ascii :=
  strip white_space (length s) s.

Definition trimEnd (s : list Ascii.ascii) : list Ascii.ascii :=
  rev (strip white_space_rev (length s) (rev s)).

Definition trim (s : string) : string :=
  string_of_list_ascii (trimEnd (trimStart (list_ascii_of_string s))).

(** The text that enters a giveaway. *)
Definition is_entry (text : string) : bool :=
  String.eqb text "gmonad" || String.eqb text "gm" || String.eqb text "gm monad".

(** The [for ... of activeGmonadGiveaways.entries()] loop of the entry
    listener: the first giveaway of the chat takes the entry (unless the
    user is in it already), and the loop [break]s.  The flag tells whether
    a participant was added. *)
Fixpoint enter (chatId userId : Z) (username : string)
    (gs : list ((Z * Z) * Giveaway num)) : list ((Z * Z) * Giveaway num) * bool :=
  match gs with
  | [] => ([], false)
  | (key, giveaway) :: rest =>
      if (g_chatId giveaway =? chatId)%Z then
        if has_participant userId (participants giveaway) then ((key, giveaway) :: rest, false)
        else ((key, g_set_participants giveaway
                      (participants giveaway ++ [(userId, username)])) :: rest, true)
      else
        let (rest', added) := enter chatId userId username rest in
        ((key, giveaway) :: rest', added)
  end.

(** The [message] listener for entries (lines 1317-1344). *)
Definition gmonad_message (chatId userId : Z) (msg_text username : option string)
    : M num unit :=
  let text := option_map (fun t => trim (toLowerCase t)) msg_text in
  match text, username with
  | Some text, Some username =>
      if String.eqb text "" || String.eqb username "" then ret tt
      else if is_entry text then
        w <- get ;;
        let (gs, added) := enter chatId userId username (activeGmonadGiveaways w) in
        modify (set_giveaways gs) ;;
        if added then console_log env "User entered giveaway" else ret tt
      else ret tt
  | _, _ => ret tt
  end.

(** The transfers of [closeGmonadGiveaway] (lines 1364-1431). *)
Definition giveaway_transfers (giveaway : Giveaway num) (winner : string)
    (entered : nat) : M num unit :=
  let sender := publicKey (senderWallet giveaway) in
  let recipientUsername := toLowerCase winner in
  recipientWallet <- getOrCreateClaimWallet recipientUsername (senderId giveaway) ;;
  rateLimitedDelay ;;
  nonce <- call env (RpcGetTransactionCount sender "latest")
                    (env_getTransactionCount env) ;;
  value <- lift (env_parseEther env (g_amount giveaway)) ;;
  let tx := mkTx (cw_publicKey recipientWallet) value (Some nonce) in
  transaction <- sendTransaction3 sender tx no_options ;;
  rateLimitedDelay ;;
  feeNonce <- call env (RpcGetTransactionCount sender "latest")
                       (env_getTransactionCount env) ;;
  feeValue <- lift (env_parseEther env (g_fee giveaway)) ;;
  let feeTx := mkTx FEES_WALLET feeValue (Some feeNonce) in
  sendTransaction3 sender feeTx no_options ;;
  accrue recipientUsername recipientWallet (g_amount giveaway) ;;
  call env (DbInsert "tips"
              (mkTipRow (senderId giveaway) recipientUsername (g_amount giveaway)
                        (g_fee giveaway) transaction))
           (env_db env) ;;
  sendMessage env (g_chatId giveaway)
    (GiveawayWinner winner (g_amount giveaway) entered transaction) ;;
  ret tt.

(** [closeGmonadGiveaway(giveawayKey)] (lines 1347-1439). *)
Definition closeGmonadGiveaway (giveawayKey : Z * Z) : M num unit :=
  w <- get ;;
  match giveaway_get giveawayKey (activeGmonadGiveaways w) with
  | None => ret tt
  | Some giveaway =>
      let entries := participants giveaway in
      match entries with
      | [] =>
          sendMessage env (g_chatId giveaway) GiveawayNoParticipants ;;
          modify (fun w => set_giveaways
                    (giveaway_delete giveawayKey (activeGmonadGiveaways w)) w)
      | first :: _ =>
          pick <- call env MathRandom
                    (fun n => Ok (env_random env n (length entries) mod length entries)%nat) ;;
          let winner := snd (nth pick entries first) in
          console_log env "GM giveaway winner" ;;
          try_catch
            (giveaway_transfers giveaway winner (length entries))
            (fun error =>
               console_error env "GM giveaway error:" error ;;
               sendMessage env (g_chatId giveaway) (PrizeFailed (message error)) ;;
               ret tt) ;;
          modify (fun w => set_giveaways
                    (giveaway_delete giveawayKey (activeGmonadGiveaways w)) w)
      end
  end.

(** The timer set by [/gmonad], firing 60 s after it (lines 1292-1300). *)
Definition gmonad_timer (chatId : Z) (giveawayKey : Z * Z) : M num unit :=
  w <- get ;;
  match giveaway_get giveawayKey (activeGmonadGiveaways w) with
  | Some giveaway =>
      if (0 <? length (participants giveaway))%nat then closeGmonadGiveaway giveawayKey
      else
        modify (fun w => set_giveaways
                  (giveaway_delete giveawayKey (activeGmonadGiveaways w)) w) ;;
        sendMessage env chatId GiveawayNoParticipants ;;
        ret tt
  | None => ret tt
  end.

(** *** [/random <winners> <role> <amount>]: the draw among the administrators *)

Definition is_admin_status (status : string) : bool :=
  String.eqb status "creator" || String.eqb status "administrator".

Definition is_role (role : string) : bool :=
  String.eqb role "admin" || String.eqb role "member" || String.eqb role "all".

(** Lines 1092-1115: the administrators with a username that are
    neither bots nor the caller, as [(id, username)]; the filter is the
    same for every role. *)
Definition eligibleMembers (fromId : Z) (admins : list ChatUser) : list (Z * string) :=
  flat_map
    (fun admin =>
       match user_username admin with
       | Some username =>
           if negb (String.eqb username "") && negb (user_is_bot admin)
              && negb (user_id admin =? fromId)%Z
           then [(user_id admin, username)] else []
       | None => []
       end)
    admins.

(** [[shuffled[i], shuffled[j]] = [shuffled[j], shuffled[i]]]. *)
Definition swap {A} (i j : nat) (l : list A) : list A :=
  match l !! i, l !! j with
  | Some a, Some b => <[i := b]> (<[j := a]> l)
  | _, _ => l
  end.

(** The Fisher-Yates loop (lines 1128-1131), from index [i] down to 1;
    [j] is [Math.floor(Math.random() * (i + 1))]. *)
Fixpoint shuffle_from {A} (i : nat) (shuffled : list A) : M num (list A) :=
  match i with
  | O => ret shuffled
  | S i' =>
      j <- call env MathRandom (fun n => Ok (env_random env n (S i) mod S i)%nat) ;;
      shuffle_from i' (swap i j shuffled)
  end.

(** The body of the loop over the winners (lines 1142-1191): the two
    transfers and the bookkeeping for one winner; an error is logged and
    the winner counted as failed. *)
Definition random_tip (userId sender : string) (amount fee : num) (winner : Z * string)
    : M num bool :=
  try_catch
    (let recipientUsername := toLowerCase (snd winner) in
     recipientWallet <- getOrCreateClaimWallet recipientUsername userId ;;
     rateLimitedDelay ;;
     nonce <- call env (RpcGetTransactionCount sender "latest")
                       (env_getTransactionCount env) ;;
     value <- lift (env_parseEther env amount) ;;
     let tx := mkTx (cw_publicKey recipientWallet) value (Some nonce) in
     transaction <- sendTransaction3 sender tx no_options ;;
     rateLimitedDelay ;;
     feeNonce <- call env (RpcGetTransactionCount sender "latest")
                          (env_getTransactionCount env) ;;
     feeValue <- lift (env_parseEther env fee) ;;
     let feeTx := mkTx FEES_WALLET feeValue (Some feeNonce) in
     sendTransaction3 sender feeTx no_options ;;
     accrue recipientUsername recipientWallet amount ;;
     call env (DbInsert "tips" (mkTipRow userId recipientUsername amount fee transaction))
              (env_db env) ;;
     ret true)
    (fun error =>
       console_error env ("Error tipping " ++ snd winner ++ ":") error ;;
       ret false).

(** The loop itself: each winner with the outcome of its tip. *)
Fixpoint random_tips (userId sender : string) (amount fee : num)
    (winners : list (Z * string)) : M num (list (string * bool)) :=
  match winners with
  | [] => ret []
  | winner :: rest =>
      sent <- random_tip userId sender amount fee winner ;;
      outcomes <- random_tips userId sender amount fee rest ;;
      ret ((snd winner, sent) :: outcomes)
  end.

(** The [try] block of [/random] (lines 1088-1222). *)
Definition random_draw (chatId fromId : Z) (userId role : string) (numberOfWinners : nat)
    (amount fee : num) (userWallet : Wallet) : M num unit :=
  admins <- call env (BotGetChatAdministrators chatId) (env_getChatAdministrators env) ;;
  let eligible := eligibleMembers fromId admins in
  if (length eligible =? 0)%nat then
    sendMessage env chatId (NoEligibleMembers role) ;; ret tt
  else if (length eligible <? numberOfWinners)%nat then
    sendMessage env chatId (NotEnoughMembers (length eligible) numberOfWinners) ;; ret tt
  else
    shuffled <- shuffle_from (length eligible - 1) eligible ;;
    let winners := take numberOfWinners shuffled in
    sendMessage env chatId (DrawingWinners numberOfWinners) ;;
    outcomes <- random_tips userId (publicKey userWallet) amount fee winners ;;
    let successfulWinners := map fst (List.filter snd outcomes) in
    let failedWinners := map fst (List.filter (fun o => negb (snd o)) outcomes) in
    botUsername <- call env BotGetMe (env_getMe env) ;;
    sendMessage env chatId
      (RandomComplete amount successfulWinners botUsername failedWinners) ;;
    ret tt.

(** The handler of [/random(?:\s+(\d+)\s+(\w+)\s+([\d.]+))?] (lines
    1008-1227): [fromId] is [msg.from.id], [userId] its decimal string,
    and [args], when the three groups matched, holds
    [parseInt(match[1])], [match[2]] and [parseFloat(match[3])]. *)
Definition random (chatId fromId : Z) (userId chatType : string)
    (args : option (nat * string * num)) : M num unit :=
  if negb (is_group chatType) then sendMessage env chatId OnlyInGroups ;; ret tt
  else
    admin <- try_catch
      (status <- call env (BotGetChatMember chatId fromId) (env_getChatMember env) ;;
       if is_admin_status status then ret true
       else sendMessage env chatId OnlyAdmins ;; ret false)
      (fun error =>
         console_error env "Error checking admin status:" error ;;
         sendMessage env chatId AdminCheckFailed ;;
         ret false) ;;
    if negb admin then ret tt
    else match args with
    | None => sendMessage env chatId RandomUsage ;; ret tt
    | Some (numberOfWinners, match2, amount) =>
        let role := toLowerCase match2 in
        if ((numberOfWinners <=? 0) || (50 <? numberOfWinners))%nat then
          sendMessage env chatId WinnersOutOfRange ;; ret tt
        else if js_isNaN amount || (amount <=? js_0)%js then
          sendMessage env chatId InvalidAmount ;; ret tt
        else if negb (is_role role) then
          sendMessage env chatId InvalidRole ;; ret tt
        else
          w <- get ;;
          match userWallets w !! userId with
          | None => sendMessage env chatId NoWalletYet ;; ret tt
          | Some userWallet =>
              balance <- getWalletBalance (publicKey userWallet) ;;
              let fee := (amount * FEE_PERCENTAGE)%js in
              let totalPerWinner := (amount + fee + NETWORK_FEE)%js in
              let totalRequired := (totalPerWinner * js_of_nat numberOfWinners)%js in
              if (balance <? totalRequired)%js then
                sendMessage env chatId
                  (InsufficientForWinners totalRequired balance amount numberOfWinners) ;;
                ret tt
              else
                try_catch
                  (random_draw chatId fromId userId role numberOfWinners amount fee
                               userWallet)
                  (fun error =>
                     console_error env "Random giveaway error:" error ;;
                     sendMessage env chatId (GiveawayFailed (message error)) ;;
                     ret tt)
          end
    end.

End Handlers.
End Monad.

(** ** The Solana bot ([src/bot.js]) *)

Module Solana.
Section Handlers.
Context {num : Type} {NUM : JsNumber num} (env : Env num).

Definition FEES_WALLET : string := "DB3NZgGPsANwp5RBBMEK2A9ehWeN41QCELRt8WYyL8d8".
Definition FEE_PERCENTAGE : num := js_0_10.
Definition NETWORK_FEE : num := js_0_000005.
Definition LAMPORTS_PER_SOL : num := js_1000000000.

(** [getWalletBalance(publicKey)]. *)
Definition getWalletBalance (publicKey : string) : M num num :=
  try_catch
    (if env_isPublicKey env (Some publicKey)
     then call env (SolGetBalance publicKey) (env_sol_getBalance env)
     else throw (error "Invalid public key input"))
    (fun e => console_error env "Error getting balance:" e ;; ret js_0).

(** [checkTransactionStatus(connection, signature, maxRetries)]. *)
Fixpoint checkTransactionStatus (signature : string) (maxRetries : nat) : M num bool :=
  match maxRetries with
  | O => ret false
  | S n =>
      found <- try_catch
        (confirmed <- call env (SolGetSignatureStatus signature)
                               (env_sol_getSignatureStatus env) ;;
         if confirmed then ret true
         else sleep env StatusPoll 2000 ;; ret false)
        (fun e => console_error env "Error checking transaction status" e ;; ret false) ;;
      if found then ret true else checkTransactionStatus signature n
  end.

(** The inner [try]/[catch] of the three transfer flows (lines 411-428,
    825-842, 1061-1078): the confirmation raced against a 30 s timer and,
    when that throws, the status re-check by signature. *)
Definition confirm_or_recheck (signature : string) : M num unit :=
  try_catch
    (confirmation <- call env (SolConfirmTransaction signature)
                              (fun n => Ok (env_sol_confirm env n)) ;;
     match confirmation with
     | Confirmed true => throw (error "Transaction failed to confirm")
     | Confirmed false => ret tt
     | ConfirmRejected e => throw e
     | ConfirmTimeout => throw (error "Transaction confirmation timeout")
     end)
    (fun confirmError =>
       isConfirmed <- checkTransactionStatus signature 3 ;;
       if isConfirmed then ret tt else throw confirmError).

(** Building, signing and submitting a transaction of [transfers], then
    its confirmation. *)
Definition submit (payer : string) (transfers : list (string * num)) : M num string :=
  blockhash <- call env SolGetLatestBlockhash (env_sol_getLatestBlockhash env) ;;
  let transaction :=
    mkSolTransaction
      (map (fun t => mkTransfer payer (fst t) (snd t * LAMPORTS_PER_SOL)%js) transfers)
      blockhash payer in
  signature <- call env (SolSendTransaction transaction) (env_sol_sendTransaction env) ;;
  confirm_or_recheck signature ;;
  ret signature.

(** The outer [catch] of the three flows (lines 453-490, 879-927,
    1103-1137): after the log it calls [checkTransactionStatus(connection,
    signature)], and [signature] is a [const] of the [try] block, out of
    scope here: a ReferenceError leaves the handler. *)
Definition outer_catch {A} (tag : string) (error : Error) : M num A :=
  console_error env tag error ;;
  throw (ReferenceError "signature").

(** Lines 758-773: the target's claim wallet, with the tip already added
    to its [amount]. *)
Definition resolveClaimWallet (targetUsername fromUserId : string) (amount : num)
    : M num (ClaimWallet num) :=
  w <- get ;;
  match claimWallets w !! targetUsername with
  | Some stored =>
      let targetWallet := cw_set_amount stored (js_or_0 (cw_amount stored) + amount)%js in
      modify (fun w => set_claimWallets
                         (<[targetUsername := targetWallet]> (claimWallets w)) w) ;;
      ret targetWallet
  | None =>
      newWallet <- createRandom env ;;
      let targetWallet :=
        mkClaimWallet (privateKey newWallet) (publicKey newWallet) fromUserId amount in
      modify (fun w => set_claimWallets
                         (<[targetUsername := targetWallet]> (claimWallets w)) w) ;;
      ret targetWallet
  end.

(** The handler of [/tip @user amount] (lines 720-928). *)
Definition tip (chatId : Z) (fromUserId targetUsername : string) (amount : num)
    : M num unit :=
  if js_isNaN amount || (amount <=? js_0)%js then
    sendMessage env chatId InvalidAmount ;; ret tt
  else
    let feeAmount := (amount * FEE_PERCENTAGE)%js in
    let totalAmount := (amount + feeAmount)%js in
    w <- get ;;
    match userWallets w !! fromUserId with
    | None => sendMessage env chatId NoWalletYet ;; ret tt
    | Some senderWallet =>
        balance <- getWalletBalance (publicKey senderWallet) ;;
        if (balance <? totalAmount)%js then
          sendMessage env chatId (InsufficientBalance (Some totalAmount) balance) ;;
          ret tt
        else
          targetWallet <- resolveClaimWallet targetUsername fromUserId amount ;;
          try_catch
            (processingMsg <- sendMessage env chatId (Processing amount) ;;
             saveClaimWallet env targetUsername targetWallet ;;
             signature <- submit (publicKey senderWallet)
                            [(cw_publicKey targetWallet, amount); (FEES_WALLET, feeAmount)] ;;
             call env (DbInsert "tips"
                         (mkTipRow fromUserId targetUsername amount feeAmount signature))
                      (env_db env) ;;
             call env (BotDeleteMessage chatId processingMsg) (env_bot env) ;;
             sendMessage env chatId (TipSent amount feeAmount targetUsername signature) ;;
             ret tt)
            (outer_catch "Transfer error:")
    end.

(** The callback query [transfer_all_<username>] (lines 345-491), with
    the [answerCallbackQuery] that ends the listener (line 716) when the
    branch neither returned nor threw; [callbackQueryId] is
    [callbackQuery.id]. *)
Definition transfer_all (chatId : Z) (userId username callbackQueryId : string)
    : M num unit :=
  w <- get ;;
  match claimWallets w !! username, userWallets w !! userId with
  | None, _ => sendMessage env chatId NoClaimWallet ;; ret tt
  | Some _, None => sendMessage env chatId NoFundingWallet ;; ret tt
  | Some claimWallet, Some fundingWallet =>
      balance <- getWalletBalance (cw_publicKey claimWallet) ;;
      if (balance <=? js_0)%js then
        sendMessage env chatId NoFundsAvailable ;; ret tt
      else
        let maxTransferAmount := (balance - NETWORK_FEE)%js in
        if (maxTransferAmount <=? js_0)%js then
          sendMessage env chatId (InsufficientBalance (Some NETWORK_FEE) balance) ;; ret tt
        else
          try_catch
            (processingMsg <- sendMessage env chatId (Processing maxTransferAmount) ;;
             signature <- submit (cw_publicKey claimWallet)
                            [(publicKey fundingWallet, maxTransferAmount)] ;;
             call env (BotDeleteMessage chatId processingMsg) (env_bot env) ;;
             sendMessage env chatId (TransferSuccessful maxTransferAmount signature) ;;
             ret tt)
            (outer_catch "Transfer error:") ;;
          call env (BotAnswerCallbackQuery callbackQueryId) (env_bot env) ;;
          ret tt
  end.

(** The [message] listener of the withdrawal conversation (lines
    973-1140): [amount] is [parseFloat(text)]. *)
Definition withdrawal_message (chatId userId : Z) (text : option string)
    (amount : num) : M num unit :=
  w <- get ;;
  match withdrawalState w !! userId with
  | Some (wd_step username destination) =>
      match claimWallets w !! username with
      | None =>
          modify (fun w => set_withdrawalState (delete userId (withdrawalState w)) w) ;;
          sendMessage env chatId NoClaimWallet ;; ret tt
      | Some wallet =>
          match destination with
          | None =>
              try_catch
                (if env_isPublicKey env text then
                   modify (fun w => set_withdrawalState
                             (<[userId := wd_step username text]> (withdrawalState w)) w) ;;
                   balance <- getWalletBalance (cw_publicKey wallet) ;;
                   sendMessage env chatId (EnterAmount balance) ;; ret tt
                 else throw (error "Invalid public key input"))
                (fun _ => sendMessage env chatId InvalidAddress ;; ret tt)
          | Some destinationAddress =>
              if js_isNaN amount || (amount <=? js_0)%js then
                sendMessage env chatId InvalidAmount ;; ret tt
              else
                balance <- getWalletBalance (cw_publicKey wallet) ;;
                if (balance <? amount)%js then
                  sendMessage env chatId (InsufficientBalance None balance) ;; ret tt
                else
                  try_catch
                    (processingMsg <- sendMessage env chatId (Processing amount) ;;
                     signature <- submit (cw_publicKey wallet)
                                    [(destinationAddress, amount)] ;;
                     call env (BotDeleteMessage chatId processingMsg) (env_bot env) ;;
                     sendMessage env chatId
                       (WithdrawalSuccessful amount destinationAddress signature) ;;
                     modify (fun w => set_withdrawalState
                               (delete userId (withdrawalState w)) w))
                    (outer_catch "Withdrawal error:")
          end
      end
  | _ => ret tt
  end.

End Handlers.
End Solana.

(** ** The rate governor under concurrent handlers

    Telegram updates start handlers that overlap at every [await].
    [rateLimitedDelay] has one [await], between its read of [lastRpcCall]
    (lines 36-37) and its write (line 41); an invocation is therefore two
    atomic steps when it has to wait, one when it has not. *)

Module Governor.

(** An invocation: not started, suspended on its timer until a time, or
    returned at a time (its caller issues the RPC call then). *)
Inductive Invocation : Type :=
| Pending
| Suspended (until : Z)
| Released (at_time : Z).

Record State := mkState {
  now : Z;                       (* Date.now() *)
  lastRpcCall : Z;
  invocations : list Invocation
}.

Inductive Action : Type :=
| Enter (i : nat)     (* lines 36-39: read, compare, set the timer *)
| Resume (i : nat)    (* line 41, after the timer fired *)
| Tick (ms : N).      (* time passes *)

Definition MIN_RPC_DELAY : Z := 100.

Definition step (a : Action) (s : State) : option State :=
  match a with
  | Tick ms => Some (mkState (now s + Z.of_N ms) (lastRpcCall s) (invocations s))
  | Enter i =>
      match invocations s !! i with
      | Some Pending =>
          let timeSinceLastCall := now s - lastRpcCall s in
          if (timeSinceLastCall <? MIN_RPC_DELAY)%Z then
            Some (mkState (now s) (lastRpcCall s)
                    (<[i := Suspended (now s + (MIN_RPC_DELAY - timeSinceLastCall))]>
                       (invocations s)))
          else
            Some (mkState (now s) (now s) (<[i := Released (now s)]> (invocations s)))
      | _ => None
      end
  | Resume i =>
      match invocations s !! i with
      | Some (Suspended until) =>
          if (until <=? now s)%Z then
            Some (mkState (now s) (now s) (<[i := Released (now s)]> (invocations s)))
          else None
      | _ => None
      end
  end.

Fixpoint run (schedule : list Action) (s : State) : option State :=
  match schedule with
  | [] => Some s
  | a :: rest => match step a s with
                 | Some s' => run rest s'
                 | None => None
                 end
  end.

End Governor.

(** ** Number instances *)

#[local] Set Warnings "-inexact-float".

(** Binary64, the numbers of the JavaScript runtime. *)
#[export] Instance float_JsNumber : JsNumber float := {|
  js_0 := 0%float;
  js_0_10 := 0.10%float;
  js_0_000005 := 0.000005%float;
  js_0_0001 := 0.0001%float;
  js_0_00001 := 0.00001%float;
  js_1000000000 := 1000000000%float;
  js_of_nat := fun n => PrimFloat.of_uint63 (Uint63.of_Z (Z.of_nat n));
  js_add := PrimFloat.add;
  js_sub := PrimFloat.sub;
  js_mul := PrimFloat.mul;
  js_lt := PrimFloat.ltb;
  js_le := PrimFloat.leb;
  js_isNaN := PrimFloat.is_nan;
  js_truthy := fun x => negb (PrimFloat.is_nan x || PrimFloat.is_zero x)
|}.

(** Exact rationals: arithmetic without rounding, no NaN. *)
#[export] Instance Q_JsNumber : JsNumber Q := {|
  js_0 := 0%Q;
  js_0_10 := (1 # 10)%Q;
  js_0_000005 := (1 # 200000)%Q;
  js_0_0001 := (1 # 10000)%Q;
  js_0_00001 := (1 # 100000)%Q;
  js_1000000000 := (1000000000 # 1)%Q;
  js_of_nat := fun n => inject_Z (Z.of_nat n);
  js_add := fun x y => Qred (x + y);
  js_sub := fun x y => Qred (x - y);
  js_mul := fun x y => Qred (x * y);
  js_lt := fun x y => negb (Qle_bool y x);
  js_le := Qle_bool;
  js_isNaN := fun _ => false;
  js_truthy := fun x => negb (Qeq_bool x 0)
|}.

(** ** Signs of binary64 numbers, on their specification *)

(** The smallest exponent of binary64. *)
Definition emin64 : Z := -1074.

(** A strictly positive number, and one that is positive or zero. *)
Definition SFpositive (x : spec_float) : bool :=
  match x with
  | S754_finite false _ _ | S754_infinity false => true
  | _ => false
  end.

Definition SFnonneg (x : spec_float) : bool :=
  match x with
  | S754_finite false _ _ | S754_infinity false | S754_zero _ => true
  | _ => false
  end.

(** One, as the specification has it. *)
Definition SFone64 : spec_float := S754_finite false 4503599627370496 (-52).

(** * Observations

    What the theorems say about a run: which events it added to the
    trace, which stores it left alone, when the governor let it go. *)

Section Observations.
Context {num : Type} {NUM : JsNumber num} (env : Env num).

(** The time at which [rateLimitedDelay], entered in [w], returns. *)
Definition slot (w : World num) : Z :=
  let since := clock w - lastRpcCall w in
  if (since <? Monad.MIN_RPC_DELAY)%Z
  then clock w + (Monad.MIN_RPC_DELAY - since) + Z.of_N (env_elapsed env (length (trace w)))
  else clock w.

(** The events of [m] retries of the executor: each is the log line, the
    two-second pause, the nonce query and the submission with the nonce
    it answered. *)
Fixpoint retries (address : string) (tx : Tx) (nonces : nat -> Z) (m : nat)
    : list (Event num) :=
  match m with
  | O => []
  | S m' =>
      [ConsoleLog "Error detected, retrying...";
       Sleep RetryBackoff 2000;
       RpcGetTransactionCount address "latest";
       RpcSendTransaction address (tx_with_nonce tx (nonces O))]
      ++ retries address tx (fun j => nonces (S j)) m'
  end.

(** [w'] extends the trace of [w] by events that all satisfy [ok]. *)
Definition adds (ok : Event num -> bool) (w w' : World num) : Prop :=
  exists evs, trace w' = trace w ++ evs /\ forallb ok evs = true.

(** [w'] holds the wallets, the withdrawal conversations and the
    giveaways of [w]. *)
Definition same_store (w w' : World num) : Prop :=
  userWallets w' = userWallets w /\ claimWallets w' = claimWallets w
  /\ withdrawalState w' = withdrawalState w
  /\ activeGmonadGiveaways w' = activeGmonadGiveaways w.

Definition quiet (ok : Event num -> bool) (w w' : World num) : Prop :=
  adds ok w w' /\ same_store w w'.

(** Every run of [m] is related to its start by [R]. *)
Definition Respects (R : World num -> World num -> Prop) {A} (m : M num A) : Prop :=
  forall w, R w (snd (m w)).

Definition RespectsOptions (R : World num -> World num -> Prop)
    (options : Monad.Options) : Prop :=
  (forall f, Monad.onSent options = Some f -> forall t, Respects R (f t))
  /\ (forall f, Monad.onConfirming options = Some f -> forall t, Respects R (f t))
  /\ (forall f, Monad.onConfirmed options = Some f -> forall t, Respects R (f t)).

(** What the executor, the status display and the failure log add to the
    trace. *)
Definition transfer_event (e : Event num) : bool :=
  match e with
  | RpcGetTransactionCount _ _ | RpcSendTransaction _ _ | RpcWait _
  | Sleep _ _ | ConsoleLog _ | ConsoleError _ _ | BotEditMessageText _ _ _ => true
  | _ => false
  end.

(** What a status callback of [/pay] adds. *)
Definition status_event (e : Event num) : bool :=
  match e with
  | BotEditMessageText _ _ _ | ConsoleError _ _ => true
  | _ => false
  end.

Definition any_event (e : Event num) : bool := true.

(** Every event but a status query by transaction reference. *)
Definition not_requery (e : Event num) : bool :=
  match e with
  | RpcGetTransactionReceipt _ | SolGetSignatureStatus _ => false
  | _ => true
  end.

(** Every event but a call to the chain. *)
Definition off_chain (e : Event num) : bool :=
  match e with
  | RpcGetBalance _ | RpcGetTransactionCount _ _ | RpcSendTransaction _ _ | RpcWait _
  | RpcEstimateGas _ _ | RpcGetFeeData | RpcGetTransactionReceipt _
  | SolGetBalance _ | SolGetLatestBlockhash | SolSendTransaction _
  | SolConfirmTransaction _ | SolGetSignatureStatus _ => false
  | _ => true
  end.

(** The rows a trace inserted, with their tables. *)
Fixpoint inserted (tr : list (Event num)) : list (string * TipRow num) :=
  match tr with
  | [] => []
  | DbInsert table row :: rest => (table, row) :: inserted rest
  | _ :: rest => inserted rest
  end.

(** The claim wallets a trace upserted. *)
Fixpoint upserted (tr : list (Event num)) : list (string * ClaimWallet num) :=
  match tr with
  | [] => []
  | DbUpsertClaimWallet username wallet :: rest => (username, wallet) :: upserted rest
  | _ :: rest => upserted rest
  end.

(** The messages a trace sent to a chat. *)
Fixpoint sent_to (chatId : Z) (tr : list (Event num)) : list (Message num) :=
  match tr with
  | [] => []
  | BotSendMessage c m :: rest =>
      if (c =? chatId)%Z then m :: sent_to chatId rest else sent_to chatId rest
  | _ :: rest => sent_to chatId rest
  end.

(** Every run of [m] adds [e] to the trace first. *)
Definition Starts (e : Event num) {A} (m : M num A) : Prop :=
  forall w, exists rest, trace (snd (m w)) = trace w ++ e :: rest.

(** The status callbacks [/pay] hands to the executor. *)
Definition pay_options (chatId : Z) (recipientUsername : string) (amount : num)
    (statusMessage : Z) : Monad.Options :=
  let set := Monad.setStatus env chatId statusMessage recipientUsername amount in
  Monad.mkOptions (Some (fun hash => set (Monad.status_sent hash)))
                  (Some (fun _ => set Monad.status_confirming))
                  (Some (fun hash => set (Monad.status_confirmed hash))).

(** The status is not marked failed; the status is untouched. *)
Definition keeps_failed (w w' : World num) : Prop := failed (status w') = failed (status w).
Definition keeps_status (w w' : World num) : Prop := status w' = status w.

(** The source of a withdrawal of the Monad bot: the address of the
    wallet the conversation holds. *)
Definition wd_address (state : Withdrawal num) : option string :=
  match state with
  | wd_claim _ claimWallet => Some (cw_publicKey claimWallet)
  | wd_funding userWallet => Some (publicKey userWallet)
  | wd_step _ _ => None
  end.

(** The world once the withdrawal conversation of [userId] is closed. *)
Definition withdrawal_closed (userId : Z) (w : World num) : World num :=
  set_withdrawalState (delete userId (withdrawalState w)) w.

(** The world after the balance query of the Monad bot was answered. *)
Definition asked_balance (address : string) (w : World num) : World num :=
  snd (perform env (RpcGetBalance address)
         (set_lastRpcCall (slot w) (set_clock (slot w) w))).

(** The claim wallet [/tip] leaves in [claimWallets] for the target
    before it sends anything: the stored one with the tip added to its
    amount, or a fresh one holding the tip. *)
Definition tip_accrual (target fromUserId : string) (amount : num) (w : World num)
    : ClaimWallet num :=
  match claimWallets w !! target with
  | Some stored => cw_set_amount stored (js_or_0 (cw_amount stored) + amount)%js
  | None =>
      let newWallet := env_createRandom env (calls_of KCreateRandom (trace w)) in
      mkClaimWallet (privateKey newWallet) (publicKey newWallet) fromUserId amount
  end.

(** The world after an event, and after a turn of the governor. *)
Definition after (e : Event num) (w : World num) : World num := snd (perform env e w).
Definition delayed (w : World num) : World num := snd (Monad.rateLimitedDelay env w).

(** No user id occurs twice among the participants of a giveaway. *)
Definition distinct_participants (gs : list ((Z * Z) * Giveaway num)) : Prop :=
  Forall (fun kg => List.NoDup (map fst (participants (snd kg)))) gs.

End Observations.

(** * Example runs

    Concrete chains, databases and chats, on which the theorems are
    instantiated and the counterexamples run. *)

Module Examples.

#[local] Set Warnings "-inexact-float".

Section Scripts.
Context {num : Type} {NUM : JsNumber num}.

(** An environment from the answers that differ between the examples.
    The gas estimate is 21000 at 50 gwei, receipts report success, every
    text is an address, fresh keys are always the same pair, the random
    pick is the first entry, the caller administers a chat without other
    administrators, and every event takes 5 ms. *)
Definition script
    (balance : nat -> result num) (nonce : nat -> result Z)
    (send : nat -> result string) (wait : nat -> result unit)
    (parseEther : num -> result Z) (formatEther : Z -> num)
    (db : nat -> result unit) (bot : nat -> result Z)
    (sol_send : nat -> result string) (confirm : nat -> Confirmation)
    (signatureStatus : nat -> result bool) : Env num :=
  {| env_getBalance := balance;
     env_getTransactionCount := nonce;
     env_sendTransaction := send;
     env_wait := wait;
     env_estimateGas := fun _ => Ok 21000;
     env_getFeeData := fun _ => Ok 50000000000;
     env_getTransactionReceipt := fun _ => Ok (Some 1);
     env_parseEther := parseEther;
     env_formatEther := formatEther;
     env_isAddress := fun text => match text with Some _ => true | None => false end;
     env_isPublicKey := fun text => match text with Some _ => true | None => false end;
     env_createRandom := fun _ => mkWallet "claim-key" "0xclaim";
     env_random := fun _ _ => O;
     env_db := db;
     env_bot := bot;
     env_getChatMember := fun _ => Ok "administrator";
     env_getChatAdministrators := fun _ => Ok [];
     env_getMe := fun _ => Ok "TipMonadBot";
     env_elapsed := fun _ => 5%N;
     env_sol_getBalance := balance;
     env_sol_getLatestBlockhash := fun _ => Ok "blockhash";
     env_sol_sendTransaction := sol_send;
     env_sol_confirm := confirm;
     env_sol_getSignatureStatus := signatureStatus |}.

Definition sender : Wallet := mkWallet "sender-key" "0xsender".

Definition bobs_wallet (accrued : num) : ClaimWallet num :=
  mkClaimWallet "claim-key" "0xclaim" "42" accrued.

(** User 42 has a funding wallet; nobody has a claim wallet. *)
Definition start : World num :=
  mkWorld 1000 0 [] {[ "42" := sender ]} ∅ ∅ [] Monad.initial_status.

(** The same, and bob has a claim wallet with [accrued] on it. *)
Definition start_with_claim (accrued : num) : World num :=
  mkWorld 1000 0 [] {[ "42" := sender ]} {[ "bob" := bobs_wallet accrued ]} ∅ []
          Monad.initial_status.

(** An open giveaway of chat 7 that nobody entered. *)
Definition empty_giveaway (amount fee : num) : Giveaway num :=
  mkGiveaway 7 "42" sender amount fee [] 1 940.

(** User 42 (whose Telegram id is 42) was asked for the address to
    withdraw the funding wallet to. *)
Definition start_withdrawing : World num :=
  mkWorld 1000 0 [] {[ "42" := sender ]} ∅ {[ 42 := wd_funding sender ]} []
          Monad.initial_status.

Definition start_with_giveaway (amount fee : num) : World num :=
  mkWorld 61000 0 [] {[ "42" := sender ]} ∅ ∅ [((7, 940), empty_giveaway amount fee)]
          Monad.initial_status.

End Scripts.

Definition one : float := 1%float.

Definition always {A} (a : A) : nat -> result A := fun _ => Ok a.
Definition never {A} (e : Error) : nat -> result A := fun _ => Throw e.
Definition first_then {A} (a : result A) (rest : result A) : nat -> result A :=
  fun n => match n with O => a | S _ => rest end.
Definition counting_from (start : Z) : nat -> result Z := fun n => Ok (start + Z.of_nat n).

(** [ethers.parseEther] on the decimal strings of the amounts the float
    examples use, and [formatEther] on the gas cost. *)
Definition parseEther_float (x : float) : result Z :=
  if PrimFloat.eqb x 1 then Ok 1000000000000000000
  else if PrimFloat.eqb x 0.1 then Ok 100000000000000000
  else Throw (error "invalid decimal value").

Definition formatEther_float (wei : Z) : float :=
  if (wei =? 1050000000000000)%Z then 0.00105%float else 0%float.

(** The same on exact rationals: a whole number of wei, rounded down. *)
Definition parseEther_Q (x : Q) : result Z :=
  Ok ((Qnum x * 1000000000000000000) / Z.pos (Qden x)).

Definition formatEther_Q (wei : Z) : Q := Qred (wei # 1000000000000000000).

(** Binary64 environments. *)

(** Everything works; the balance is [balance]. *)
Definition working (balance : float) : Env float :=
  script (always balance) (counting_from 7) (always "0xhash") (always tt)
         parseEther_float formatEther_float (always tt) (counting_from 100)
         (always "signature") (fun _ => Confirmed false) (always true).

(** The node answers the transaction count 7 whenever asked. *)
Definition lagging_node : Env float :=
  script (always 10%float) (always 7) (always "0xhash") (always tt)
         parseEther_float formatEther_float (always tt) (counting_from 100)
         (always "signature") (fun _ => Confirmed false) (always true).

(** The principal transfer goes through; the fee transfer is rejected. *)
Definition fee_rejected : Env float :=
  script (always 10%float) (counting_from 7)
         (first_then (Ok "0xprincipal") (Throw (error "insufficient funds")))
         (always tt)
         parseEther_float formatEther_float (always tt) (counting_from 100)
         (always "signature") (fun _ => Confirmed false) (always true).

(** Every submission is rejected for its nonce. *)
Definition nonce_too_low : Env float :=
  script (always 10%float) (counting_from 8) (never (error "nonce too low")) (always tt)
         parseEther_float formatEther_float (always tt) (counting_from 100)
         (always "signature") (fun _ => Confirmed false) (always true).

(** The Solana cluster rejects every transaction. *)
Definition cluster_rejects : Env float :=
  script (always 10%float) (counting_from 7) (always "0xhash") (always tt)
         parseEther_float formatEther_float (always tt) (counting_from 100)
         (never (error "Transaction simulation failed")) (fun _ => Confirmed false)
         (always true).

(** The balance call fails. *)
Definition unreachable : Env float :=
  script (never (error "could not detect network")) (counting_from 7)
         (always "0xhash") (always tt)
         parseEther_float formatEther_float (always tt) (counting_from 100)
         (always "signature") (fun _ => Confirmed false) (always true).

(** An exact-rational environment: the claim wallet holds 1 MON, the
    submission is accepted and the wait for it times out. *)
Definition wait_times_out : Env Q :=
  script (always 1%Q) (counting_from 7) (always "0xhash") (never (error "timeout exceeded"))
         parseEther_Q formatEther_Q (always tt) (counting_from 100)
         (always "signature") (fun _ => Confirmed false) (always true).

(** The world after the principal transfer of the fee-rejected example,
    and after its fee transfer. *)
Definition principal_done : World float :=
  snd (Monad.pay_principal fee_rejected 7 "bob" 1%float "0xsender" (bobs_wallet 0%float) 100
         start).

Definition fee_failed : World float :=
  snd (Monad.pay_fee fee_rejected (1 * 0.10)%float "0xsender" principal_done).

Definition principal_confirmed : World float :=
  snd (Monad.pay_principal (working 10) 7 "bob" 1%float "0xsender" (bobs_wallet 0%float) 100
         start).

(** Two handlers about to enter the governor, 50 ms after the last call. *)
Definition two_pending : Governor.State :=
  Governor.mkState 1000 950 [Governor.Pending; Governor.Pending].

(** The first submission is rejected for its nonce, the second accepted. *)
Definition accepted_on_retry : Env float :=
  script (always 10%float) (counting_from 8)
         (first_then (Throw (error "nonce too low")) (Ok "0xhash")) (always tt)
         parseEther_float formatEther_float (always tt) (counting_from 100)
         (always "signature") (fun _ => Confirmed false) (always true).

(** Telegram rejects every message. *)
Definition chat_rejects : Env float :=
  script (always 10%float) (counting_from 7) (always "0xhash") (always tt)
         parseEther_float formatEther_float (always tt)
         (never (error "Forbidden: bot was blocked by the user"))
         (always "signature") (fun _ => Confirmed false) (always true).

(** Exact rationals, everything works; the balance is [balance]. *)
Definition working_Q (balance : Q) : Env Q :=
  script (always balance) (counting_from 7) (always "0xhash") (always tt)
         parseEther_Q formatEther_Q (always tt) (counting_from 100)
         (always "signature") (fun _ => Confirmed false) (always true).

(** Bob has a claim wallet; the worlds after the principal transfer of
    [/pay] and after its fee transfer, everything working. *)
Definition principal_paid : World float :=
  snd (Monad.pay_principal (working 10) 7 "bob" 1%float "0xsender" (bobs_wallet 0%float) 100
         (start_with_claim 0%float)).

Definition fee_paid : World float :=
  snd (Monad.pay_fee (working 10) (one * Monad.FEE_PERCENTAGE)%js "0xsender" principal_paid).

(** The first wait fails on a rate limit of the node, the second
    returns; the two submissions are accepted under different hashes. *)
Definition wait_rate_limited : Env float :=
  script (always 10%float) (counting_from 8)
         (first_then (Ok "0xfirst") (Ok "0xsecond"))
         (first_then (Throw (error "rate limit exceeded")) (Ok tt))
         parseEther_float formatEther_float (always tt) (counting_from 100)
         (always "signature") (fun _ => Confirmed false) (always true).

(** Every submission is rejected for lack of funds. *)
Definition funds_missing : Env float :=
  script (always 10%float) (counting_from 8) (never (error "insufficient funds")) (always tt)
         parseEther_float formatEther_float (always tt) (counting_from 100)
         (always "signature") (fun _ => Confirmed false) (always true).

End Examples.

(** * General facts about runs *)

Section Runs.
Context {num : Type} {NUM : JsNumber num} (env : Env num).

Lemma calls_of_app (k : Kind) (tr1 tr2 : list (Event num)) :
  calls_of k (tr1 ++ tr2) = (calls_of k tr1 + calls_of k tr2)%nat.
Proof.
  induction tr1 as [|x tr1 IH]; cbn; [reflexivity|].
  destruct (kind_eqb k (kind x)); rewrite IH; reflexivity.
Qed.

Lemma inserted_app (tr1 tr2 : list (Event num)) :
  inserted (tr1 ++ tr2) = inserted tr1 ++ inserted tr2.
Proof.
  induction tr1 as [|x tr1 IH]; cbn; [reflexivity|].
  destruct x; cbn; rewrite IH; reflexivity.
Qed.

Lemma upserted_app (tr1 tr2 : list (Event num)) :
  upserted (tr1 ++ tr2) = upserted tr1 ++ upserted tr2.
Proof.
  induction tr1 as [|x tr1 IH]; cbn; [reflexivity|].
  destruct x; cbn; rewrite IH; reflexivity.
Qed.

Lemma sent_to_app chatId (tr1 tr2 : list (Event num)) :
  sent_to chatId (tr1 ++ tr2) = sent_to chatId tr1 ++ sent_to chatId tr2.
Proof.
  induction tr1 as [|x tr1 IH]; cbn; [reflexivity|].
  destruct x; cbn; rewrite IH; try reflexivity.
  destruct (_ =? _)%Z; reflexivity.
Qed.

Lemma bind_run {A B} (m : M num A) (k : A -> M num B) w a w1 :
  m w = (Ok a, w1) -> bind m k w = k a w1.
Proof. intros H. unfold bind. rewrite H. reflexivity. Qed.

Lemma bind_throws {A B} (m : M num A) (k : A -> M num B) w e w1 :
  m w = (Throw e, w1) -> bind m k w = (Throw e, w1).
Proof. intros H. unfold bind. rewrite H. reflexivity. Qed.

Lemma try_catch_run {A} (m : M num A) (h : Error -> M num A) w a w1 :
  m w = (Ok a, w1) -> try_catch m h w = (Ok a, w1).
Proof. intros H. unfold try_catch. rewrite H. reflexivity. Qed.

Lemma try_catch_throws {A} (m : M num A) (h : Error -> M num A) w e w1 :
  m w = (Throw e, w1) -> try_catch m h w = h e w1.
Proof. intros H. unfold try_catch. rewrite H. reflexivity. Qed.

Lemma run_pair {A} (m : M num A) w : m w = (fst (m w), snd (m w)).
Proof. destruct (m w); reflexivity. Qed.

(** [rateLimitedDelay] in closed form: it returns at [slot w], and that
    is the new [lastRpcCall]. *)
Lemma rateLimitedDelay_run (w : World num) :
  Monad.rateLimitedDelay env w = (Ok tt, set_lastRpcCall (slot env w) (set_clock (slot env w) w)).
Proof.
  unfold Monad.rateLimitedDelay, slot, bind, get, pause, modify, ret.
  destruct (clock w - lastRpcCall w <? Monad.MIN_RPC_DELAY)%Z; reflexivity.
Qed.

Lemma retries_refreshed address tx n nonces m :
  retries address (tx_with_nonce tx n) nonces m = retries (num := num) address tx nonces m.
Proof.
  revert nonces. induction m as [|m IH]; intros nonces; cbn [retries]; [reflexivity|].
  rewrite IH. reflexivity.
Qed.

(** ** Relations every step of a run respects *)

Section Respect.
Variable R : World num -> World num -> Prop.
Hypothesis R_refl : forall w, R w w.
Hypothesis R_trans : forall w1 w2 w3, R w1 w2 -> R w2 w3 -> R w1 w3.

Lemma Respects_ret {A} (a : A) : Respects R (ret a).
Proof. intros w. apply R_refl. Qed.

Lemma Respects_throw {A} (e : Error) : Respects R (@throw num A e).
Proof. intros w. apply R_refl. Qed.

Lemma Respects_get : Respects R (@get num).
Proof. intros w. apply R_refl. Qed.

Lemma Respects_lift {A} (r : result A) : Respects R (Monad.lift r).
Proof. intros w. apply R_refl. Qed.

Lemma Respects_bind {A B} (m : M num A) (k : A -> M num B) :
  Respects R m -> (forall a, Respects R (k a)) -> Respects R (bind m k).
Proof.
  intros Hm Hk w. unfold bind. specialize (Hm w).
  destruct (m w) as [[a|e] w1]; cbn [snd] in *; [|exact Hm].
  eapply R_trans; [exact Hm | apply Hk].
Qed.

Lemma Respects_try_catch {A} (m : M num A) (h : Error -> M num A) :
  Respects R m -> (forall e, Respects R (h e)) -> Respects R (try_catch m h).
Proof.
  intros Hm Hh w. unfold try_catch. specialize (Hm w).
  destruct (m w) as [[a|e] w1]; cbn [snd] in *; [exact Hm|].
  eapply R_trans; [exact Hm | apply Hh].
Qed.

Lemma Respects_modify (f : World num -> World num) :
  (forall w, R w (f w)) -> Respects R (modify f).
Proof. intros H w. apply H. Qed.

Lemma Respects_call {A} (e : Event num) (answer : nat -> result A) :
  Respects R (perform env e) -> Respects R (call env e answer).
Proof. intros H w. apply H. Qed.

Lemma Respects_createRandom :
  Respects R (perform env WalletCreateRandom) -> Respects R (createRandom env).
Proof. intros H w. apply H. Qed.

Lemma Respects_sleep site ms :
  Respects R (perform env (Sleep site ms)) ->
  (forall w t, R w (set_clock t w)) ->
  Respects R (sleep env site ms).
Proof.
  intros H Hc. unfold sleep. apply Respects_bind; [exact H|].
  intros _. apply Respects_modify. intros w. apply Hc.
Qed.

Lemma Respects_rateLimitedDelay :
  (forall w t, R w (set_clock t w)) -> (forall w t, R w (set_lastRpcCall t w)) ->
  Respects R (Monad.rateLimitedDelay env).
Proof.
  intros Hc Hl w. rewrite rateLimitedDelay_run. cbn [snd].
  eapply R_trans; [apply Hc | apply Hl].
Qed.

Lemma Respects_invokeCallback callback t :
  (forall e, Respects R (perform env (ConsoleError "Callback error in sendTransactionWithRetry:" e))) ->
  (forall f, callback = Some f -> forall t, Respects R (f t)) ->
  Respects R (Monad.invokeCallback env callback t).
Proof.
  intros Hlog Hcb. unfold Monad.invokeCallback. destruct callback as [f|]; [|apply Respects_ret].
  apply Respects_try_catch; [apply (Hcb f eq_refl)|].
  intros e. apply Hlog.
Qed.

End Respect.

(** The relations used below are preorders. *)

Lemma adds_refl ok (w : World num) : adds ok w w.
Proof. exists []. rewrite app_nil_r. auto. Qed.

Lemma adds_trans ok (w1 w2 w3 : World num) : adds ok w1 w2 -> adds ok w2 w3 -> adds ok w1 w3.
Proof.
  intros (e1 & H1 & F1) (e2 & H2 & F2).
  exists (e1 ++ e2). rewrite H2, H1, app_assoc. split; [reflexivity|].
  rewrite forallb_app, F1, F2. reflexivity.
Qed.

Lemma same_store_refl (w : World num) : same_store w w.
Proof. repeat split. Qed.

Lemma same_store_trans (w1 w2 w3 : World num) :
  same_store w1 w2 -> same_store w2 w3 -> same_store w1 w3.
Proof.
  intros (U1 & C1 & W1 & G1) (U2 & C2 & W2 & G2). repeat split; congruence.
Qed.

Lemma quiet_refl ok (w : World num) : quiet ok w w.
Proof. split; [apply adds_refl | apply same_store_refl]. Qed.

Lemma quiet_trans ok (w1 w2 w3 : World num) : quiet ok w1 w2 -> quiet ok w2 w3 -> quiet ok w1 w3.
Proof.
  intros [A1 S1] [A2 S2].
  split; [eapply adds_trans | eapply same_store_trans]; eassumption.
Qed.

Lemma adds_weaken (ok ok' : Event num -> bool) w w' :
  (forall e, ok e = true -> ok' e = true) -> adds ok w w' -> adds ok' w w'.
Proof.
  intros Hle (evs & Ht & Hf). exists evs. split; [exact Ht|].
  rewrite forallb_forall in *. intros x Hx. apply Hle, Hf, Hx.
Qed.

Lemma adds_perform ok (e : Event num) w : ok e = true -> adds ok w (snd (perform env e w)).
Proof. intros He. exists [e]. split; [reflexivity|]. cbn. rewrite He. reflexivity. Qed.

Lemma adds_silent ok (w w' : World num) : trace w' = trace w -> adds ok w w'.
Proof. intros H. exists []. rewrite app_nil_r. auto. Qed.

Lemma quiet_perform ok (e : Event num) w : ok e = true -> quiet ok w (snd (perform env e w)).
Proof. intros He. split; [apply adds_perform, He | repeat split]. Qed.

Lemma quiet_silent ok (w w' : World num) :
  trace w' = trace w -> same_store w w' -> quiet ok w w'.
Proof. intros Ht Hs. split; [apply adds_silent, Ht | exact Hs]. Qed.

End Runs.

(** Breaks a [Respects] goal down along the structure of the computation. *)
Ltac respects_structure refl trans :=
  repeat first
    [ apply (Respects_ret _ refl)
    | apply (Respects_throw _ refl)
    | apply (Respects_get _ refl)
    | apply (Respects_lift _ refl)
    | apply (Respects_bind _ trans); [|intros ?]
    | apply (Respects_try_catch _ trans); [|intros ?] ].

Ltac world_simpl :=
  cbn [kind fst snd trace clock lastRpcCall userWallets claimWallets withdrawalState
       activeGmonadGiveaways status set_clock set_lastRpcCall set_trace
       set_userWallets set_claimWallets set_withdrawalState set_giveaways set_status].

(** Normalises the trace of a world built from primitive steps. *)
Ltac trace_norm :=
  cbn [perform modify kind fst snd trace clock lastRpcCall userWallets claimWallets
       withdrawalState activeGmonadGiveaways status set_clock set_lastRpcCall set_trace
       set_userWallets set_claimWallets set_withdrawalState set_giveaways set_status];
  rewrite <- ?app_assoc; cbn [app].

(** Solves [quiet ok w w'] for one primitive step. *)
Ltac quiet_step :=
  first [ apply quiet_perform; reflexivity
        | apply quiet_silent; [reflexivity | repeat split] ].

(** Solves [adds ok w w'] for one primitive step. *)
Ltac adds_step :=
  first [ apply adds_perform; reflexivity
        | apply adds_silent; reflexivity ].

(** Breaks a [Respects] goal down along the computation; [prim] solves
    the primitive steps. *)
Ltac respects refl trans prim :=
  repeat match goal with
    | |- Respects _ (ret _) => apply (Respects_ret _ refl)
    | |- Respects _ (throw _) => apply (Respects_throw _ refl)
    | |- Respects _ get => apply (Respects_get _ refl)
    | |- Respects _ (Monad.lift _) => apply (Respects_lift _ refl)
    | |- Respects _ (bind _ _) => apply (Respects_bind _ trans); [|intros ?]
    | |- Respects _ (try_catch _ _) => apply (Respects_try_catch _ trans); [|intros ?]
    | |- Respects _ (call _ _ _) => apply Respects_call
    | |- Respects _ (createRandom _) => apply Respects_createRandom
    | |- Respects _ (perform _ _) => intros ?; prim
    | |- Respects _ (modify _) => apply Respects_modify; intros ?; prim
    | |- Respects _ (match ?x with _ => _ end) => destruct x
    end.

(** * The retry executor ([sendTransactionWithRetry]) *)

Section Executor.
Context {num : Type} {NUM : JsNumber num} (env : Env num).

Lemma attempt_send_fails address tx options (w : World num) e :
  env_sendTransaction env (calls_of KSendTransaction (trace w)) = Throw e ->
  exists w',
    Monad.attempt env address tx options w = (Throw e, w')
    /\ trace w' = trace w ++ [RpcSendTransaction address tx].
Proof.
  intros H. unfold Monad.attempt, bind at 1.
  rewrite rateLimitedDelay_run.
  unfold bind at 1. unfold call at 1. world_simpl.
  rewrite H. eexists. split; [reflexivity|]. reflexivity.
Qed.

Lemma recover_again i maxRetries address tx e (w : World num) n :
  (i =? maxRetries - 1)%nat = false ->
  Monad.retryable e = true ->
  env_getTransactionCount env (calls_of KGetTransactionCount (trace w)) = Ok n ->
  exists w',
    Monad.recover env i maxRetries address tx e w = (Ok (Monad.Again (tx_with_nonce tx n)), w')
    /\ trace w' = trace w ++ [ConsoleLog "Error detected, retrying...";
                              Sleep RetryBackoff 2000;
                              RpcGetTransactionCount address "latest"].
Proof.
  intros Hi He Hn. unfold Monad.recover. rewrite Hi, He.
  unfold console_log, sleep, bind, perform, modify.
  rewrite rateLimitedDelay_run.
  unfold call, perform, modify. world_simpl.
  rewrite !calls_of_app. cbn [calls_of kind kind_eqb]. rewrite !Nat.add_0_r, Hn.
  eexists. split; [reflexivity|]. world_simpl. rewrite <- !app_assoc. reflexivity.
Qed.

(** The loop from pass [i], when the first [m] submissions fail with
    retryable errors and the next one fails for good. *)
Lemma retry_from_fails (maxRetries : nat) address options :
  forall m (errs : nat -> Error) (nonces : nat -> Z) remaining i tx (w : World num),
  (i + remaining = maxRetries)%nat ->
  (m < remaining)%nat ->
  (forall j, (j <= m)%nat ->
     env_sendTransaction env (calls_of KSendTransaction (trace w) + j) = Throw (errs j)) ->
  (forall j, (j < m)%nat ->
     env_getTransactionCount env (calls_of KGetTransactionCount (trace w) + j)
     = Ok (nonces j)) ->
  (forall j, (j < m)%nat -> Monad.retryable (errs j) = true) ->
  (m = remaining - 1 \/ Monad.retryable (errs m) = false)%nat ->
  exists w',
    Monad.retry_from env remaining i maxRetries address tx options w = (Throw (errs m), w')
    /\ trace w' = trace w ++ RpcSendTransaction address tx :: retries address tx nonces m.
Proof.
  induction m as [|m IH]; intros errs nonces remaining i tx w Hsum Hlt Hsend Hnonce Hretry Hlast;
    (destruct remaining as [|remaining]; [lia|]); cbn [Monad.retry_from];
    unfold bind at 1; unfold try_catch;
    (destruct (attempt_send_fails address tx options w (errs O)) as (w1 & -> & Htr1);
      [ rewrite <- (Hsend O) by lia; f_equal; lia | ]).
  - assert (Hthrow : Monad.recover env i maxRetries address tx (errs O) w1 = (Throw (errs O), w1)).
    { unfold Monad.recover. destruct (i =? maxRetries - 1)%nat eqn:Hi; [reflexivity|].
      destruct Hlast as [Hm | ->]; [|reflexivity].
      apply Nat.eqb_neq in Hi. exfalso. lia. }
    rewrite Hthrow. exists w1. split; [reflexivity|]. exact Htr1.
  - assert (Hi : (i =? maxRetries - 1)%nat = false) by (apply Nat.eqb_neq; lia).
    destruct (recover_again i maxRetries address tx (errs O) w1 (nonces O) Hi) as (w2 & -> & Htr2).
    { apply Hretry. lia. }
    { rewrite Htr1, calls_of_app. cbn [calls_of kind kind_eqb].
      rewrite <- (Hnonce O) by lia. reflexivity. }
    destruct (IH (fun j => errs (S j)) (fun j => nonces (S j)) remaining (S i)
                 (tx_with_nonce tx (nonces O)) w2) as (w3 & Hrun & Htr3).
    + lia.
    + lia.
    + intros j Hj. rewrite Htr2, Htr1, !calls_of_app. cbn [calls_of kind kind_eqb].
      rewrite <- (Hsend (S j)) by lia. f_equal. lia.
    + intros j Hj. rewrite Htr2, Htr1, !calls_of_app. cbn [calls_of kind kind_eqb].
      rewrite <- (Hnonce (S j)) by lia. f_equal. lia.
    + intros j Hj. apply Hretry. lia.
    + destruct Hlast as [Hm | Hl]; [left; lia | right; exact Hl].
    + exists w3. split; [exact Hrun|].
      rewrite Htr3, Htr2, Htr1, retries_refreshed. cbn [retries].
      rewrite <- !app_assoc. reflexivity.
Qed.

(** X16.  The executor and rejected submissions.  Run with
    [maxRetries] passes in a world [w]: when its first [m] submissions
    are rejected ([sendTransaction] throws) with errors whose message
    names a nonce, a priority, a rate or a limit, and submission [m] is
    rejected either on the last pass or with any other error, it throws
    that last error.  Its trace is the first submission followed, for
    each of the [m] retryable rejections, by the log line, the fixed
    pause of 2000 ms, the query of the transaction count at ["latest"]
    and the resubmission under the nonce that query answered.  (With
    [m = 0] and a non-retryable error: one submission, no pause, no
    retry.) *)
Theorem sendTransactionWithRetry_retry_policy (maxRetries : nat) address tx options
    (w : World num) (m : nat) (errs : nat -> Error) (nonces : nat -> Z) :
  (m < maxRetries)%nat ->
  (forall j, (j <= m)%nat ->
     env_sendTransaction env (calls_of KSendTransaction (trace w) + j) = Throw (errs j)) ->
  (forall j, (j < m)%nat ->
     env_getTransactionCount env (calls_of KGetTransactionCount (trace w) + j)
     = Ok (nonces j)) ->
  (forall j, (j < m)%nat -> Monad.retryable (errs j) = true) ->
  (m = maxRetries - 1 \/ Monad.retryable (errs m) = false)%nat ->
  exists w',
    Monad.sendTransactionWithRetry env maxRetries address tx options w = (Throw (errs m), w')
    /\ trace w' = trace w ++ RpcSendTransaction address tx :: retries address tx nonces m.
Proof.
  intros Hm Hsend Hnonce Hretry Hlast. unfold Monad.sendTransactionWithRetry.
  apply retry_from_fails; try assumption. reflexivity.
Qed.

(** ** What the executor leaves alone *)

Lemma Respects_retry_from (R : World num -> World num -> Prop) options :
  (forall w, R w w) -> (forall w1 w2 w3, R w1 w2 -> R w2 w3 -> R w1 w3) ->
  (forall w t, R w (set_clock t w)) -> (forall w t, R w (set_lastRpcCall t w)) ->
  (forall e w, transfer_event e = true -> R w (snd (perform env e w))) ->
  RespectsOptions R options ->
  forall remaining i maxRetries address tx,
  Respects R (Monad.retry_from env remaining i maxRetries address tx options).
Proof.
  intros refl trans Hc Hl Hp (H1 & H2 & H3).
  induction remaining as [|remaining IH]; intros i maxRetries address tx;
    cbn [Monad.retry_from]; [apply (Respects_ret _ refl)|].
  apply (Respects_bind _ trans).
  - apply (Respects_try_catch _ trans).
    + unfold Monad.attempt.
      repeat first [ apply (Respects_rateLimitedDelay _ _ trans); [exact Hc | exact Hl]
                   | apply Respects_call; intros ?; apply Hp; reflexivity
                   | apply (Respects_invokeCallback _ _ refl trans);
                       [intros ? ?; apply Hp; reflexivity | assumption]
                   | apply (Respects_ret _ refl)
                   | apply (Respects_bind _ trans); [|intros ?] ].
    + intros e. unfold Monad.recover.
      destruct (_ =? _)%nat; [apply (Respects_throw _ refl)|].
      destruct (Monad.retryable e); [|apply (Respects_throw _ refl)].
      unfold console_log.
      repeat first [ apply (Respects_rateLimitedDelay _ _ trans); [exact Hc | exact Hl]
                   | apply Respects_call; intros ?; apply Hp; reflexivity
                   | apply Respects_sleep; [exact trans | intros ?; apply Hp; reflexivity | exact Hc]
                   | apply (Respects_ret _ refl)
                   | apply (Respects_bind _ trans); [|intros ?]
                   | intros ?; apply Hp; reflexivity ].
  - intros [t|tx']; [apply (Respects_ret _ refl) | apply IH].
Qed.

Lemma Respects_sendTransaction3 (R : World num -> World num -> Prop) options address tx :
  (forall w, R w w) -> (forall w1 w2 w3, R w1 w2 -> R w2 w3 -> R w1 w3) ->
  (forall w t, R w (set_clock t w)) -> (forall w t, R w (set_lastRpcCall t w)) ->
  (forall e w, transfer_event e = true -> R w (snd (perform env e w))) ->
  RespectsOptions R options ->
  Respects R (Monad.sendTransaction3 env address tx options).
Proof.
  intros refl trans Hc Hl Hp Ho. unfold Monad.sendTransaction3, Monad.sendTransactionWithRetry.
  apply (Respects_bind _ trans); [apply Respects_retry_from; assumption|].
  intros [t|]; [apply (Respects_ret _ refl) | apply (Respects_throw _ refl)].
Qed.

End Executor.

(** * The settlement of [/pay] *)

Section Settlement.
Context {num : Type} {NUM : JsNumber num} (env : Env num).

Lemma bind_returns {A B} (m : M num A) (k : A -> M num B) w b w' :
  bind m k w = (Ok b, w') -> exists a w1, m w = (Ok a, w1) /\ k a w1 = (Ok b, w').
Proof.
  unfold bind. destruct (m w) as [[a|e] w1]; [|discriminate].
  intros H. exists a, w1. split; [reflexivity | exact H].
Qed.

Lemma try_catch_returns {A} (m : M num A) (h : Error -> M num A) w a w' :
  try_catch m h w = (Ok a, w') ->
  m w = (Ok a, w') \/ exists e w1, m w = (Throw e, w1) /\ h e w1 = (Ok a, w').
Proof.
  unfold try_catch. destruct (m w) as [[a0|e] w1].
  - intros H. left. exact H.
  - intros H. right. exists e, w1. split; [reflexivity | exact H].
Qed.

Lemma invokeCallback_ok callback t (w : World num) :
  fst (Monad.invokeCallback env callback t w) = Ok tt.
Proof.
  unfold Monad.invokeCallback. destruct callback as [f|]; [|reflexivity].
  unfold try_catch. destruct (f t w) as [[[]|e] w1]; reflexivity.
Qed.

Lemma recover_never_returns i maxRetries address tx e (w : World num) p w' :
  Monad.recover env i maxRetries address tx e w = (Ok p, w') -> exists tx', p = Monad.Again tx'.
Proof.
  unfold Monad.recover. destruct (_ =? _)%nat; [discriminate|].
  destruct (Monad.retryable e); [|discriminate].
  unfold console_log, sleep, bind, perform, modify. rewrite rateLimitedDelay_run.
  unfold call. destruct (env_getTransactionCount env _); [|discriminate].
  unfold ret. intros [= <- _]. eexists. reflexivity.
Qed.

(** One pass of the executor's loop only extends the trace, by transfer
    events and by what the callbacks add. *)
Lemma Respects_pass (R : World num -> World num -> Prop) options i maxRetries address tx :
  (forall w, R w w) -> (forall w1 w2 w3, R w1 w2 -> R w2 w3 -> R w1 w3) ->
  (forall w t, R w (set_clock t w)) -> (forall w t, R w (set_lastRpcCall t w)) ->
  (forall e w, transfer_event e = true -> R w (snd (perform env e w))) ->
  RespectsOptions R options ->
  Respects R (try_catch (Monad.attempt env address tx options)
                        (Monad.recover env i maxRetries address tx)).
Proof.
  intros refl trans Hc Hl Hp (H1 & H2 & H3).
  apply (Respects_try_catch _ trans).
  - unfold Monad.attempt.
    repeat first [ apply (Respects_rateLimitedDelay _ _ trans); [exact Hc | exact Hl]
                 | apply Respects_call; intros ?; apply Hp; reflexivity
                 | apply (Respects_invokeCallback _ _ refl trans);
                     [intros ? ?; apply Hp; reflexivity | assumption]
                 | apply (Respects_ret _ refl)
                 | apply (Respects_bind _ trans); [|intros ?] ].
  - intros e. unfold Monad.recover.
    destruct (_ =? _)%nat; [apply (Respects_throw _ refl)|].
    destruct (Monad.retryable e); [|apply (Respects_throw _ refl)].
    unfold console_log.
    repeat first [ apply (Respects_rateLimitedDelay _ _ trans); [exact Hc | exact Hl]
                 | apply Respects_call; intros ?; apply Hp; reflexivity
                 | apply Respects_sleep; [exact trans | intros ?; apply Hp; reflexivity | exact Hc]
                 | apply (Respects_ret _ refl)
                 | apply (Respects_bind _ trans); [|intros ?]
                 | intros ?; apply Hp; reflexivity ].
Qed.

Lemma RespectsOptions_weaken (R R' : World num -> World num -> Prop) options :
  (forall w w', R w w' -> R' w w') -> RespectsOptions R options -> RespectsOptions R' options.
Proof.
  intros Hle (H1 & H2 & H3).
  split; [|split]; intros f Hf t w; apply Hle; [apply (H1 f Hf) | apply (H2 f Hf) | apply (H3 f Hf)].
Qed.

Lemma adds_any (ok : Event num -> bool) w w' : adds ok w w' -> adds any_event w w'.
Proof. apply adds_weaken. reflexivity. Qed.

Lemma Respects_adds_pass options i maxRetries address tx :
  RespectsOptions (adds any_event) options ->
  Respects (adds any_event)
    (try_catch (Monad.attempt env address tx options)
               (Monad.recover env i maxRetries address tx)).
Proof.
  intros Ho. apply Respects_pass; try assumption.
  - apply adds_refl.
  - apply adds_trans.
  - intros; apply adds_silent; reflexivity.
  - intros; apply adds_silent; reflexivity.
  - intros; apply adds_perform; reflexivity.
Qed.

(** An attempt that returns has waited for its transaction, and after
    the wait only the [onConfirmed] callback ran. *)
Lemma attempt_confirmed options address tx (w : World num) p w1 :
  RespectsOptions (adds status_event) options ->
  Monad.attempt env address tx options w = (Ok p, w1) ->
  exists t before after,
    p = Monad.Return t
    /\ trace w1 = trace w ++ before ++ RpcWait t :: after
    /\ forallb status_event after = true.
Proof.
  intros (H1 & H2 & H3). unfold Monad.attempt.
  rewrite (bind_run _ _ _ _ _ (rateLimitedDelay_run env w)).
  set (w0 := set_lastRpcCall (slot env w) (set_clock (slot env w) w)).
  unfold bind at 1, call at 1.
  destruct (env_sendTransaction env _) as [t|e]; [|discriminate].
  set (wa := snd (perform env (RpcSendTransaction address tx) w0)).
  rewrite (bind_run _ _ wa tt _ (eq_trans (run_pair _ wa)
             (f_equal2 pair (invokeCallback_ok _ t wa) eq_refl))).
  set (wb := snd (Monad.invokeCallback env (Monad.onSent options) t wa)).
  rewrite (bind_run _ _ _ _ _ (rateLimitedDelay_run env wb)).
  set (wc := set_lastRpcCall (slot env wb) (set_clock (slot env wb) wb)).
  rewrite (bind_run _ _ wc tt _ (eq_trans (run_pair _ wc)
             (f_equal2 pair (invokeCallback_ok _ t wc) eq_refl))).
  set (wd := snd (Monad.invokeCallback env (Monad.onConfirming options) t wc)).
  unfold bind at 1, call at 1.
  destruct (env_wait env _) as [[]|e]; [|discriminate].
  set (we := snd (perform env (RpcWait t) wd)).
  rewrite (bind_run _ _ we tt _ (eq_trans (run_pair _ we)
             (f_equal2 pair (invokeCallback_ok _ t we) eq_refl))).
  intros [= <- <-].
  assert (Hlog : forall e, Respects (adds status_event)
            (perform env (ConsoleError "Callback error in sendTransactionWithRetry:" e))).
  { intros e w'. apply adds_perform. reflexivity. }
  assert (Qb : adds status_event wa wb).
  { apply (Respects_invokeCallback env _ (adds_refl _) (adds_trans _)); assumption. }
  assert (Qd : adds status_event wc wd).
  { apply (Respects_invokeCallback env _ (adds_refl _) (adds_trans _)); assumption. }
  assert (Qf : adds status_event we
                 (snd (Monad.invokeCallback env (Monad.onConfirmed options) t we))).
  { apply (Respects_invokeCallback env _ (adds_refl _) (adds_trans _)); assumption. }
  destruct Qb as (eb & Hb & _), Qd as (ed & Hd & _), Qf as (ef & Hf & Ff).
  exists t, ([RpcSendTransaction address tx] ++ eb ++ ed), ef.
  split; [reflexivity|]. split; [|exact Ff].
  rewrite Hf. subst we. cbn [trace snd perform modify set_clock set_trace].
  rewrite Hd. subst wc. cbn [trace set_lastRpcCall set_clock].
  rewrite Hb. subst wa. cbn [trace snd perform modify set_clock set_trace].
  subst w0. cbn [trace set_lastRpcCall set_clock].
  rewrite <- !app_assoc. reflexivity.
Qed.

(** The loop returns the transaction of the pass that returned, after
    that pass waited for it. *)
Lemma retry_from_confirmed options maxRetries address :
  RespectsOptions (adds status_event) options ->
  forall remaining i tx (w : World num) t w',
  Monad.retry_from env remaining i maxRetries address tx options w = (Ok (Some t), w') ->
  exists before after,
    trace w' = trace w ++ before ++ RpcWait t :: after
    /\ forallb status_event after = true.
Proof.
  intros Ho. induction remaining as [|remaining IH]; intros i tx w t w'; cbn [Monad.retry_from].
  - discriminate.
  - intros H. apply bind_returns in H. destruct H as (pass & w1 & Hpass & Hk).
    destruct pass as [t0|tx'].
    + injection Hk as <- <-.
      apply try_catch_returns in Hpass. destruct Hpass as [Ha | (e & w2 & _ & Hr)].
      * destruct (attempt_confirmed _ _ _ _ _ _ Ho Ha) as (t' & before & after & [= <-] & Ht & Hf).
        exists before, after. split; assumption.
      * apply recover_never_returns in Hr. destruct Hr as (tx' & [=]).
    + destruct (IH _ _ _ _ _ Hk) as (before & after & Ht & Hf).
      pose proof (Respects_adds_pass options i maxRetries address tx
                    (RespectsOptions_weaken _ _ _ (adds_any _) Ho) w) as (evs & Hevs & _).
      rewrite Hpass in Hevs. cbn [snd] in Hevs.
      exists (evs ++ before), after. split; [|exact Hf].
      rewrite Ht, Hevs, <- !app_assoc. reflexivity.
Qed.

(** ** The first event of a computation *)

Lemma Starts_call {A} e (answer : nat -> result A) : Starts e (call env e answer).
Proof. intros w. exists []. reflexivity. Qed.

Lemma Starts_bind {A B} e (m : M num A) (k : A -> M num B) :
  Starts e m -> (forall a, Respects (adds any_event) (k a)) -> Starts e (bind m k).
Proof.
  intros Hm Hk w. unfold bind. destruct (Hm w) as (rest & Hrest).
  destruct (m w) as [[a|err] w1]; cbn [snd] in *; [|exists rest; exact Hrest].
  destruct (Hk a w1) as (evs & Hevs & _).
  exists (rest ++ evs). rewrite Hevs, Hrest, <- app_assoc. reflexivity.
Qed.

Lemma Starts_try_catch {A} e (m : M num A) (h : Error -> M num A) :
  Starts e m -> (forall err, Respects (adds any_event) (h err)) -> Starts e (try_catch m h).
Proof.
  intros Hm Hh w. unfold try_catch. destruct (Hm w) as (rest & Hrest).
  destruct (m w) as [[a|err] w1]; cbn [snd] in *; [exists rest; exact Hrest|].
  destruct (Hh err w1) as (evs & Hevs & _).
  exists (rest ++ evs). rewrite Hevs, Hrest, <- app_assoc. reflexivity.
Qed.

Lemma Starts_after_delay {A} e (k : M num A) :
  Starts e k -> Starts e (Monad.rateLimitedDelay env ;; k).
Proof.
  intros Hk w. rewrite (bind_run _ _ _ _ _ (rateLimitedDelay_run env w)).
  destruct (Hk (set_lastRpcCall (slot env w) (set_clock (slot env w) w))) as (rest & Hrest).
  exists rest. exact Hrest.
Qed.

Lemma Respects_adds_retry_from options :
  RespectsOptions (adds any_event) options ->
  forall remaining i maxRetries address tx,
  Respects (adds any_event) (Monad.retry_from env remaining i maxRetries address tx options).
Proof.
  intros Ho. apply Respects_retry_from; try assumption.
  - apply adds_refl.
  - apply adds_trans.
  - intros; apply adds_silent; reflexivity.
  - intros; apply adds_silent; reflexivity.
  - intros; apply adds_perform; reflexivity.
Qed.

(** The loop's first event is the submission of the transaction it was
    given. *)
Lemma retry_from_submits options remaining i maxRetries address tx :
  RespectsOptions (adds any_event) options ->
  Starts (RpcSendTransaction address tx)
    (Monad.retry_from env (S remaining) i maxRetries address tx options).
Proof.
  intros Ho. pose proof Ho as (H1 & H2 & H3).
  assert (Hlog : forall e, Respects (adds any_event)
            (perform env (ConsoleError "Callback error in sendTransactionWithRetry:" e))).
  { intros e w'. apply adds_perform. reflexivity. }
  cbn [Monad.retry_from].
  apply Starts_bind.
  - apply Starts_try_catch.
    + unfold Monad.attempt. apply Starts_after_delay.
      apply Starts_bind; [apply Starts_call|]. intros t.
      repeat first
        [ apply (Respects_rateLimitedDelay env _ (adds_trans _));
            intros; apply adds_silent; reflexivity
        | apply Respects_call; intros ?; apply adds_perform; reflexivity
        | apply (Respects_invokeCallback env _ (adds_refl _) (adds_trans _)); assumption
        | apply (Respects_ret _ (adds_refl _))
        | apply (Respects_bind _ (adds_trans _)); [|intros ?] ].
    + intros err. unfold Monad.recover.
      destruct (_ =? _)%nat; [apply (Respects_throw _ (adds_refl _))|].
      destruct (Monad.retryable err); [|apply (Respects_throw _ (adds_refl _))].
      unfold console_log.
      repeat first
        [ apply (Respects_rateLimitedDelay env _ (adds_trans _));
            intros; apply adds_silent; reflexivity
        | apply Respects_call; intros ?; apply adds_perform; reflexivity
        | apply Respects_sleep;
            [exact (adds_trans _) | intros ?; apply adds_perform; reflexivity
            | intros; apply adds_silent; reflexivity]
        | apply (Respects_ret _ (adds_refl _))
        | apply (Respects_bind _ (adds_trans _)); [|intros ?]
        | intros ?; apply adds_perform; reflexivity ].
  - intros [t|tx']; [apply (Respects_ret _ (adds_refl _))|].
    apply Respects_adds_retry_from. exact Ho.
Qed.

Lemma sendTransaction3_submits options address tx :
  RespectsOptions (adds any_event) options ->
  Starts (RpcSendTransaction address tx) (Monad.sendTransaction3 env address tx options).
Proof.
  intros Ho. unfold Monad.sendTransaction3, Monad.sendTransactionWithRetry.
  apply Starts_bind; [apply retry_from_submits, Ho|].
  intros [t|]; [apply (Respects_ret _ (adds_refl _)) | apply (Respects_throw _ (adds_refl _))].
Qed.

Lemma RespectsOptions_none (R : World num -> World num -> Prop) :
  RespectsOptions R (@Monad.no_options num).
Proof. split; [|split]; cbn; intros ? [=]. Qed.

(** ** [setStatus] and the two transfers *)

Lemma Respects_setStatus (R : World num -> World num -> Prop)
    chatId messageId recipient amount changes :
  (forall w, R w w) -> (forall w1 w2 w3, R w1 w2 -> R w2 w3 -> R w1 w3) ->
  (forall w s, R w (set_status s w)) ->
  (forall e w, status_event e = true -> R w (snd (perform env e w))) ->
  Respects R (Monad.setStatus env chatId messageId recipient amount changes).
Proof.
  intros refl trans Hs Hp. unfold Monad.setStatus, Monad.updateStatusMessage, console_error.
  respects refl trans ltac:(first [apply Hs | apply Hp; reflexivity]).
Qed.

Lemma RespectsOptions_pay (R : World num -> World num -> Prop)
    chatId recipient amount statusMessage :
  (forall w, R w w) -> (forall w1 w2 w3, R w1 w2 -> R w2 w3 -> R w1 w3) ->
  (forall w s, R w (set_status s w)) ->
  (forall e w, status_event e = true -> R w (snd (perform env e w))) ->
  RespectsOptions R (pay_options env chatId recipient amount statusMessage).
Proof.
  intros refl trans Hs Hp.
  split; [|split]; cbn; intros ? [= <-] ?; apply Respects_setStatus; assumption.
Qed.

Lemma status_is_transfer (e : Event num) : status_event e = true -> transfer_event e = true.
Proof. destruct e; cbn; congruence. Qed.

Lemma Respects_pay_principal chatId recipient amount sender recipientWallet statusMessage :
  Respects (quiet transfer_event)
    (Monad.pay_principal env chatId recipient amount sender recipientWallet statusMessage).
Proof.
  unfold Monad.pay_principal.
  apply (Respects_bind _ (quiet_trans _));
    [apply (Respects_rateLimitedDelay env _ (quiet_trans _)); intros; quiet_step|]. intros _.
  apply (Respects_bind _ (quiet_trans _)); [apply Respects_call; intros ?; quiet_step|].
  intros nonce.
  apply (Respects_bind _ (quiet_trans _)); [apply (Respects_lift _ (quiet_refl _))|].
  intros value.
  apply Respects_sendTransaction3.
  - apply quiet_refl.
  - apply quiet_trans.
  - intros; quiet_step.
  - intros; quiet_step.
  - intros e w He. apply quiet_perform, He.
  - apply (RespectsOptions_pay _ chatId recipient amount statusMessage).
    + apply quiet_refl.
    + apply quiet_trans.
    + intros; quiet_step.
    + intros e w He. apply quiet_perform, status_is_transfer, He.
Qed.

Lemma Respects_pay_fee fee sender :
  Respects (quiet transfer_event) (Monad.pay_fee env fee sender).
Proof.
  unfold Monad.pay_fee.
  apply (Respects_bind _ (quiet_trans _));
    [apply (Respects_rateLimitedDelay env _ (quiet_trans _)); intros; quiet_step|]. intros _.
  apply (Respects_bind _ (quiet_trans _)); [apply Respects_call; intros ?; quiet_step|].
  intros nonce.
  apply (Respects_bind _ (quiet_trans _)); [apply (Respects_lift _ (quiet_refl _))|].
  intros value.
  apply Respects_sendTransaction3.
  - apply quiet_refl.
  - apply quiet_trans.
  - intros; quiet_step.
  - intros; quiet_step.
  - intros e w He. apply quiet_perform, He.
  - apply RespectsOptions_none.
Qed.

(** ** The status that [/pay] leaves *)

(** An attempt that returns ends with its [onConfirmed] callback. *)
Lemma attempt_ends_with_onConfirmed options address tx (w : World num) p w1 :
  Monad.attempt env address tx options w = (Ok p, w1) ->
  exists t w0,
    p = Monad.Return t
    /\ snd (Monad.invokeCallback env (Monad.onConfirmed options) t w0) = w1.
Proof.
  unfold Monad.attempt. intros H.
  apply bind_returns in H. destruct H as (_ & wa & _ & H).
  apply bind_returns in H. destruct H as (t & wb & _ & H).
  apply bind_returns in H. destruct H as (_ & wc & _ & H).
  apply bind_returns in H. destruct H as (_ & wd & _ & H).
  apply bind_returns in H. destruct H as (_ & we & _ & H).
  apply bind_returns in H. destruct H as (_ & wf & _ & H).
  apply bind_returns in H. destruct H as (u & wg & Hcb & H).
  injection H as Hpass Hw. subst p w1.
  exists t, wf. split; [reflexivity|]. rewrite Hcb. reflexivity.
Qed.

(** [setStatus] leaves the status it was asked to write, whatever
    Telegram answers to the edit. *)
Lemma setStatus_status chatId messageId recipient amount changes (w : World num) :
  status (snd (Monad.setStatus env chatId messageId recipient amount changes w))
  = changes (status w).
Proof.
  unfold Monad.setStatus, Monad.updateStatusMessage, bind, modify, get, try_catch, call, ret,
    console_error, perform, modify.
  cbn [fst snd]. destruct (env_bot env _); [reflexivity|].
  destruct (includes _ _); reflexivity.
Qed.

Lemma onConfirmed_pay_status chatId recipient amount statusMessage t (w : World num) :
  status (snd (Monad.invokeCallback env
                 (Monad.onConfirmed (pay_options env chatId recipient amount statusMessage)) t w))
  = Monad.status_confirmed t (status w).
Proof.
  cbn [pay_options Monad.onConfirmed Monad.invokeCallback]. unfold try_catch.
  pose proof (setStatus_status chatId statusMessage recipient amount
                (Monad.status_confirmed t) w) as H.
  destruct (Monad.setStatus env chatId statusMessage recipient amount _ w) as [[[]|e] w1];
    cbn [snd] in *; [exact H|].
  unfold console_error, perform, modify. cbn [snd status set_clock set_trace]. exact H.
Qed.

(** The loop of the principal transfer returns with the status marked
    successful for the transaction it returns. *)
Lemma retry_from_pay_status chatId recipient amount statusMessage maxRetries address :
  forall remaining i tx (w : World num) t w',
  Monad.retry_from env remaining i maxRetries address tx
    (pay_options env chatId recipient amount statusMessage) w = (Ok (Some t), w') ->
  success (status w') = true /\ txHash (status w') = Some t.
Proof.
  induction remaining as [|remaining IH]; intros i tx w t w'; cbn [Monad.retry_from].
  - discriminate.
  - intros H. apply bind_returns in H. destruct H as (pass & w1 & Hpass & Hk).
    destruct pass as [t0|tx'].
    + injection Hk as <- <-.
      apply try_catch_returns in Hpass. destruct Hpass as [Ha | (e & w2 & _ & Hr)].
      * apply attempt_ends_with_onConfirmed in Ha.
        destruct Ha as (t' & w0 & [= <-] & <-).
        rewrite onConfirmed_pay_status. split; reflexivity.
      * apply recover_never_returns in Hr. destruct Hr as (tx' & [=]).
    + exact (IH _ _ _ _ _ Hk).
Qed.

Lemma pay_principal_status chatId recipient amount sender recipientWallet statusMessage
    (w w1 : World num) transaction :
  Monad.pay_principal env chatId recipient amount sender recipientWallet statusMessage w
    = (Ok transaction, w1) ->
  success (status w1) = true /\ txHash (status w1) = Some transaction.
Proof.
  unfold Monad.pay_principal. intros H.
  apply bind_returns in H. destruct H as (_ & wa & _ & H).
  apply bind_returns in H. destruct H as (nonce & wb & _ & H).
  apply bind_returns in H. destruct H as (value & wc & _ & H).
  unfold Monad.sendTransaction3, Monad.sendTransactionWithRetry in H.
  apply bind_returns in H. destruct H as (r & wd & Hloop & H).
  destruct r as [t|]; [|discriminate]. injection H as <- <-.
  exact (retry_from_pay_status chatId recipient amount statusMessage _ _ _ _ _ _ _ _ Hloop).
Qed.

(** Neither transfer marks the status failed, and the fee transfer,
    which has no callbacks, leaves the status alone. *)
Lemma Respects_pay_principal_failed
    chatId recipient amount sender recipientWallet statusMessage :
  Respects keeps_failed
    (Monad.pay_principal env chatId recipient amount sender recipientWallet statusMessage).
Proof.
  assert (refl : forall w : World num, keeps_failed w w) by (intros; reflexivity).
  assert (trans : forall w1 w2 w3 : World num,
            keeps_failed w1 w2 -> keeps_failed w2 w3 -> keeps_failed w1 w3).
  { unfold keeps_failed. intros w1 w2 w3 H1 H2. congruence. }
  assert (Hset : forall changes, (forall s, failed (changes s) = failed s) ->
            Respects keeps_failed
              (Monad.setStatus env chatId statusMessage recipient amount changes)).
  { intros changes Hc w0. unfold keeps_failed. rewrite setStatus_status. apply Hc. }
  unfold Monad.pay_principal.
  apply (Respects_bind _ trans);
    [apply (Respects_rateLimitedDelay env _ trans); intros; reflexivity|]. intros _.
  apply (Respects_bind _ trans); [apply Respects_call; intros ?; reflexivity|]. intros nonce.
  apply (Respects_bind _ trans); [apply (Respects_lift _ refl)|]. intros value.
  apply Respects_sendTransaction3; try assumption; try (intros; reflexivity).
  split; [|split]; cbn; intros ? [= <-] ?; apply Hset; reflexivity.
Qed.

Lemma Respects_pay_fee_status fee sender :
  Respects keeps_status (Monad.pay_fee env fee sender).
Proof.
  assert (refl : forall w : World num, keeps_status w w) by (intros; reflexivity).
  assert (trans : forall w1 w2 w3 : World num,
            keeps_status w1 w2 -> keeps_status w2 w3 -> keeps_status w1 w3).
  { unfold keeps_status. intros w1 w2 w3 H1 H2. congruence. }
  unfold Monad.pay_fee.
  apply (Respects_bind _ trans);
    [apply (Respects_rateLimitedDelay env _ trans); intros; reflexivity|]. intros _.
  apply (Respects_bind _ trans); [apply Respects_call; intros ?; reflexivity|]. intros nonce.
  apply (Respects_bind _ trans); [apply (Respects_lift _ refl)|]. intros value.
  apply Respects_sendTransaction3; try assumption; try (intros; reflexivity).
  apply RespectsOptions_none.
Qed.

(** C2, the divergence.  In the [try] block of [/pay], when the
    principal transfer returned its transaction and the fee transfer
    then threw [e]: the [catch] block logs [e] under "Tip error:" and
    then dies of the ReferenceError of [status?.sent], before it can
    mark the status failed or send the failure message.  So the handler
    ends with that ReferenceError, and the log line is the last event;
    the status still says what the confirmation of the principal wrote
    ([success], the hash of the principal) and was never marked failed;
    from the start of the transfers the trace gained nothing but
    transfer events (nonce queries, submissions, waits, pauses, log
    lines, edits of the status message): no message was sent, no row
    inserted, no wallet upserted; and the stores, so also the
    recipient's accrual, are as they were. *)
Theorem pay_fee_failure_dies_in_the_catch_block
    chatId userId recipient amount fee sender recipientWallet statusMessage
    (w w1 w2 : World num) transaction e :
  Monad.pay_principal env chatId recipient amount sender recipientWallet statusMessage w
    = (Ok transaction, w1) ->
  Monad.pay_fee env fee sender w1 = (Throw e, w2) ->
  exists w',
    try_catch (Monad.pay_transfers env chatId userId recipient amount fee sender
                                   recipientWallet statusMessage)
              (Monad.pay_catch env) w
    = (Throw (ReferenceError "status"), w')
    /\ trace w' = trace w2 ++ [ConsoleError "Tip error:" e]
    /\ quiet transfer_event w w'
    /\ success (status w') = true
    /\ txHash (status w') = Some transaction
    /\ failed (status w') = failed (status w).
Proof.
  intros Hp Hf.
  exists (snd (perform env (ConsoleError "Tip error:" e) w2)).
  pose proof (Respects_pay_fee_status fee sender w1) as S2.
  rewrite Hf in S2. cbn [snd] in S2. unfold keeps_status in S2.
  destruct (pay_principal_status _ _ _ _ _ _ _ _ _ Hp) as [Hs Hh].
  split; [|split; [|split; [|split; [|split]]]].
  - unfold try_catch, Monad.pay_transfers, bind at 1. rewrite Hp.
    unfold bind at 1. rewrite Hf. reflexivity.
  - reflexivity.
  - pose proof (Respects_pay_principal chatId recipient amount sender recipientWallet
                  statusMessage w) as Q1.
    rewrite Hp in Q1. cbn [snd] in Q1.
    pose proof (Respects_pay_fee fee sender w1) as Q2. rewrite Hf in Q2. cbn [snd] in Q2.
    eapply quiet_trans; [exact Q1|]. eapply quiet_trans; [exact Q2|].
    apply quiet_perform. reflexivity.
  - cbn [perform modify snd status set_clock set_trace]. rewrite S2. exact Hs.
  - cbn [perform modify snd status set_clock set_trace]. rewrite S2. exact Hh.
  - cbn [perform modify snd status set_clock set_trace]. rewrite S2.
    pose proof (Respects_pay_principal_failed chatId recipient amount sender recipientWallet
                  statusMessage w) as F1.
    rewrite Hp in F1. exact F1.
Qed.

Lemma pay_principal_confirmed chatId recipient amount sender recipientWallet statusMessage
    (w w1 : World num) transaction :
  Monad.pay_principal env chatId recipient amount sender recipientWallet statusMessage w
    = (Ok transaction, w1) ->
  exists before after,
    trace w1 = trace w ++ before ++ RpcWait transaction :: after
    /\ forallb status_event after = true.
Proof.
  unfold Monad.pay_principal.
  rewrite (bind_run _ _ _ _ _ (rateLimitedDelay_run env w)).
  intros H. apply bind_returns in H. destruct H as (nonce & wa & Hn & H).
  apply bind_returns in H. destruct H as (value & wb & Hv & H).
  unfold Monad.sendTransaction3, Monad.sendTransactionWithRetry in H.
  apply bind_returns in H. destruct H as (r & wc & Hr & H).
  destruct r as [t|]; [|discriminate]. injection H as <- <-.
  apply (retry_from_confirmed (pay_options env chatId recipient amount statusMessage)) in Hr.
  - destruct Hr as (before & after & Ht & Hf).
    unfold Monad.lift in Hv. injection Hv as _ <-.
    unfold call in Hn. injection Hn as _ <-.
    exists (RpcGetTransactionCount sender "latest" :: before), after.
    split; [|exact Hf]. rewrite Ht. cbn. rewrite <- app_assoc. reflexivity.
  - apply RespectsOptions_pay.
    + apply adds_refl.
    + apply adds_trans.
    + intros; apply adds_silent; reflexivity.
    + intros e w' He. apply adds_perform, He.
Qed.

(** C6 (as the code has it).  When the principal transfer of [/pay]
    returned [transaction], the trace holds the wait for [transaction]
    followed by nothing but edits of the status message; the fee
    transfer that runs next first asks the transaction count of the
    sender at ["latest"], and its first submission carries the nonce [n]
    that this query answered. *)
Theorem pay_fee_nonce_queried_after_confirmation
    chatId recipient amount fee sender recipientWallet statusMessage
    (w w1 : World num) transaction n v :
  Monad.pay_principal env chatId recipient amount sender recipientWallet statusMessage w
    = (Ok transaction, w1) ->
  env_getTransactionCount env (calls_of KGetTransactionCount (trace w1)) = Ok n ->
  env_parseEther env fee = Ok v ->
  exists before after rest,
    trace (snd (Monad.pay_fee env fee sender w1))
    = trace w ++ before ++ RpcWait transaction :: after
        ++ RpcGetTransactionCount sender "latest"
        :: RpcSendTransaction sender (mkTx Monad.FEES_WALLET v (Some n)) :: rest
    /\ forallb status_event after = true.
Proof.
  intros Hp Hn Hv.
  destruct (pay_principal_confirmed _ _ _ _ _ _ _ _ _ Hp) as (before & after & Ht & Hf).
  unfold Monad.pay_fee.
  rewrite (bind_run _ _ _ _ _ (rateLimitedDelay_run env w1)).
  unfold bind at 1, call at 1. world_simpl. rewrite Hn.
  unfold bind at 1, Monad.lift at 1. rewrite Hv.
  match goal with |- context [Monad.sendTransaction3 env ?a ?tx ?o ?w0] =>
    destruct (sendTransaction3_submits o a tx (RespectsOptions_none _) w0) as (rest & Hrest)
  end.
  exists before, after, rest. split; [|exact Hf].
  rewrite Hrest. cbn [trace snd perform modify set_clock set_trace set_lastRpcCall].
  rewrite Ht, <- !app_assoc. cbn [app]. reflexivity.
Qed.

End Settlement.

(** * The balance query and the balance checks *)

Section Balance.
Context {num : Type} {NUM : JsNumber num} (env : Env num).

(** A message sent as the last act of a handler: the trace gains the
    message whether Telegram accepts it or not. *)
Lemma sendMessage_last chatId (m : Message num) (w : World num) :
  snd ((sendMessage env chatId m ;; ret tt) w) = snd (perform env (BotSendMessage chatId m) w).
Proof.
  unfold bind, sendMessage, call. destruct (env_bot env _); reflexivity.
Qed.

Lemma getWalletBalance_answered address (w : World num) b :
  env_getBalance env (calls_of KGetBalance (trace w)) = Ok b ->
  Monad.getWalletBalance env address w = (Ok b, asked_balance env address w).
Proof.
  intros H. unfold Monad.getWalletBalance, try_catch.
  rewrite (bind_run _ _ _ _ _ (rateLimitedDelay_run env w)).
  unfold call. world_simpl. rewrite H. reflexivity.
Qed.

Lemma getWalletBalance_failed address (w : World num) e :
  env_getBalance env (calls_of KGetBalance (trace w)) = Throw e ->
  Monad.getWalletBalance env address w
  = (Ok js_0, snd (perform env (ConsoleError "Error getting balance:" e)
                     (asked_balance env address w))).
Proof.
  intros H. unfold Monad.getWalletBalance, try_catch.
  rewrite (bind_run _ _ _ _ _ (rateLimitedDelay_run env w)).
  unfold call. world_simpl. rewrite H. reflexivity.
Qed.

Lemma sol_getWalletBalance_answered publicKey (w : World num) b :
  env_isPublicKey env (Some publicKey) = true ->
  env_sol_getBalance env (calls_of KSolGetBalance (trace w)) = Ok b ->
  Solana.getWalletBalance env publicKey w = (Ok b, snd (perform env (SolGetBalance publicKey) w)).
Proof.
  intros Hk H. unfold Solana.getWalletBalance, try_catch. rewrite Hk.
  unfold call. world_simpl. rewrite H. reflexivity.
Qed.

Lemma sol_getWalletBalance_failed publicKey (w : World num) e :
  env_isPublicKey env (Some publicKey) = true ->
  env_sol_getBalance env (calls_of KSolGetBalance (trace w)) = Throw e ->
  Solana.getWalletBalance env publicKey w
  = (Ok js_0, snd (perform env (ConsoleError "Error getting balance:" e)
                     (snd (perform env (SolGetBalance publicKey) w)))).
Proof.
  intros Hk H. unfold Solana.getWalletBalance, try_catch. rewrite Hk.
  unfold call. world_simpl. rewrite H. reflexivity.
Qed.

Lemma getWalletBalance_total address (w : World num) :
  exists b, fst (Monad.getWalletBalance env address w) = Ok b.
Proof.
  destruct (env_getBalance env (calls_of KGetBalance (trace w))) as [b|e] eqn:H.
  - exists b. rewrite (getWalletBalance_answered _ _ _ H). reflexivity.
  - exists js_0. rewrite (getWalletBalance_failed _ _ _ H). reflexivity.
Qed.

Lemma sol_getWalletBalance_total publicKey (w : World num) :
  exists b, fst (Solana.getWalletBalance env publicKey w) = Ok b.
Proof.
  unfold Solana.getWalletBalance, try_catch.
  destruct (env_isPublicKey env (Some publicKey)).
  - unfold call. destruct (env_sol_getBalance env _) as [b|e]; [exists b | exists js_0]; reflexivity.
  - exists js_0. reflexivity.
Qed.

(** ** The balance check of [/pay] and of [/tip] *)

Lemma pay_gate chatId userId recipient amount sender (w : World num) b w1 :
  js_isNaN amount || (amount <=? js_0)%js = false ->
  userWallets w !! userId = Some sender ->
  Monad.getWalletBalance env (publicKey sender) w = (Ok b, w1) ->
  (b <? amount + amount * Monad.FEE_PERCENTAGE + Monad.NETWORK_FEE)%js = true ->
  snd (Monad.pay env chatId userId recipient amount w)
  = snd (perform env
           (BotSendMessage chatId
              (InsufficientBalance
                 (Some (amount + amount * Monad.FEE_PERCENTAGE + Monad.NETWORK_FEE)%js) b))
           w1).
Proof.
  intros Hvalid Hwallet Hbalance Hlt. unfold Monad.pay. rewrite Hvalid.
  unfold bind at 1, get at 1. rewrite Hwallet.
  rewrite (bind_run _ _ _ _ _ Hbalance). cbv zeta. rewrite Hlt.
  apply sendMessage_last.
Qed.

Lemma tip_gate chatId fromUserId target amount sender (w : World num) b w1 :
  js_isNaN amount || (amount <=? js_0)%js = false ->
  userWallets w !! fromUserId = Some sender ->
  Solana.getWalletBalance env (publicKey sender) w = (Ok b, w1) ->
  (b <? amount + amount * Solana.FEE_PERCENTAGE)%js = true ->
  snd (Solana.tip env chatId fromUserId target amount w)
  = snd (perform env
           (BotSendMessage chatId
              (InsufficientBalance (Some (amount + amount * Solana.FEE_PERCENTAGE)%js) b))
           w1).
Proof.
  intros Hvalid Hwallet Hbalance Hlt. unfold Solana.tip. rewrite Hvalid. cbv zeta.
  unfold bind at 1, get at 1. rewrite Hwallet.
  rewrite (bind_run _ _ _ _ _ Hbalance). rewrite Hlt.
  apply sendMessage_last.
Qed.

(** C1 (as the code has it).  A sender with a funding wallet asks for
    a transfer of a valid [amount] and the chain answers the balance
    [b].  In [/pay] the amount required is [amount + amount * 0.10 +
    0.000005]; in [/tip] it is [amount + amount * 0.10], without the
    buffer.  When [b] is below the amount required the handler makes one
    chain call, the balance query, sends the insufficient-balance
    message with the two figures and stops; wallets, conversations and
    giveaways are untouched. *)
Theorem insufficient_balance_is_refused chatId userId recipient amount sender
    (w : World num) b :
  js_isNaN amount || (amount <=? js_0)%js = false ->
  userWallets w !! userId = Some sender ->
  (env_getBalance env (calls_of KGetBalance (trace w)) = Ok b ->
   (b <? amount + amount * Monad.FEE_PERCENTAGE + Monad.NETWORK_FEE)%js = true ->
   let w' := snd (Monad.pay env chatId userId recipient amount w) in
   trace w' = trace w
              ++ [RpcGetBalance (publicKey sender);
                  BotSendMessage chatId
                    (InsufficientBalance
                       (Some (amount + amount * Monad.FEE_PERCENTAGE + Monad.NETWORK_FEE)%js)
                       b)]
   /\ same_store w w')
  /\
  (env_isPublicKey env (Some (publicKey sender)) = true ->
   env_sol_getBalance env (calls_of KSolGetBalance (trace w)) = Ok b ->
   (b <? amount + amount * Solana.FEE_PERCENTAGE)%js = true ->
   let w' := snd (Solana.tip env chatId userId recipient amount w) in
   trace w' = trace w
              ++ [SolGetBalance (publicKey sender);
                  BotSendMessage chatId
                    (InsufficientBalance
                       (Some (amount + amount * Solana.FEE_PERCENTAGE)%js) b)]
   /\ same_store w w').
Proof.
  intros Hvalid Hwallet. split.
  - intros Hb Hlt w'. subst w'.
    rewrite (pay_gate _ _ _ _ _ _ _ _ Hvalid Hwallet (getWalletBalance_answered _ _ _ Hb) Hlt).
    split; [|repeat split].
    unfold asked_balance. trace_norm. reflexivity.
  - intros Hk Hb Hlt w'. subst w'.
    rewrite (tip_gate _ _ _ _ _ _ _ _ Hvalid Hwallet
               (sol_getWalletBalance_answered _ _ _ Hk Hb) Hlt).
    split; [|repeat split].
    trace_norm. reflexivity.
Qed.

End Balance.

(** * An unreachable chain *)

Section Unreachable.
Context {num : Type} {NUM : JsNumber num} {LAWS : JsNumberLaws num} (env : Env num).

(** ** The amounts required are positive *)

Lemma valid_amount_positive (amount : num) :
  js_isNaN amount || (amount <=? js_0)%js = false -> (js_0 <? amount)%js = true.
Proof.
  intros H. apply orb_false_elim in H. destruct H as [Hnan Hle].
  apply js_lt_of_not_le; assumption.
Qed.

Lemma amount_with_fee_positive (amount : num) :
  js_isNaN amount || (amount <=? js_0)%js = false ->
  (js_0 <? amount + amount * js_0_10)%js = true.
Proof.
  intros H. pose proof (valid_amount_positive amount H) as Hpos.
  apply js_add_pos; [exact Hpos|].
  apply js_mul_nonneg; [exact Hpos | apply js_0_lt_0_10].
Qed.

Lemma amount_with_fee_and_buffer_positive (amount : num) :
  js_isNaN amount || (amount <=? js_0)%js = false ->
  (js_0 <? amount + amount * js_0_10 + js_0_000005)%js = true.
Proof.
  intros H. apply js_add_pos; [apply amount_with_fee_positive, H | apply js_0_le_0_000005].
Qed.

(** ** The handlers at their balance check *)

Lemma monad_transfer_all_gate chatId userId username claimWallet (w : World num) b w1 :
  claimWallets w !! username = Some claimWallet ->
  Monad.getWalletBalance env (cw_publicKey claimWallet) w = (Ok b, w1) ->
  (b <=? Monad.NETWORK_FEE)%js = true ->
  snd (Monad.transfer_all env chatId userId username w)
  = snd (perform env (BotSendMessage chatId (InsufficientBalance None b)) w1).
Proof.
  intros Hwallet Hbalance Hle. unfold Monad.transfer_all.
  unfold bind at 1, get at 1. rewrite Hwallet.
  rewrite (bind_run _ _ _ _ _ Hbalance). rewrite Hle.
  apply sendMessage_last.
Qed.

Lemma withdraw_from_gate chatId userId address text accrued (w : World num) b w1 mid :
  Monad.getWalletBalance env address w = (Ok b, w1) ->
  (b <=? js_0_0001)%js = true ->
  env_bot env (calls_of KBot (trace w1)) = Ok mid ->
  Monad.withdraw_from env chatId userId address text accrued w
  = (Ok false,
     withdrawal_closed userId
       (snd (perform env (BotSendMessage chatId (InsufficientBalance None b)) w1))).
Proof.
  intros Hbalance Hle Hbot. unfold Monad.withdraw_from.
  rewrite (bind_run _ _ _ _ _ Hbalance). rewrite Hle.
  unfold bind at 1, sendMessage at 1, call at 1. cbn [kind]. rewrite Hbot.
  reflexivity.
Qed.

Lemma monad_withdrawal_gate chatId userId state address text (w : World num) b w1 mid :
  withdrawalState w !! userId = Some state ->
  wd_address state = Some address ->
  String.prefix "/" text = false ->
  env_isAddress env (Some text) = true ->
  Monad.getWalletBalance env address w = (Ok b, w1) ->
  (b <=? js_0_0001)%js = true ->
  env_bot env (calls_of KBot (trace w1)) = Ok mid ->
  snd (Monad.withdrawal_message env chatId userId (Some text) w)
  = withdrawal_closed userId
      (snd (perform env (BotSendMessage chatId (InsufficientBalance None b)) w1)).
Proof.
  intros Hstate Haddress Hcommand Hvalid Hbalance Hle Hbot. unfold Monad.withdrawal_message.
  unfold bind at 1, get at 1. rewrite Hstate, Hcommand, Hvalid. cbn [negb default].
  unfold try_catch, bind at 1.
  destruct state as [username claimWallet|userWallet|username destination];
    cbn [wd_address] in Haddress; [| |discriminate]; injection Haddress as <-;
    rewrite (withdraw_from_gate chatId userId _ text _ w b w1 mid Hbalance Hle Hbot);
    reflexivity.
Qed.

Lemma gmonad_gate chatId userId chatType amount message_id sender (w : World num) b w1 :
  Monad.is_group chatType = true ->
  js_isNaN amount || (amount <=? js_0)%js = false ->
  userWallets w !! userId = Some sender ->
  Monad.getWalletBalance env (publicKey sender) w = (Ok b, w1) ->
  (b <? amount + amount * Monad.FEE_PERCENTAGE + Monad.NETWORK_FEE)%js = true ->
  snd (Monad.gmonad env chatId userId chatType (Some amount) message_id w)
  = snd (perform env
           (BotSendMessage chatId
              (InsufficientBalance
                 (Some (amount + amount * Monad.FEE_PERCENTAGE + Monad.NETWORK_FEE)%js) b))
           w1).
Proof.
  intros Hgroup Hvalid Hwallet Hbalance Hlt. unfold Monad.gmonad.
  rewrite Hgroup, Hvalid. cbn [negb].
  unfold bind at 1, get at 1. rewrite Hwallet.
  rewrite (bind_run _ _ _ _ _ Hbalance). cbv zeta. rewrite Hlt.
  apply sendMessage_last.
Qed.

Lemma random_gate chatId fromId userId chatType winners role amount sender status
    (w : World num) b w1 :
  Monad.is_group chatType = true ->
  env_getChatMember env (calls_of KGetChatMember (trace w)) = Ok status ->
  Monad.is_admin_status status = true ->
  (1 <= winners <= 50)%nat ->
  js_isNaN amount || (amount <=? js_0)%js = false ->
  Monad.is_role (Monad.toLowerCase role) = true ->
  userWallets w !! userId = Some sender ->
  Monad.getWalletBalance env (publicKey sender)
    (snd (perform env (BotGetChatMember chatId fromId) w)) = (Ok b, w1) ->
  (b <? (amount + amount * Monad.FEE_PERCENTAGE + Monad.NETWORK_FEE) * js_of_nat winners)%js
  = true ->
  snd (Monad.random env chatId fromId userId chatType (Some (winners, role, amount)) w)
  = snd (perform env
           (BotSendMessage chatId
              (InsufficientForWinners
                 ((amount + amount * Monad.FEE_PERCENTAGE + Monad.NETWORK_FEE)
                  * js_of_nat winners)%js
                 b amount winners))
           w1).
Proof.
  intros Hgroup Hmember Hadmin Hwinners Hvalid Hrole Hwallet Hbalance Hlt.
  unfold Monad.random. rewrite Hgroup. cbn [negb].
  unfold bind at 1, try_catch at 1, bind at 1, call at 1. cbn [kind]. rewrite Hmember, Hadmin.
  unfold ret at 1. cbn [negb].
  replace ((winners <=? 0) || (50 <? winners))%nat with false
    by (symmetry; apply orb_false_iff; split;
        [apply Nat.leb_gt | apply Nat.ltb_ge]; lia).
  rewrite Hvalid, Hrole. cbn [negb].
  unfold bind at 1, get at 1. cbn [userWallets perform modify snd set_clock set_trace].
  rewrite Hwallet.
  rewrite (bind_run _ _ _ _ _ Hbalance). cbv zeta. rewrite Hlt.
  apply sendMessage_last.
Qed.

Lemma sol_transfer_all_gate chatId userId username callbackQueryId claimWallet fundingWallet
    (w : World num) b w1 :
  claimWallets w !! username = Some claimWallet ->
  userWallets w !! userId = Some fundingWallet ->
  Solana.getWalletBalance env (cw_publicKey claimWallet) w = (Ok b, w1) ->
  (b <=? js_0)%js = true ->
  snd (Solana.transfer_all env chatId userId username callbackQueryId w)
  = snd (perform env (BotSendMessage chatId NoFundsAvailable) w1).
Proof.
  intros Hclaim Hfunding Hbalance Hle. unfold Solana.transfer_all.
  unfold bind at 1, get at 1. rewrite Hclaim, Hfunding.
  rewrite (bind_run _ _ _ _ _ Hbalance). rewrite Hle.
  apply sendMessage_last.
Qed.

Lemma sol_withdrawal_gate chatId userId text amount username destination wallet
    (w : World num) b w1 :
  withdrawalState w !! userId = Some (wd_step username (Some destination)) ->
  claimWallets w !! username = Some wallet ->
  js_isNaN amount || (amount <=? js_0)%js = false ->
  Solana.getWalletBalance env (cw_publicKey wallet) w = (Ok b, w1) ->
  (b <? amount)%js = true ->
  snd (Solana.withdrawal_message env chatId userId text amount w)
  = snd (perform env (BotSendMessage chatId (InsufficientBalance None b)) w1).
Proof.
  intros Hstate Hclaim Hvalid Hbalance Hlt. unfold Solana.withdrawal_message.
  unfold bind at 1, get at 1. rewrite Hstate, Hclaim, Hvalid.
  rewrite (bind_run _ _ _ _ _ Hbalance). rewrite Hlt.
  apply sendMessage_last.
Qed.

(** C10.  Neither [getWalletBalance] throws.  When the balance call of
    the chain throws [e], the Monad bot's returns [0] after logging [e],
    and so does the Solana bot's.  Every handler that checks a balance
    before it moves funds then sees zero and refuses, without a
    hypothesis on the amounts beyond the handler's own validation: in
    the Monad bot [/pay], [/gmonad] and [/random] answer with their
    insufficient-balance message ([/random] after the administrator
    check), [transfer_all] and the two withdrawals with theirs, the
    withdrawals closing the conversation; in the Solana bot [/tip] and
    the withdrawal answer with theirs and [transfer_all] with its
    no-funds message.  None of them tells the user of the RPC error,
    and none makes another call to the chain. *)
Theorem getWalletBalance_never_throws address (w : World num) :
  (exists b, fst (Monad.getWalletBalance env address w) = Ok b)
  /\ (exists b, fst (Solana.getWalletBalance env address w) = Ok b)
  /\ (forall e,
        env_getBalance env (calls_of KGetBalance (trace w)) = Throw e ->
        exists w1,
          Monad.getWalletBalance env address w = (Ok js_0, w1)
          /\ trace w1 = trace w ++ [RpcGetBalance address;
                                    ConsoleError "Error getting balance:" e]
          /\ same_store w w1)
  /\ (forall e,
        env_isPublicKey env (Some address) = true ->
        env_sol_getBalance env (calls_of KSolGetBalance (trace w)) = Throw e ->
        exists w1,
          Solana.getWalletBalance env address w = (Ok js_0, w1)
          /\ trace w1 = trace w ++ [SolGetBalance address;
                                    ConsoleError "Error getting balance:" e]
          /\ same_store w w1)
  /\ (forall e chatId userId recipient amount sender,
        env_getBalance env (calls_of KGetBalance (trace w)) = Throw e ->
        js_isNaN amount || (amount <=? js_0)%js = false ->
        userWallets w !! userId = Some sender ->
        trace (snd (Monad.pay env chatId userId recipient amount w))
        = trace w
          ++ [RpcGetBalance (publicKey sender);
              ConsoleError "Error getting balance:" e;
              BotSendMessage chatId
                (InsufficientBalance
                   (Some (amount + amount * Monad.FEE_PERCENTAGE + Monad.NETWORK_FEE)%js)
                   js_0)])
  /\ (forall e chatId userId username claimWallet,
        env_getBalance env (calls_of KGetBalance (trace w)) = Throw e ->
        claimWallets w !! username = Some claimWallet ->
        trace (snd (Monad.transfer_all env chatId userId username w))
        = trace w
          ++ [RpcGetBalance (cw_publicKey claimWallet);
              ConsoleError "Error getting balance:" e;
              BotSendMessage chatId (InsufficientBalance None js_0)])
  /\ (forall e chatId userId state source text mid,
        env_getBalance env (calls_of KGetBalance (trace w)) = Throw e ->
        withdrawalState w !! userId = Some state ->
        wd_address state = Some source ->
        String.prefix "/" text = false ->
        env_isAddress env (Some text) = true ->
        env_bot env (calls_of KBot (trace w)) = Ok mid ->
        let w' := snd (Monad.withdrawal_message env chatId userId (Some text) w) in
        trace w'
        = trace w
          ++ [RpcGetBalance source;
              ConsoleError "Error getting balance:" e;
              BotSendMessage chatId (InsufficientBalance None js_0)]
        /\ withdrawalState w' !! userId = None)
  /\ (forall e chatId userId chatType amount message_id sender,
        env_getBalance env (calls_of KGetBalance (trace w)) = Throw e ->
        Monad.is_group chatType = true ->
        js_isNaN amount || (amount <=? js_0)%js = false ->
        userWallets w !! userId = Some sender ->
        let w' := snd (Monad.gmonad env chatId userId chatType (Some amount) message_id w) in
        trace w'
        = trace w
          ++ [RpcGetBalance (publicKey sender);
              ConsoleError "Error getting balance:" e;
              BotSendMessage chatId
                (InsufficientBalance
                   (Some (amount + amount * Monad.FEE_PERCENTAGE + Monad.NETWORK_FEE)%js)
                   js_0)]
        /\ same_store w w')
  /\ (forall e chatId fromId userId chatType winners role amount sender status,
        env_getBalance env (calls_of KGetBalance (trace w)) = Throw e ->
        Monad.is_group chatType = true ->
        env_getChatMember env (calls_of KGetChatMember (trace w)) = Ok status ->
        Monad.is_admin_status status = true ->
        (1 <= winners <= 50)%nat ->
        js_isNaN amount || (amount <=? js_0)%js = false ->
        Monad.is_role (Monad.toLowerCase role) = true ->
        userWallets w !! userId = Some sender ->
        let w' := snd (Monad.random env chatId fromId userId chatType
                         (Some (winners, role, amount)) w) in
        trace w'
        = trace w
          ++ [BotGetChatMember chatId fromId;
              RpcGetBalance (publicKey sender);
              ConsoleError "Error getting balance:" e;
              BotSendMessage chatId
                (InsufficientForWinners
                   ((amount + amount * Monad.FEE_PERCENTAGE + Monad.NETWORK_FEE)
                    * js_of_nat winners)%js
                   js_0 amount winners)]
        /\ same_store w w')
  /\ (forall e chatId userId recipient amount sender,
        env_isPublicKey env (Some (publicKey sender)) = true ->
        env_sol_getBalance env (calls_of KSolGetBalance (trace w)) = Throw e ->
        js_isNaN amount || (amount <=? js_0)%js = false ->
        userWallets w !! userId = Some sender ->
        trace (snd (Solana.tip env chatId userId recipient amount w))
        = trace w
          ++ [SolGetBalance (publicKey sender);
              ConsoleError "Error getting balance:" e;
              BotSendMessage chatId
                (InsufficientBalance
                   (Some (amount + amount * Solana.FEE_PERCENTAGE)%js) js_0)])
  /\ (forall e chatId userId username callbackQueryId claimWallet fundingWallet,
        env_isPublicKey env (Some (cw_publicKey claimWallet)) = true ->
        env_sol_getBalance env (calls_of KSolGetBalance (trace w)) = Throw e ->
        claimWallets w !! username = Some claimWallet ->
        userWallets w !! userId = Some fundingWallet ->
        trace (snd (Solana.transfer_all env chatId userId username callbackQueryId w))
        = trace w
          ++ [SolGetBalance (cw_publicKey claimWallet);
              ConsoleError "Error getting balance:" e;
              BotSendMessage chatId NoFundsAvailable])
  /\ (forall e chatId userId text amount username destination wallet,
        env_isPublicKey env (Some (cw_publicKey wallet)) = true ->
        env_sol_getBalance env (calls_of KSolGetBalance (trace w)) = Throw e ->
        withdrawalState w !! userId = Some (wd_step username (Some destination)) ->
        claimWallets w !! username = Some wallet ->
        js_isNaN amount || (amount <=? js_0)%js = false ->
        trace (snd (Solana.withdrawal_message env chatId userId text amount w))
        = trace w
          ++ [SolGetBalance (cw_publicKey wallet);
              ConsoleError "Error getting balance:" e;
              BotSendMessage chatId (InsufficientBalance None js_0)]).
Proof.
  split; [apply getWalletBalance_total|].
  split; [apply sol_getWalletBalance_total|].
  split; [|split; [|split; [|split; [|split; [|split; [|split; [|split; [|split]]]]]]]].
  - intros e H. eexists. split; [apply (getWalletBalance_failed _ _ _ _ H)|].
    split; [|repeat split].
    unfold asked_balance. trace_norm. reflexivity.
  - intros e Hk H. eexists. split; [apply (sol_getWalletBalance_failed _ _ _ _ Hk H)|].
    split; [|repeat split].
    trace_norm. reflexivity.
  - intros e chatId userId recipient amount sender H Hvalid Hwallet.
    rewrite (pay_gate _ _ _ _ _ _ _ _ _ Hvalid Hwallet (getWalletBalance_failed _ _ _ _ H)
               (amount_with_fee_and_buffer_positive amount Hvalid)).
    unfold asked_balance. trace_norm. reflexivity.
  - intros e chatId userId username claimWallet H Hwallet.
    rewrite (monad_transfer_all_gate _ userId _ _ _ _ _ Hwallet
               (getWalletBalance_failed _ _ _ _ H) js_0_le_0_000005).
    unfold asked_balance. trace_norm. reflexivity.
  - intros e chatId userId state source text mid H Hstate Hsource Hcommand Haddress Hbot w'.
    subst w'.
    rewrite (monad_withdrawal_gate _ _ _ _ _ _ _ _ mid Hstate Hsource Hcommand Haddress
               (getWalletBalance_failed _ _ _ _ H) js_0_le_0_0001).
    + unfold withdrawal_closed, asked_balance. trace_norm.
      split; [reflexivity | apply lookup_delete_eq].
    + unfold asked_balance. trace_norm. rewrite !calls_of_app. cbn [calls_of kind kind_eqb].
      rewrite !Nat.add_0_r. exact Hbot.
  - intros e chatId userId chatType amount message_id sender H Hgroup Hvalid Hwallet w'.
    subst w'.
    rewrite (gmonad_gate _ _ _ _ message_id _ _ _ _ Hgroup Hvalid Hwallet
               (getWalletBalance_failed _ _ _ _ H)
               (amount_with_fee_and_buffer_positive amount Hvalid)).
    split; [|repeat split].
    unfold asked_balance. trace_norm. reflexivity.
  - intros e chatId fromId userId chatType winners role amount sender status
           H Hgroup Hmember Hadmin Hwinners Hvalid Hrole Hwallet w'.
    subst w'.
    assert (H' : env_getBalance env
                   (calls_of KGetBalance
                      (trace (snd (perform env (BotGetChatMember chatId fromId) w))))
                 = Throw e).
    { trace_norm. rewrite calls_of_app. cbn [calls_of kind kind_eqb].
      rewrite Nat.add_0_r. exact H. }
    rewrite (random_gate _ _ _ _ _ _ _ _ _ _ _ _ Hgroup Hmember Hadmin Hwinners Hvalid Hrole
               Hwallet (getWalletBalance_failed _ _ _ _ H')
               (js_mul_count_pos _ _ (amount_with_fee_and_buffer_positive amount Hvalid)
                  Hwinners)).
    split; [|repeat split].
    unfold asked_balance. trace_norm. reflexivity.
  - intros e chatId userId recipient amount sender Hk H Hvalid Hwallet.
    rewrite (tip_gate _ _ _ _ _ _ _ _ _ Hvalid Hwallet
               (sol_getWalletBalance_failed _ _ _ _ Hk H)
               (amount_with_fee_positive amount Hvalid)).
    trace_norm. reflexivity.
  - intros e chatId userId username callbackQueryId claimWallet fundingWallet
           Hk H Hclaim Hfunding.
    rewrite (sol_transfer_all_gate _ _ _ callbackQueryId _ _ _ _ _ Hclaim Hfunding
               (sol_getWalletBalance_failed _ _ _ _ Hk H) js_0_le_0).
    trace_norm. reflexivity.
  - intros e chatId userId text amount username destination wallet Hk H Hstate Hclaim Hvalid.
    rewrite (sol_withdrawal_gate _ _ text _ _ _ _ _ _ _ Hstate Hclaim Hvalid
               (sol_getWalletBalance_failed _ _ _ _ Hk H)
               (valid_amount_positive amount Hvalid)).
    trace_norm. reflexivity.
Qed.

End Unreachable.

(** * The claim ledger *)

Section Ledger.
Context {num : Type} {NUM : JsNumber num} (env : Env num).

Lemma getOrCreateClaimWallet_found recipient fromId wallet (w : World num) :
  claimWallets w !! recipient = Some wallet ->
  Monad.getOrCreateClaimWallet env recipient fromId w = (Ok wallet, w).
Proof.
  intros H. unfold Monad.getOrCreateClaimWallet, bind, get. rewrite H. reflexivity.
Qed.

Lemma getOrCreateClaimWallet_created recipient fromId (w : World num) :
  claimWallets w !! recipient = None ->
  let created := env_createRandom env (calls_of KCreateRandom (trace w)) in
  let wallet := mkClaimWallet (privateKey created) (publicKey created) fromId js_0 in
  exists w1,
    Monad.getOrCreateClaimWallet env recipient fromId w = (Ok wallet, w1)
    /\ claimWallets w1 = <[recipient := wallet]> (claimWallets w)
    /\ upserted (trace w1) = upserted (trace w) ++ [(recipient, wallet)].
Proof.
  intros H created wallet. unfold Monad.getOrCreateClaimWallet.
  unfold bind at 1, get at 1. rewrite H.
  unfold bind, createRandom, modify, saveClaimWallet, try_catch, call, console_error, ret.
  trace_norm.
  destruct (env_db env _); eexists; (split; [reflexivity|]); (split; [reflexivity|]);
    trace_norm; rewrite upserted_app; reflexivity.
Qed.

(** C7 (as the code has it).  In the Monad bot, resolving the claim
    wallet of a username twice in a row returns the same wallet both
    times, and the second resolution changes nothing.  The two together
    upsert the wallet once when the username had no claim wallet, and
    not at all when it had one. *)
Theorem getOrCreateClaimWallet_twice recipient fromId fromId' (w : World num) :
  exists wallet w1,
    Monad.getOrCreateClaimWallet env recipient fromId w = (Ok wallet, w1)
    /\ Monad.getOrCreateClaimWallet env recipient fromId' w1 = (Ok wallet, w1)
    /\ upserted (trace w1)
       = upserted (trace w)
         ++ match claimWallets w !! recipient with
            | Some _ => []
            | None => [(recipient, wallet)]
            end.
Proof.
  destruct (claimWallets w !! recipient) as [wallet|] eqn:H.
  - exists wallet, w.
    rewrite !(getOrCreateClaimWallet_found _ _ _ _ H), app_nil_r. auto.
  - destruct (getOrCreateClaimWallet_created recipient fromId w H) as (w1 & Hrun & Hmap & Hup).
    eexists. exists w1. split; [exact Hrun|]. split; [|exact Hup].
    apply getOrCreateClaimWallet_found. rewrite Hmap. apply lookup_insert_eq.
Qed.

End Ledger.

(** * The giveaway *)

Section Giveaway.
Context {num : Type} {NUM : JsNumber num} (env : Env num).

Lemma key_eqb_refl (key : Z * Z) : Monad.key_eqb key key = true.
Proof. unfold Monad.key_eqb. rewrite !Z.eqb_refl. reflexivity. Qed.

Lemma key_eqb_eq (a b : Z * Z) : Monad.key_eqb a b = true <-> a = b.
Proof.
  unfold Monad.key_eqb. destruct a as [a1 a2], b as [b1 b2]. cbn.
  rewrite andb_true_iff, !Z.eqb_eq. split; [intros [-> ->]; reflexivity | intros [= -> ->]; auto].
Qed.

Lemma giveaway_get_delete key key' (gs : list ((Z * Z) * Giveaway num)) :
  Monad.giveaway_get key' (Monad.giveaway_delete key gs)
  = if Monad.key_eqb key key' then None else Monad.giveaway_get key' gs.
Proof.
  unfold Monad.giveaway_delete.
  induction gs as [|[k g] gs IH]; cbn [List.filter Monad.giveaway_get fst].
  - destruct (Monad.key_eqb key key'); reflexivity.
  - destruct (Monad.key_eqb key k) eqn:Hk; cbn [negb Monad.giveaway_get].
    + rewrite IH. apply key_eqb_eq in Hk. subst k.
      destruct (Monad.key_eqb key key') eqn:Hk'; [reflexivity|].
      destruct (Monad.key_eqb key' key) eqn:Hk''; [|reflexivity].
      apply key_eqb_eq in Hk''. subst key'. rewrite key_eqb_refl in Hk'. discriminate.
    + rewrite IH.
      destruct (Monad.key_eqb key' k) eqn:Hk'; [|reflexivity].
      apply key_eqb_eq in Hk'. subst k. rewrite Hk. reflexivity.
Qed.

Lemma giveaway_get_deleted key (gs : list ((Z * Z) * Giveaway num)) :
  Monad.giveaway_get key (Monad.giveaway_delete key gs) = None.
Proof. rewrite giveaway_get_delete, key_eqb_refl. reflexivity. Qed.

(** An entry changes the participants of a giveaway, never the keys. *)
Lemma enter_keys chatId userId username (gs : list ((Z * Z) * Giveaway num)) :
  map fst (fst (Monad.enter chatId userId username gs)) = map fst gs.
Proof.
  induction gs as [|[k g] gs IH]; cbn [Monad.enter]; [reflexivity|].
  destruct (g_chatId g =? chatId)%Z.
  - destruct (Monad.has_participant userId (participants g)); reflexivity.
  - destruct (Monad.enter chatId userId username gs) as [rest added]. cbn in *.
    rewrite IH. reflexivity.
Qed.

Lemma giveaway_get_absent key (gs : list ((Z * Z) * Giveaway num)) :
  Monad.giveaway_get key gs = None <-> forallb (fun k => negb (Monad.key_eqb key k)) (map fst gs) = true.
Proof.
  induction gs as [|[k g] gs IH]; cbn; [tauto|].
  destruct (Monad.key_eqb key k); cbn; [split; discriminate | exact IH].
Qed.

Lemma enter_keeps_closed key chatId userId username (gs : list ((Z * Z) * Giveaway num)) :
  Monad.giveaway_get key gs = None ->
  Monad.giveaway_get key (fst (Monad.enter chatId userId username gs)) = None.
Proof. rewrite !giveaway_get_absent, enter_keys. auto. Qed.

(** With no giveaway of the chat open, an entry changes nothing. *)
Lemma enter_other_chats chatId userId username (gs : list ((Z * Z) * Giveaway num)) :
  forallb (fun kg => negb (g_chatId (snd kg) =? chatId)%Z) gs = true ->
  Monad.enter chatId userId username gs = (gs, false).
Proof.
  induction gs as [|[k g] gs IH]; cbn [Monad.enter forallb snd]; [reflexivity|].
  intros H. apply andb_true_iff in H. destruct H as [Hg Hrest].
  destruct (g_chatId g =? chatId)%Z; [discriminate|].
  rewrite (IH Hrest). reflexivity.
Qed.

Lemma set_giveaways_same (w : World num) : set_giveaways (activeGmonadGiveaways w) w = w.
Proof. destruct w. reflexivity. Qed.

(** The entry listener never throws, adds at most a log line to the
    trace and changes no key of the registry. *)
Lemma gmonad_message_run chatId userId text username (w : World num) :
  exists gs log,
    Monad.gmonad_message env chatId userId text username w
    = (Ok tt, snd (log (set_giveaways gs w)))
    /\ map fst gs = map fst (activeGmonadGiveaways w)
    /\ (log = ret tt \/ log = console_log env "User entered giveaway").
Proof.
  unfold Monad.gmonad_message.
  assert (Hsame : exists gs log,
            (Ok tt, w) = (Ok tt, snd (log (set_giveaways gs w)))
            /\ map fst gs = map fst (activeGmonadGiveaways w)
            /\ (log = ret tt \/ log = console_log env "User entered giveaway")).
  { exists (activeGmonadGiveaways w), (ret tt). rewrite set_giveaways_same. auto. }
  destruct text as [t|]; cbn [option_map]; [|exact Hsame].
  destruct username as [u|]; [|exact Hsame].
  destruct (_ || _); [exact Hsame|].
  destruct (Monad.is_entry _); [|exact Hsame].
  unfold bind at 1, get at 1.
  pose proof (enter_keys chatId userId u (activeGmonadGiveaways w)) as Hkeys.
  destruct (Monad.enter chatId userId u (activeGmonadGiveaways w)) as [gs added].
  cbn [fst] in Hkeys. unfold bind, modify.
  destruct added.
  - exists gs, (console_log env "User entered giveaway"). auto.
  - exists gs, (ret tt). auto.
Qed.

Lemma gmonad_message_other_chats chatId userId text username (w : World num) :
  forallb (fun kg => negb (g_chatId (snd kg) =? chatId)%Z) (activeGmonadGiveaways w) = true ->
  Monad.gmonad_message env chatId userId text username w = (Ok tt, w).
Proof.
  intros Hother. unfold Monad.gmonad_message.
  destruct text as [t|]; cbn [option_map]; [|reflexivity].
  destruct username as [u|]; [|reflexivity].
  destruct (_ || _); [reflexivity|].
  destruct (Monad.is_entry _); [|reflexivity].
  unfold bind at 1, get at 1. rewrite (enter_other_chats _ _ _ _ Hother).
  unfold bind, modify, ret. rewrite set_giveaways_same. reflexivity.
Qed.

(** C8.  A giveaway whose participants are empty when its timer fires
    is deleted from the registry and the chat gets the no-participants
    notice; nothing else joins the trace, so no transfer is made.
    ([closeGmonadGiveaway] on such a giveaway sends the same notice and
    nothing else.)  Once a key is out of the registry, an entry message
    returns normally, leaves the key out, and adds at most the log line
    of an entry to another giveaway of the chat; with no giveaway of the
    chat open it changes nothing at all. *)
Theorem empty_giveaway_is_discarded_and_late_entries_ignored
    chatId giveawayKey giveaway (w : World num) :
  Monad.giveaway_get giveawayKey (activeGmonadGiveaways w) = Some giveaway ->
  participants giveaway = [] ->
  (let w' := snd (Monad.gmonad_timer env chatId giveawayKey w) in
   trace w' = trace w ++ [BotSendMessage chatId GiveawayNoParticipants]
   /\ Monad.giveaway_get giveawayKey (activeGmonadGiveaways w') = None)
  /\ trace (snd (Monad.closeGmonadGiveaway env giveawayKey w))
     = trace w ++ [BotSendMessage (g_chatId giveaway) GiveawayNoParticipants]
  /\ forall (closed : World num) chat userId text username,
       Monad.giveaway_get giveawayKey (activeGmonadGiveaways closed) = None ->
       let late := Monad.gmonad_message env chat userId text username closed in
       fst late = Ok tt
       /\ Monad.giveaway_get giveawayKey (activeGmonadGiveaways (snd late)) = None
       /\ adds (fun e => match e with ConsoleLog _ => true | _ => false end) closed (snd late)
       /\ (forallb (fun kg => negb (g_chatId (snd kg) =? chat)%Z)
                   (activeGmonadGiveaways closed) = true ->
           snd late = closed).
Proof.
  intros Hget Hempty. split; [|split].
  - cbv zeta.
    assert (Hrun : snd (Monad.gmonad_timer env chatId giveawayKey w)
                   = snd (perform env (BotSendMessage chatId GiveawayNoParticipants)
                            (set_giveaways
                               (Monad.giveaway_delete giveawayKey (activeGmonadGiveaways w)) w))).
    { unfold Monad.gmonad_timer, bind at 1, get at 1. rewrite Hget, Hempty.
      cbn [length Nat.ltb Nat.leb]. unfold bind at 1, modify at 1.
      apply sendMessage_last. }
    rewrite Hrun. clear Hrun. trace_norm.
    split; [reflexivity | apply giveaway_get_deleted].
  - unfold Monad.closeGmonadGiveaway, bind at 1, get at 1. rewrite Hget, Hempty.
    unfold bind, sendMessage, call, modify. destruct (env_bot env _); reflexivity.
  - intros closed chat userId text username Hclosed late. subst late.
    assert (Hother : forallb (fun kg => negb (g_chatId (snd kg) =? chat)%Z)
                       (activeGmonadGiveaways closed) = true ->
                     snd (Monad.gmonad_message env chat userId text username closed) = closed).
    { intros Hother. rewrite (gmonad_message_other_chats _ _ _ _ _ Hother). reflexivity. }
    destruct (gmonad_message_run chat userId text username closed)
      as (gs & log & Hrun & Hkeys & Hlog).
    rewrite Hrun in *. cbn [fst snd] in *. split; [reflexivity|].
    assert (Hgs : Monad.giveaway_get giveawayKey gs = None).
    { apply giveaway_get_absent. rewrite Hkeys. apply giveaway_get_absent, Hclosed. }
    split; [|split].
    + destruct Hlog as [-> | ->]; exact Hgs.
    + destruct Hlog as [-> | ->].
      * apply adds_silent. reflexivity.
      * exists [ConsoleLog "User entered giveaway"]. split; reflexivity.
    + exact Hother.
Qed.

End Giveaway.

(** Brings the index of the next call of a kind to the form
    [calls_of k (trace w) + n]. *)
Ltac count_calls :=
  trace_norm; rewrite ?calls_of_app; cbn [calls_of kind kind_eqb Nat.add];
  rewrite ?Nat.add_0_r.

(** Runs the call at the head of the computation with the answer [H]
    gives for it. *)
Ltac answer H :=
  unfold bind at 1, call at 1; count_calls; rewrite H.

(** * The tip of the Solana bot *)

Section Tip.
Context {num : Type} {NUM : JsNumber num} (env : Env num).

(** C3, the divergence.  In [/tip], with a valid amount and a balance
    that covers amount and fee, the target's accrual is raised before
    the transfer is sent.  When the submission then throws, the handler
    ends with the ReferenceError of its [catch] block; the raised
    accrual stays in [claimWallets] and has been upserted, no row was
    inserted into [tips], and the chat got the processing message and
    nothing after it. *)
Theorem tip_accrual_survives_failed_transfer
    chatId fromUserId target amount sender b mid blockhash e (w : World num) :
  js_isNaN amount || (amount <=? js_0)%js = false ->
  userWallets w !! fromUserId = Some sender ->
  env_isPublicKey env (Some (publicKey sender)) = true ->
  env_sol_getBalance env (calls_of KSolGetBalance (trace w)) = Ok b ->
  (b <? amount + amount * Solana.FEE_PERCENTAGE)%js = false ->
  env_bot env (calls_of KBot (trace w)) = Ok mid ->
  env_sol_getLatestBlockhash env (calls_of KSolGetLatestBlockhash (trace w)) = Ok blockhash ->
  env_sol_sendTransaction env (calls_of KSolSendTransaction (trace w)) = Throw e ->
  let accrued := tip_accrual env target fromUserId amount w in
  exists w',
    Solana.tip env chatId fromUserId target amount w = (Throw (ReferenceError "signature"), w')
    /\ claimWallets w' !! target = Some accrued
    /\ upserted (trace w') = upserted (trace w) ++ [(target, accrued)]
    /\ inserted (trace w') = inserted (trace w)
    /\ sent_to chatId (trace w') = sent_to chatId (trace w) ++ [Processing amount].
Proof.
  intros Hvalid Hsender Hkey Hb Hlt Hbot Hhash Hsend accrued. subst accrued.
  unfold tip_accrual, Solana.tip. rewrite Hvalid. cbv zeta.
  unfold bind at 1, get at 1. rewrite Hsender.
  rewrite (bind_run _ _ _ _ _ (sol_getWalletBalance_answered env _ _ _ Hkey Hb)). rewrite Hlt.
  unfold Solana.resolveClaimWallet. unfold bind at 1. unfold bind at 1, get at 1.
  trace_norm.
  destruct (claimWallets w !! target) as [stored|] eqn:Hstored.
  - unfold bind at 1, modify at 1, ret at 1. unfold try_catch at 1.
    unfold sendMessage at 1. answer Hbot.
    unfold bind at 1, saveClaimWallet at 1, try_catch at 1, call at 1.
    destruct (env_db env _);
      [| unfold console_error at 1, perform at 1, modify at 1];
      (unfold Solana.submit; unfold bind at 1; answer Hhash; answer Hsend;
       unfold Solana.outer_catch, bind, console_error, perform, modify, throw;
       eexists; split; [reflexivity|]; trace_norm;
       rewrite lookup_insert_eq, !upserted_app, !inserted_app, !sent_to_app;
       cbn [upserted inserted sent_to]; rewrite Z.eqb_refl, ?app_nil_r; auto).
  - unfold bind at 1, createRandom at 1. unfold bind at 1, modify at 1, ret at 1.
    unfold try_catch at 1.
    unfold sendMessage at 1. answer Hbot.
    unfold bind at 1, saveClaimWallet at 1, try_catch at 1, call at 1.
    destruct (env_db env _);
      [| unfold console_error at 1, perform at 1, modify at 1];
      (unfold Solana.submit; unfold bind at 1; answer Hhash; answer Hsend;
       unfold Solana.outer_catch, bind, console_error, perform, modify, throw;
       eexists; split; [reflexivity|]; trace_norm;
       rewrite lookup_insert_eq, !upserted_app, !inserted_app, !sent_to_app;
       cbn [upserted inserted sent_to]; rewrite Z.eqb_refl, ?app_nil_r;
       rewrite ?calls_of_app; cbn [calls_of kind kind_eqb]; rewrite ?Nat.add_0_r; auto).
Qed.

End Tip.

(** * Confirmation failures in the Monad bot *)

Section Requery.
Context {num : Type} {NUM : JsNumber num} (env : Env num).

(** C5, the divergence.  The Monad bot's [transfer_all]: the claim
    wallet holds more than the network fee, the gas leaves something to
    send, the submission returns the transaction [t] and the wait for
    [t] throws [e].  The handler logs [e] and tells the chat that the
    transfer failed; between the wait and that message it asks the chain
    nothing, in particular not for the receipt of [t].  The accrual of
    the claim wallet is not reset. *)
Theorem monad_transfer_all_reports_failure_without_requery
    chatId userId username claimWallet userWallet b v g p v' t e (w : World num) :
  claimWallets w !! username = Some claimWallet ->
  userWallets w !! userId = Some userWallet ->
  env_getBalance env (calls_of KGetBalance (trace w)) = Ok b ->
  (b <=? Monad.NETWORK_FEE)%js = false ->
  env_parseEther env b = Ok v ->
  env_estimateGas env (calls_of KEstimateGas (trace w)) = Ok g ->
  env_getFeeData env (calls_of KGetFeeData (trace w)) = Ok p ->
  let amountToSend := (b - env_formatEther env (g * p)%Z - js_0_00001)%js in
  (amountToSend <=? js_0)%js = false ->
  env_parseEther env amountToSend = Ok v' ->
  env_sendTransaction env (calls_of KSendTransaction (trace w)) = Ok t ->
  env_wait env (calls_of KWait (trace w)) = Throw e ->
  let w' := snd (Monad.transfer_all env chatId userId username w) in
  trace w'
  = trace w
    ++ [RpcGetBalance (cw_publicKey claimWallet);
        RpcEstimateGas (cw_publicKey claimWallet) (publicKey userWallet);
        RpcGetFeeData;
        RpcSendTransaction (cw_publicKey claimWallet) (mkTx (publicKey userWallet) v' None);
        RpcWait t;
        ConsoleError "Transfer error:" e;
        BotSendMessage chatId (TransferFailed (message e))]
  /\ same_store w w'.
Proof.
  intros Hclaim Huser Hb Hle Hv Hg Hp amountToSend Hpos Hv' Hsend Hwait w'. subst w'.
  set (from := cw_publicKey claimWallet). set (to := publicKey userWallet).
  assert (Hrun :
    snd (Monad.transfer_all env chatId userId username w)
    = after env (BotSendMessage chatId (TransferFailed (message e)))
        (after env (ConsoleError "Transfer error:" e)
           (after env (RpcWait t)
              (after env (RpcSendTransaction from (mkTx to v' None))
                 (after env RpcGetFeeData
                    (delayed env
                       (after env (RpcEstimateGas from to)
                          (delayed env (asked_balance env from w))))))))).
  { unfold after, delayed, from, to. rewrite !rateLimitedDelay_run. cbn [snd].
    unfold Monad.transfer_all. unfold bind at 1, get at 1. rewrite Hclaim.
    rewrite (bind_run _ _ _ _ _ (getWalletBalance_answered env _ _ _ Hb)). rewrite Hle.
    unfold bind at 1, get at 1.
    replace (userWallets (asked_balance env (cw_publicKey claimWallet) w) !! userId)
      with (Some userWallet) by (symmetry; exact Huser).
    unfold bind at 1, ret at 1. unfold try_catch at 1. unfold bind at 1.
    unfold Monad.drain.
    rewrite (bind_run _ _ _ _ _ (rateLimitedDelay_run env _)).
    unfold bind at 1, Monad.lift at 1. rewrite Hv.
    unfold bind at 1, call at 1.
    replace (env_estimateGas env _) with (Ok (A := Z) g)
      by (symmetry; rewrite <- Hg; f_equal;
          unfold asked_balance; count_calls; reflexivity).
    rewrite (bind_run _ _ _ _ _ (rateLimitedDelay_run env _)).
    unfold bind at 1, call at 1.
    replace (env_getFeeData env _) with (Ok (A := Z) p)
      by (symmetry; rewrite <- Hp; f_equal;
          unfold asked_balance; count_calls; reflexivity).
    fold amountToSend. rewrite Hpos.
    unfold bind at 1, Monad.lift at 1. rewrite Hv'.
    unfold bind at 1, call at 1.
    replace (env_sendTransaction env _) with (Ok (A := string) t)
      by (symmetry; rewrite <- Hsend; f_equal;
          unfold asked_balance; count_calls; reflexivity).
    unfold bind at 1, call at 1.
    replace (env_wait env _) with (Throw (A := unit) e)
      by (symmetry; rewrite <- Hwait; f_equal;
          unfold asked_balance; count_calls; reflexivity).
    unfold console_error. unfold bind at 1. unfold perform at 1, modify at 1.
    apply sendMessage_last. }
  rewrite Hrun. unfold after, delayed. rewrite !rateLimitedDelay_run. unfold asked_balance.
  split; [trace_norm; reflexivity | repeat split].
Qed.

End Requery.

(** * The governor under overlapping handlers *)

Section GovernorRace.
Import Governor.

(** C9, the divergence.  Two handlers enter [rateLimitedDelay] less than
    100 ms after the last call, one after the other with no time in
    between.  Each reads the same [lastRpcCall] and sets its timer for
    the same instant, 100 ms after the last call; when the timers fire
    both return at that instant, so their two chain calls are issued
    together, not 100 ms apart. *)
Theorem governor_releases_overlapping_calls_together (s : State) (i j : nat) :
  i <> j ->
  invocations s !! i = Some Pending ->
  invocations s !! j = Some Pending ->
  now s - lastRpcCall s < MIN_RPC_DELAY ->
  let release := lastRpcCall s + MIN_RPC_DELAY in
  exists s',
    run [Enter i; Enter j; Tick (Z.to_N (release - now s)); Resume i; Resume j] s = Some s'
    /\ invocations s' !! i = Some (Released release)
    /\ invocations s' !! j = Some (Released release).
Proof.
  intros Hij Hi Hj Hlt release.
  assert (Hltb : (now s - lastRpcCall s <? MIN_RPC_DELAY)%Z = true)
    by (apply Z.ltb_lt; exact Hlt).
  assert (Huntil : now s + (MIN_RPC_DELAY - (now s - lastRpcCall s)) = release)
    by (unfold release; ring).
  assert (Hnow : now s + Z.of_N (Z.to_N (release - now s)) = release).
  { rewrite Z2N.id; [ring | unfold release; lia]. }
  pose proof (lookup_lt_Some _ _ _ Hi) as Hli.
  pose proof (lookup_lt_Some _ _ _ Hj) as Hlj.
  cbn [run step]. rewrite Hi, Hltb, Huntil.
  cbn [run step now lastRpcCall invocations].
  rewrite list_lookup_insert_ne by exact Hij. rewrite Hj, Hltb, Huntil.
  cbn [run step now lastRpcCall invocations].
  rewrite Hnow.
  rewrite list_lookup_insert_ne by (intros ->; apply Hij; reflexivity).
  rewrite list_lookup_insert_eq by exact Hli.
  rewrite Z.leb_refl.
  cbn [run step now lastRpcCall invocations].
  rewrite list_lookup_insert_ne by exact Hij.
  rewrite list_lookup_insert_eq by (rewrite length_insert; exact Hlj).
  rewrite Z.leb_refl.
  eexists. split; [reflexivity|]. cbn [invocations]. split.
  - rewrite list_lookup_insert_ne by (intros ->; apply Hij; reflexivity).
    apply list_lookup_insert_eq. rewrite !length_insert. exact Hli.
  - apply list_lookup_insert_eq. rewrite !length_insert. exact Hlj.
Qed.

End GovernorRace.

(** * Signs in binary64 arithmetic

    The balance checks compare a balance with a sum of positive
    amounts.  That such a sum is positive in binary64, whatever the
    rounding, is read off the specification of the primitive
    operations ([SpecFloat]): rounding keeps the sign, and a sum of
    positive numbers cannot round to zero. *)

Section Binary64.
Local Open Scope Z_scope.

Lemma fexp_eq e : SpecFloat.fexp prec emax e = Z.max (e - 53) emin64.
Proof. reflexivity. Qed.

Lemma size_succ_le p : (Pos.size p <= Pos.size (Pos.succ p))%positive.
Proof.
  induction p as [p IH|p _|]; simpl; lia.
Qed.

Lemma digits2_size p : digits2_pos p = Pos.size p.
Proof. induction p as [p IH|p IH|]; cbn; congruence. Qed.

Lemma Zdigits2_pos m : 0 < m -> 0 < Zdigits2 m.
Proof. destruct m; cbn; lia. Qed.

Lemma Zdigits2_positive m : 0 <= m -> 0 < Zdigits2 m -> 0 < m.
Proof. destruct m; cbn; lia. Qed.

Lemma Zdigits2_succ m : 0 < m -> Zdigits2 m <= Zdigits2 (m + 1).
Proof.
  destruct m as [|p|p]; try lia. intros _.
  change (Z.pos p + 1) with (Z.pos (p + 1)). cbn [Zdigits2].
  rewrite Pos.add_1_r, (digits2_size p), (digits2_size (Pos.succ p)).
  pose proof (size_succ_le p). lia.
Qed.

(** ** Shifting right *)

Lemma shr_1_digits mrs :
  0 <= shr_m mrs ->
  0 <= shr_m (shr_1 mrs)
  /\ Zdigits2 (shr_m (shr_1 mrs)) = Z.max 0 (Zdigits2 (shr_m mrs) - 1).
Proof.
  destruct mrs as [m r s]. cbn [shr_m]. intros Hm.
  destruct m as [|[p|p|]|p]; cbn; try lia.
Qed.

Lemma iter_shr_1_digits n : forall mrs,
  0 <= shr_m mrs ->
  0 <= shr_m (SpecFloat.iter_pos shr_1 n mrs)
  /\ Zdigits2 (shr_m (SpecFloat.iter_pos shr_1 n mrs)) = Z.max 0 (Zdigits2 (shr_m mrs) - Z.pos n).
Proof.
  induction n as [n IH|n IH|]; intros mrs Hm; cbn [SpecFloat.iter_pos].
  - destruct (shr_1_digits mrs Hm) as [H1 E1].
    destruct (IH _ H1) as [H2 E2]. destruct (IH _ H2) as [H3 E3].
    split; [exact H3|]. rewrite E3, E2, E1. lia.
  - destruct (IH _ Hm) as [H2 E2]. destruct (IH _ H2) as [H3 E3].
    split; [exact H3|]. rewrite E3, E2. lia.
  - apply shr_1_digits, Hm.
Qed.

Lemma shr_m_of_loc m l : shr_m (shr_record_of_loc m l) = m.
Proof. destruct l as [|[]]; reflexivity. Qed.

(** [shr_fexp] keeps a mantissa positive or zero; it keeps a positive
    one positive, with the same magnitude [digits + exponent], when that
    magnitude is above the smallest exponent. *)
Lemma shr_fexp_nonneg m e l :
  0 <= m -> 0 <= shr_m (fst (shr_fexp prec emax m e l)).
Proof.
  intros Hm. unfold shr_fexp, shr.
  destruct (SpecFloat.fexp prec emax (Zdigits2 m + e) - e) as [|n|n]; cbn [fst];
    rewrite <- (shr_m_of_loc m l) in Hm; try exact Hm.
  apply iter_shr_1_digits, Hm.
Qed.

Lemma shr_fexp_positive m e l :
  0 < m -> emin64 < Zdigits2 m + e ->
  0 < shr_m (fst (shr_fexp prec emax m e l))
  /\ Zdigits2 (shr_m (fst (shr_fexp prec emax m e l))) + snd (shr_fexp prec emax m e l)
     = Zdigits2 m + e.
Proof.
  intros Hm HD. unfold shr_fexp, shr.
  destruct (SpecFloat.fexp prec emax (Zdigits2 m + e) - e) as [|n|n] eqn:Hn; cbn [fst snd];
    rewrite ?shr_m_of_loc; try (split; [exact Hm | reflexivity]).
  destruct (iter_shr_1_digits n (shr_record_of_loc m l)) as [H0 E];
    [rewrite shr_m_of_loc; lia|].
  rewrite shr_m_of_loc in E.
  assert (Hlt : Z.pos n < Zdigits2 m).
  { rewrite fexp_eq in *. unfold emin64, prec, emax in *. lia. }
  split.
  - apply Zdigits2_positive; [exact H0|]. rewrite E. lia.
  - rewrite E. lia.
Qed.

Lemma round_nearest_even_bounds m l :
  0 <= m ->
  m <= round_nearest_even m l /\ (0 < m -> Zdigits2 m <= Zdigits2 (round_nearest_even m l)).
Proof.
  intros Hm. unfold round_nearest_even.
  destruct l as [|[]]; try destruct (Z.even m); split; intros; try lia;
    apply Zdigits2_succ; assumption.
Qed.

(** ** Rounding *)

Lemma binary_round_aux_nonneg m e l :
  0 <= m -> SFnonneg (binary_round_aux prec emax false m e l) = true.
Proof.
  intros Hm. unfold binary_round_aux.
  pose proof (shr_fexp_nonneg m e l Hm) as H1.
  destruct (shr_fexp prec emax m e l) as [mrs' e']. cbn [fst] in H1.
  pose proof (round_nearest_even_bounds (shr_m mrs') (loc_of_shr_record mrs') H1) as [H2 _].
  pose proof (shr_fexp_nonneg (round_nearest_even (shr_m mrs') (loc_of_shr_record mrs'))
                e' loc_Exact ltac:(lia)) as H3.
  destruct (shr_fexp prec emax _ e' loc_Exact) as [mrs'' e'']. cbn [fst] in H3.
  destruct (shr_m mrs'') as [|p|p]; [reflexivity | | lia].
  destruct (e'' <=? emax - prec); reflexivity.
Qed.

Lemma binary_round_aux_positive m e l :
  0 < m -> emin64 < Zdigits2 m + e ->
  SFpositive (binary_round_aux prec emax false m e l) = true.
Proof.
  intros Hm HD. unfold binary_round_aux.
  pose proof (shr_fexp_positive m e l Hm HD) as [H1 E1].
  destruct (shr_fexp prec emax m e l) as [mrs' e']. cbn [fst snd] in H1, E1.
  pose proof (round_nearest_even_bounds (shr_m mrs') (loc_of_shr_record mrs')
                ltac:(lia)) as [H2 D2].
  specialize (D2 H1).
  pose proof (shr_fexp_positive (round_nearest_even (shr_m mrs') (loc_of_shr_record mrs'))
                e' loc_Exact ltac:(lia) ltac:(lia)) as [H3 _].
  destruct (shr_fexp prec emax _ e' loc_Exact) as [mrs'' e'']. cbn [fst] in H3.
  destruct (shr_m mrs'') as [|p|p]; [lia | | lia].
  destruct (e'' <=? emax - prec); reflexivity.
Qed.

Lemma digits2_iter_xO d : forall p,
  Z.pos (digits2_pos (Pos.iter xO p d)) = Z.pos (digits2_pos p) + Z.pos d.
Proof.
  induction d as [|d IH] using Pos.peano_ind; intros p.
  - cbn. lia.
  - rewrite Pos.iter_succ. cbn [digits2_pos]. rewrite Pos2Z.inj_succ, IH. lia.
Qed.

Lemma binary_round_positive p e :
  emin64 < Z.pos (digits2_pos p) + e ->
  SFpositive (binary_round prec emax false p e) = true.
Proof.
  intros HD. unfold binary_round, shl_align.
  destruct (SpecFloat.fexp prec emax (Z.pos (digits2_pos p) + e) - e) as [|d|d] eqn:Hd.
  - apply binary_round_aux_positive; [lia | exact HD].
  - apply binary_round_aux_positive; [lia | exact HD].
  - apply binary_round_aux_positive; [lia|].
    cbn [Zdigits2]. rewrite digits2_iter_xO. lia.
Qed.

(** ** Valid numbers *)

Lemma valid_exponent s m e :
  valid_binary (S754_finite s m e) = true -> emin64 <= e.
Proof.
  cbn. unfold bounded, canonical_mantissa. intros H.
  apply andb_true_iff in H. destruct H as [H _]. apply Z.eqb_eq in H.
  rewrite fexp_eq in H. unfold emin64 in *. lia.
Qed.

Lemma valid_magnitude s m e :
  valid_binary (S754_finite s m e) = true ->
  emin64 < Z.pos (digits2_pos m) + e
  /\ (emin64 < e -> Z.pos (digits2_pos m) + e = e + prec).
Proof.
  intros H. pose proof (valid_exponent _ _ _ H) as He.
  cbn in H. unfold bounded, canonical_mantissa in H.
  apply andb_true_iff in H. destruct H as [H _]. apply Z.eqb_eq in H.
  rewrite fexp_eq in H. unfold emin64, prec in *. split; lia.
Qed.

(** ** Sums and products *)

Lemma SFadd_positive x y :
  valid_binary x = true -> valid_binary y = true ->
  SFpositive x = true -> SFnonneg y = true ->
  SFpositive (SF64add x y) = true.
Proof.
  intros Vx Vy Hx Hy.
  destruct x as [sx|[]| |[] mx ex]; try discriminate;
    destruct y as [sy|[]| |[] my ey]; try discriminate; try reflexivity.
  unfold SF64add, SFadd, binary_normalize, cond_Zopp.
  cbn [Z.add]. apply binary_round_positive.
  pose proof (valid_exponent _ _ _ Vx). pose proof (valid_exponent _ _ _ Vy).
  pose proof (Pos2Z.is_pos (digits2_pos
    (fst (shl_align mx ex (Z.min ex ey)) + fst (shl_align my ey (Z.min ex ey))))).
  lia.
Qed.

Lemma SFmul_nonneg x y :
  SFpositive x = true -> SFpositive y = true -> SFnonneg (SF64mul x y) = true.
Proof.
  intros Hx Hy.
  destruct x as [sx|[]| |[] mx ex]; try discriminate;
    destruct y as [sy|[]| |[] my ey]; try discriminate; try reflexivity.
  unfold SF64mul, SFmul. cbn [xorb]. apply binary_round_aux_nonneg. lia.
Qed.

Lemma size_mul p q : (Pos.size p + Pos.size q <= Pos.size (p * q) + 1)%positive.
Proof.
  pose proof (Pos.size_le p) as Hp. pose proof (Pos.size_le q) as Hq.
  pose proof (Pos.size_gt (p * q)) as Hpq.
  apply Pos2Z.pos_le_pos in Hp, Hq. apply Pos2Z.pos_lt_pos in Hpq.
  rewrite Pos2Z.inj_pow in Hp, Hq, Hpq.
  change (Z.pos p~0) with (2 * Z.pos p) in Hp. change (Z.pos q~0) with (2 * Z.pos q) in Hq.
  rewrite Pos2Z.inj_mul in Hpq.
  assert (H : 2 ^ (Z.pos (Pos.size p) + Z.pos (Pos.size q)) < 2 ^ (Z.pos (Pos.size (p * q)) + 2)).
  { rewrite !Z.pow_add_r by lia. change (2 ^ 2) with 4. nia. }
  apply Z.pow_lt_mono_r_iff in H; lia.
Qed.

Lemma SFmul_positive x y :
  valid_binary x = true -> valid_binary y = true ->
  SFpositive x = true -> SFleb SFone64 y = true ->
  SFpositive (SF64mul x y) = true.
Proof.
  intros Vx Vy Hx Hy.
  destruct x as [sx|[]| |[] mx ex]; try discriminate;
    destruct y as [sy|[]| |[] my ey]; try discriminate; try reflexivity.
  unfold SF64mul, SFmul. cbn [xorb]. apply binary_round_aux_positive; [lia|].
  destruct (valid_magnitude _ _ _ Vx) as [Dx _].
  destruct (valid_magnitude _ _ _ Vy) as [_ Dy].
  assert (He : -52 <= ey).
  { unfold SFleb, SFone64, SFcompare in Hy.
    destruct (Z.compare_spec (-52) ey); try lia; discriminate. }
  cbn [Zdigits2]. rewrite !digits2_size in *.
  pose proof (size_mul mx my).
  unfold emin64, prec, emax in *. lia.
Qed.

(** ** The primitive operations *)

Lemma Prim2SF_zero : Prim2SF 0 = S754_zero false.
Proof. reflexivity. Qed.

Lemma Prim2SF_one : Prim2SF 1 = SFone64.
Proof. reflexivity. Qed.

Lemma ltb_0_positive x : (0 <? x)%float = SFpositive (Prim2SF x).
Proof.
  rewrite FloatAxioms.ltb_spec, Prim2SF_zero.
  destruct (Prim2SF x) as [s|[]| |[] m e]; reflexivity.
Qed.

Lemma leb_0_nonneg x : (0 <=? x)%float = SFnonneg (Prim2SF x).
Proof.
  rewrite FloatAxioms.leb_spec, Prim2SF_zero.
  destruct (Prim2SF x) as [s|[]| |[] m e]; reflexivity.
Qed.

Lemma float_positive_of_not_le x :
  PrimFloat.is_nan x = false -> (x <=? 0)%float = false -> (0 <? x)%float = true.
Proof.
  unfold PrimFloat.is_nan. rewrite FloatAxioms.eqb_spec, FloatAxioms.leb_spec, ltb_0_positive, Prim2SF_zero.
  destruct (Prim2SF x) as [s|[]| |[] m e]; cbn; congruence.
Qed.

Lemma float_add_positive x y :
  (0 <? x)%float = true -> (0 <=? y)%float = true -> (0 <? x + y)%float = true.
Proof.
  rewrite !ltb_0_positive, leb_0_nonneg, add_spec.
  apply SFadd_positive; apply Prim2SF_valid.
Qed.

Lemma float_mul_nonneg x y :
  (0 <? x)%float = true -> (0 <? y)%float = true -> (0 <=? x * y)%float = true.
Proof.
  rewrite !ltb_0_positive, leb_0_nonneg, mul_spec. apply SFmul_nonneg.
Qed.

Lemma float_mul_positive x y :
  (0 <? x)%float = true -> (1 <=? y)%float = true -> (0 <? x * y)%float = true.
Proof.
  rewrite !ltb_0_positive, FloatAxioms.leb_spec, Prim2SF_one, mul_spec.
  apply SFmul_positive; apply Prim2SF_valid.
Qed.

End Binary64.

(** ** Both number types satisfy the laws *)

Lemma float_count_at_least_1 k :
  (1 <= k <= 50)%nat -> (1 <=? js_of_nat k)%float = true.
Proof.
  intros Hk.
  assert (H : forallb (fun k => (1 <=? js_of_nat k)%float) (seq 1 50) = true)
    by (vm_compute; reflexivity).
  rewrite forallb_forall in H. apply H. apply in_seq. lia.
Qed.

#[export] Instance float_JsNumberLaws : JsNumberLaws float.
Proof.
  split; cbn [js_0 js_0_10 js_0_000005 js_0_0001 js_add js_mul js_lt js_le js_isNaN
              js_of_nat float_JsNumber].
  - reflexivity.
  - reflexivity.
  - reflexivity.
  - reflexivity.
  - apply float_positive_of_not_le.
  - apply float_add_positive.
  - apply float_mul_nonneg.
  - intros a k Ha Hk. apply float_mul_positive; [exact Ha|].
    apply (float_count_at_least_1 k Hk).
Qed.

Lemma Q_positive (x : Q) : negb (Qle_bool x 0) = true <-> (0 < x)%Q.
Proof.
  rewrite negb_true_iff. split.
  - intros H. apply Qnot_le_lt. intros Hle. apply Qle_bool_iff in Hle. congruence.
  - intros H. destruct (Qle_bool x 0) eqn:E; [|reflexivity].
    apply Qle_bool_iff in E. exfalso. exact (Qlt_not_le _ _ H E).
Qed.

#[export] Instance Q_JsNumberLaws : JsNumberLaws Q.
Proof.
  split; cbn [js_0 js_0_10 js_0_000005 js_0_0001 js_add js_mul js_lt js_le js_isNaN
              js_of_nat Q_JsNumber].
  - reflexivity.
  - reflexivity.
  - reflexivity.
  - reflexivity.
  - intros a _ H. rewrite H. reflexivity.
  - intros a b Ha Hb. apply Q_positive in Ha. apply Qle_bool_iff in Hb.
    apply Q_positive. rewrite Qred_correct.
    apply (Qlt_le_trans _ (a + 0)%Q); [rewrite Qplus_0_r; exact Ha|].
    apply Qplus_le_r. exact Hb.
  - intros a b Ha Hb. apply Q_positive in Ha, Hb.
    apply Qle_bool_iff. rewrite Qred_correct.
    apply Qmult_le_0_compat; apply Qlt_le_weak; assumption.
  - intros a k Ha Hk. apply Q_positive in Ha. apply Q_positive. rewrite Qred_correct.
    apply Qmult_lt_0_compat; [exact Ha|].
    unfold Qlt, inject_Z. cbn. lia.
Qed.

(** * More of the executor and of the governor *)

Section ExecutorReturns.
Context {num : Type} {NUM : JsNumber num} (env : Env num).

Lemma attempt_returns address tx (w : World num) t :
  env_sendTransaction env (calls_of KSendTransaction (trace w)) = Ok t ->
  env_wait env (calls_of KWait (trace w)) = Ok tt ->
  exists w',
    Monad.attempt env address tx Monad.no_options w = (Ok (Monad.Return t), w')
    /\ trace w' = trace w ++ [RpcSendTransaction address tx; RpcWait t].
Proof.
  intros Hsend Hwait. unfold Monad.attempt.
  rewrite (bind_run _ _ _ _ _ (rateLimitedDelay_run env w)).
  unfold bind at 1, call at 1. world_simpl. rewrite Hsend.
  unfold bind at 1, Monad.invokeCallback at 1, Monad.no_options at 1, Monad.onSent at 1, ret at 1.
  rewrite (bind_run _ _ _ _ _ (rateLimitedDelay_run env _)).
  unfold bind at 1, Monad.invokeCallback at 1, Monad.no_options at 1,
    Monad.onConfirming at 1, ret at 1.
  unfold bind at 1, call at 1. count_calls. rewrite Hwait.
  unfold bind, Monad.invokeCallback, Monad.no_options, Monad.onConfirmed, ret.
  eexists. split; [reflexivity|]. trace_norm. reflexivity.
Qed.

Lemma retry_from_returns (maxRetries : nat) address :
  forall m (errs : nat -> Error) (nonces : nat -> Z) remaining i tx (w : World num) t,
  (i + remaining = maxRetries)%nat ->
  (m < remaining)%nat ->
  (forall j, (j < m)%nat ->
     env_sendTransaction env (calls_of KSendTransaction (trace w) + j) = Throw (errs j)) ->
  (forall j, (j < m)%nat ->
     env_getTransactionCount env (calls_of KGetTransactionCount (trace w) + j)
     = Ok (nonces j)) ->
  (forall j, (j < m)%nat -> Monad.retryable (errs j) = true) ->
  env_sendTransaction env (calls_of KSendTransaction (trace w) + m) = Ok t ->
  env_wait env (calls_of KWait (trace w)) = Ok tt ->
  exists w',
    Monad.retry_from env remaining i maxRetries address tx Monad.no_options w
    = (Ok (Some t), w')
    /\ trace w' = trace w ++ RpcSendTransaction address tx
                          :: retries address tx nonces m ++ [RpcWait t].
Proof.
  induction m as [|m IH];
    intros errs nonces remaining i tx w t Hsum Hlt Hsend Hnonce Hretry Hok Hwait;
    (destruct remaining as [|remaining]; [lia|]); cbn [Monad.retry_from];
    unfold bind at 1; unfold try_catch.
  - destruct (attempt_returns address tx w t) as (w1 & -> & Htr1).
    { rewrite <- Hok. f_equal. lia. }
    { exact Hwait. }
    exists w1. split; [reflexivity|]. rewrite Htr1. reflexivity.
  - destruct (attempt_send_fails env address tx Monad.no_options w (errs O)) as (w1 & -> & Htr1).
    { rewrite <- (Hsend O) by lia. f_equal. lia. }
    assert (Hi : (i =? maxRetries - 1)%nat = false) by (apply Nat.eqb_neq; lia).
    destruct (recover_again env i maxRetries address tx (errs O) w1 (nonces O) Hi)
      as (w2 & -> & Htr2).
    { apply Hretry. lia. }
    { rewrite Htr1, calls_of_app. cbn [calls_of kind kind_eqb].
      rewrite <- (Hnonce O) by lia. reflexivity. }
    destruct (IH (fun j => errs (S j)) (fun j => nonces (S j)) remaining (S i)
                 (tx_with_nonce tx (nonces O)) w2 t) as (w3 & Hrun & Htr3).
    + lia.
    + lia.
    + intros j Hj. rewrite Htr2, Htr1, !calls_of_app. cbn [calls_of kind kind_eqb].
      rewrite <- (Hsend (S j)) by lia. f_equal. lia.
    + intros j Hj. rewrite Htr2, Htr1, !calls_of_app. cbn [calls_of kind kind_eqb].
      rewrite <- (Hnonce (S j)) by lia. f_equal. lia.
    + intros j Hj. apply Hretry. lia.
    + rewrite Htr2, Htr1, !calls_of_app. cbn [calls_of kind kind_eqb].
      rewrite <- Hok. f_equal. lia.
    + rewrite Htr2, Htr1, !calls_of_app. cbn [calls_of kind kind_eqb].
      rewrite <- Hwait. f_equal. lia.
    + exists w3. split; [exact Hrun|].
      rewrite Htr3, Htr2, Htr1, retries_refreshed. cbn [retries].
      rewrite <- !app_assoc. reflexivity.
Qed.

(** X1.  The executor without callbacks: when its first [m]
    submissions fail with retryable errors, [m] below [maxRetries], and
    the next submission is accepted as [t] and confirmed, it returns
    [t].  The trace is the first submission, the [m] retries (log line,
    2000 ms pause, nonce query, resubmission under the answered nonce)
    and the wait for [t]: the transaction returned is the one of the
    last submission, sent under the last nonce queried. *)
Theorem sendTransactionWithRetry_returns_the_accepted_retry
    (maxRetries : nat) address tx (w : World num) (m : nat)
    (errs : nat -> Error) (nonces : nat -> Z) t :
  (m < maxRetries)%nat ->
  (forall j, (j < m)%nat ->
     env_sendTransaction env (calls_of KSendTransaction (trace w) + j) = Throw (errs j)) ->
  (forall j, (j < m)%nat ->
     env_getTransactionCount env (calls_of KGetTransactionCount (trace w) + j)
     = Ok (nonces j)) ->
  (forall j, (j < m)%nat -> Monad.retryable (errs j) = true) ->
  env_sendTransaction env (calls_of KSendTransaction (trace w) + m) = Ok t ->
  env_wait env (calls_of KWait (trace w)) = Ok tt ->
  exists w',
    Monad.sendTransactionWithRetry env maxRetries address tx Monad.no_options w
    = (Ok (Some t), w')
    /\ trace w' = trace w ++ RpcSendTransaction address tx
                          :: retries address tx nonces m ++ [RpcWait t].
Proof.
  intros Hm Hsend Hnonce Hretry Hok Hwait. unfold Monad.sendTransactionWithRetry.
  apply (retry_from_returns maxRetries address m errs); try assumption. reflexivity.
Qed.

(** X2.  A lifecycle callback cannot fail the executor:
    [invokeCallback] always returns normally, and when the callback
    throws [e] the only thing added after the callback's own events is
    the log of [e]. *)
Theorem invokeCallback_swallows_the_error callback t (w : World num) :
  fst (Monad.invokeCallback env callback t w) = Ok tt
  /\ forall f e w1,
       callback = Some f -> f t w = (Throw e, w1) ->
       trace (snd (Monad.invokeCallback env callback t w))
       = trace w1 ++ [ConsoleError "Callback error in sendTransactionWithRetry:" e].
Proof.
  split; [apply invokeCallback_ok|].
  intros f e w1 -> Hf. unfold Monad.invokeCallback, try_catch. rewrite Hf. reflexivity.
Qed.

(** X3.  Within one handler the governor keeps its spacing:
    [rateLimitedDelay] always returns, at a time that is at least 100 ms
    after the previous [lastRpcCall] and not before it was entered; it
    sets [lastRpcCall] to that time and adds nothing to the trace. *)
Theorem rateLimitedDelay_spaces_sequential_calls (w : World num) :
  let w' := snd (Monad.rateLimitedDelay env w) in
  fst (Monad.rateLimitedDelay env w) = Ok tt
  /\ lastRpcCall w' = clock w'
  /\ lastRpcCall w + Monad.MIN_RPC_DELAY <= clock w'
  /\ clock w <= clock w'
  /\ trace w' = trace w
  /\ same_store w w'.
Proof.
  cbv zeta. rewrite rateLimitedDelay_run. cbn [fst snd]. world_simpl.
  split; [reflexivity|]. split; [reflexivity|].
  unfold slot, Monad.MIN_RPC_DELAY.
  destruct (clock w - lastRpcCall w <? 100)%Z eqn:H.
  - apply Z.ltb_lt in H. repeat split; lia.
  - apply Z.ltb_ge in H. repeat split; lia.
Qed.

(** X4.  The executor without callbacks touches nothing but the chain
    and the log: whatever the chain answers, a run adds only nonce
    queries, submissions, waits, pauses and log lines to the trace, and
    leaves wallets, withdrawal state and giveaways as they were. *)
Theorem sendTransactionWithRetry_frame (maxRetries : nat) address tx (w : World num) :
  quiet transfer_event w
    (snd (Monad.sendTransactionWithRetry env maxRetries address tx Monad.no_options w)).
Proof.
  unfold Monad.sendTransactionWithRetry.
  apply (Respects_retry_from env (quiet transfer_event)).
  - apply quiet_refl.
  - apply quiet_trans.
  - intros; quiet_step.
  - intros; quiet_step.
  - intros e w0 He. apply quiet_perform, He.
  - apply RespectsOptions_none.
Qed.

End ExecutorReturns.

(** * Status polling *)

Section Polling.
Context {num : Type} {NUM : JsNumber num} (env : Env num).

Lemma monad_poll_once txHash (w : World num) :
  exists found w1,
    try_catch
      (receipt <- call env (RpcGetTransactionReceipt txHash) (env_getTransactionReceipt env) ;;
       match receipt with
       | Some 1 => ret true
       | _ => sleep env StatusPoll 2000 ;; ret false
       end)
      (fun e => console_error env "Error checking transaction status" e ;; ret false) w
    = (Ok found, w1)
    /\ (found = true
        <-> env_getTransactionReceipt env (calls_of KGetTransactionReceipt (trace w))
            = Ok (Some 1))
    /\ calls_of KGetTransactionReceipt (trace w1)
       = S (calls_of KGetTransactionReceipt (trace w)).
Proof.
  unfold try_catch, bind at 1, call at 1.
  destruct (env_getTransactionReceipt env _) as [[[|[p|p|]|p]|]|e];
    unfold sleep, console_error, bind, perform, modify, ret;
    eexists; eexists; (split; [reflexivity|]);
    (split; [split; intros; (reflexivity || discriminate)|]);
    trace_norm; rewrite ?calls_of_app; cbn [calls_of kind kind_eqb]; lia.
Qed.

Lemma monad_checkTransactionStatus_polls txHash :
  forall maxRetries (w : World num),
  exists b w',
    Monad.checkTransactionStatus env txHash maxRetries w = (Ok b, w')
    /\ (b = true
        <-> exists j, (j < maxRetries)%nat
                      /\ env_getTransactionReceipt env
                           (calls_of KGetTransactionReceipt (trace w) + j) = Ok (Some 1))
    /\ (calls_of KGetTransactionReceipt (trace w')
        <= calls_of KGetTransactionReceipt (trace w) + maxRetries)%nat.
Proof.
  induction maxRetries as [|n IH]; intros w; cbn [Monad.checkTransactionStatus].
  - exists false, w. split; [reflexivity|]. split; [|lia].
    split; [discriminate | intros (j & Hj & _); lia].
  - destruct (monad_poll_once txHash w) as (found & w1 & Hrun & Hfound & Hcalls).
    rewrite (bind_run _ _ _ _ _ Hrun). destruct found.
    + exists true, w1. split; [reflexivity|]. split; [|lia].
      split; [|reflexivity]. intros _. exists O. split; [lia|].
      rewrite Nat.add_0_r. apply Hfound. reflexivity.
    + destruct (IH w1) as (b & w' & Hrec & Hb & Hle).
      exists b, w'. split; [exact Hrec|]. split; [|lia].
      rewrite Hb, Hcalls. split.
      * intros (j & Hj & Hans). exists (S j). split; [lia|].
        rewrite <- Hans. f_equal. lia.
      * intros (j & Hj & Hans). destruct j as [|j].
        -- rewrite Nat.add_0_r in Hans. apply Hfound in Hans. discriminate.
        -- exists j. split; [lia|]. rewrite <- Hans. f_equal. lia.
Qed.

(** X5.  [checkTransactionStatus] of the Monad bot never throws; it
    asks for the receipt at most [maxRetries] times, and it returns
    [true] exactly when one of the next [maxRetries] receipt queries
    answers a receipt of status 1. *)
Theorem monad_checkTransactionStatus_outcome txHash maxRetries (w : World num) :
  exists b w',
    Monad.checkTransactionStatus env txHash maxRetries w = (Ok b, w')
    /\ (b = true
        <-> exists j, (j < maxRetries)%nat
                      /\ env_getTransactionReceipt env
                           (calls_of KGetTransactionReceipt (trace w) + j) = Ok (Some 1))
    /\ (calls_of KGetTransactionReceipt (trace w')
        <= calls_of KGetTransactionReceipt (trace w) + maxRetries)%nat.
Proof. apply monad_checkTransactionStatus_polls. Qed.

Lemma sol_poll_once signature (w : World num) :
  exists found w1,
    try_catch
      (confirmed <- call env (SolGetSignatureStatus signature)
                             (env_sol_getSignatureStatus env) ;;
       if confirmed then ret true
       else sleep env StatusPoll 2000 ;; ret false)
      (fun e => console_error env "Error checking transaction status" e ;; ret false) w
    = (Ok found, w1)
    /\ (found = true
        <-> env_sol_getSignatureStatus env (calls_of KSolGetSignatureStatus (trace w))
            = Ok true)
    /\ calls_of KSolGetSignatureStatus (trace w1)
       = S (calls_of KSolGetSignatureStatus (trace w))
    /\ calls_of KSolConfirmTransaction (trace w1)
       = calls_of KSolConfirmTransaction (trace w).
Proof.
  unfold try_catch, bind at 1, call at 1.
  destruct (env_sol_getSignatureStatus env _) as [[|]|e];
    unfold sleep, console_error, bind, perform, modify, ret;
    eexists; eexists; (split; [reflexivity|]);
    (split; [split; intros; (reflexivity || discriminate)|]);
    trace_norm; rewrite ?calls_of_app; cbn [calls_of kind kind_eqb]; lia.
Qed.

Lemma sol_checkTransactionStatus_polls signature :
  forall maxRetries (w : World num),
  exists b w',
    Solana.checkTransactionStatus env signature maxRetries w = (Ok b, w')
    /\ (b = true
        <-> exists j, (j < maxRetries)%nat
                      /\ env_sol_getSignatureStatus env
                           (calls_of KSolGetSignatureStatus (trace w) + j) = Ok true)
    /\ (calls_of KSolGetSignatureStatus (trace w')
        <= calls_of KSolGetSignatureStatus (trace w) + maxRetries)%nat.
Proof.
  induction maxRetries as [|n IH]; intros w; cbn [Solana.checkTransactionStatus].
  - exists false, w. split; [reflexivity|]. split; [|lia].
    split; [discriminate | intros (j & Hj & _); lia].
  - destruct (sol_poll_once signature w) as (found & w1 & Hrun & Hfound & Hcalls & _).
    rewrite (bind_run _ _ _ _ _ Hrun). destruct found.
    + exists true, w1. split; [reflexivity|]. split; [|lia].
      split; [|reflexivity]. intros _. exists O. split; [lia|].
      rewrite Nat.add_0_r. apply Hfound. reflexivity.
    + destruct (IH w1) as (b & w' & Hrec & Hb & Hle).
      exists b, w'. split; [exact Hrec|]. split; [|lia].
      rewrite Hb, Hcalls. split.
      * intros (j & Hj & Hans). exists (S j). split; [lia|].
        rewrite <- Hans. f_equal. lia.
      * intros (j & Hj & Hans). destruct j as [|j].
        -- rewrite Nat.add_0_r in Hans. apply Hfound in Hans. discriminate.
        -- exists j. split; [lia|]. rewrite <- Hans. f_equal. lia.
Qed.

(** X6.  The confirmation step of the Solana flows returns normally
    exactly when the confirmation came back without error, or one of the
    three status queries made after a failed, rejected or timed-out
    confirmation reports the signature confirmed.  A confirmation that
    came back without error is followed by no status query. *)
Theorem confirm_or_recheck_outcome signature (w : World num) :
  let confirmation := env_sol_confirm env (calls_of KSolConfirmTransaction (trace w)) in
  let run := Solana.confirm_or_recheck env signature w in
  (fst run = Ok tt
   <-> confirmation = Confirmed false
       \/ exists j, (j < 3)%nat
                    /\ env_sol_getSignatureStatus env
                         (calls_of KSolGetSignatureStatus (trace w) + j) = Ok true)
  /\ (confirmation = Confirmed false ->
      trace (snd run) = trace w ++ [SolConfirmTransaction signature]).
Proof.
  cbv zeta.
  set (w1 := snd (perform env (SolConfirmTransaction signature) w)).
  assert (Hcalls : calls_of KSolGetSignatureStatus (trace w1)
                   = calls_of KSolGetSignatureStatus (trace w)).
  { subst w1. trace_norm. rewrite calls_of_app. cbn [calls_of kind kind_eqb]. lia. }
  destruct (sol_checkTransactionStatus_polls signature 3 w1) as (b & w' & Hrun & Hb & _).
  rewrite Hcalls in Hb.
  assert (Hfailed : forall confirmError,
            (isConfirmed <- Solana.checkTransactionStatus env signature 3 ;;
             if isConfirmed then ret tt else throw confirmError) w1
            = (if b then Ok tt else Throw confirmError, w')).
  { intros confirmError. rewrite (bind_run _ _ _ _ _ Hrun). destruct b; reflexivity. }
  assert (Hrecheck : forall confirmError,
            fst (if b then Ok tt else Throw confirmError, w') = Ok tt
            <-> exists j, (j < 3)%nat
                          /\ env_sol_getSignatureStatus env
                               (calls_of KSolGetSignatureStatus (trace w) + j) = Ok true).
  { intros confirmError. rewrite <- Hb. destruct b; cbn [fst]; split; congruence. }
  destruct (env_sol_confirm env (calls_of KSolConfirmTransaction (trace w)))
    as [[|]|e|] eqn:Hconfirm.
  - assert (Heq : Solana.confirm_or_recheck env signature w
                  = (if b then Ok tt else Throw (error "Transaction failed to confirm"), w')).
    { unfold Solana.confirm_or_recheck, try_catch, bind at 1, call at 1.
      cbn [kind]. rewrite Hconfirm. unfold throw at 1. apply Hfailed. }
    rewrite Heq. split; [|discriminate]. rewrite Hrecheck.
    split; [intros H; right; exact H | intros [H|H]; [discriminate | exact H]].
  - assert (Heq : Solana.confirm_or_recheck env signature w = (Ok tt, w1)).
    { unfold Solana.confirm_or_recheck, try_catch, bind at 1, call at 1.
      cbn [kind]. rewrite Hconfirm. reflexivity. }
    rewrite Heq. split; [split; [left; reflexivity | reflexivity]|].
    intros _. subst w1. trace_norm. reflexivity.
  - assert (Heq : Solana.confirm_or_recheck env signature w
                  = (if b then Ok tt else Throw e, w')).
    { unfold Solana.confirm_or_recheck, try_catch, bind at 1, call at 1.
      cbn [kind]. rewrite Hconfirm. unfold throw at 1. apply Hfailed. }
    rewrite Heq. split; [|discriminate]. rewrite Hrecheck.
    split; [intros H; right; exact H | intros [H|H]; [discriminate | exact H]].
  - assert (Heq : Solana.confirm_or_recheck env signature w
                  = (if b then Ok tt else Throw (error "Transaction confirmation timeout"),
                     w')).
    { unfold Solana.confirm_or_recheck, try_catch, bind at 1, call at 1.
      cbn [kind]. rewrite Hconfirm. unfold throw at 1. apply Hfailed. }
    rewrite Heq. split; [|discriminate]. rewrite Hrecheck.
    split; [intros H; right; exact H | intros [H|H]; [discriminate | exact H]].
Qed.

End Polling.

(** Breaks down a goal [Respects (adds ok) m] for a handler of the Monad
    bot, where [ok] accepts every transfer event. *)
Ltac adds_respects :=
  repeat match goal with
    | |- Respects _ (Monad.rateLimitedDelay _) =>
        apply (Respects_rateLimitedDelay _ _ (adds_trans _));
        intros; apply adds_silent; reflexivity
    | |- Respects _ (Monad.sendTransaction3 _ _ _ _) =>
        apply Respects_sendTransaction3;
        [ apply adds_refl | apply adds_trans
        | intros; apply adds_silent; reflexivity
        | intros; apply adds_silent; reflexivity
        | let e := fresh "e" in
          intros e ? ?; apply adds_perform; destruct e; (discriminate || reflexivity)
        | ]
    | |- RespectsOptions _ Monad.no_options => apply RespectsOptions_none
    | |- RespectsOptions _ (Monad.mkOptions _ _ _) =>
        split; [|split]; cbn [Monad.onSent Monad.onConfirming Monad.onConfirmed];
        intros ? [= <-] ?;
        (apply Respects_setStatus;
         [ apply adds_refl | apply adds_trans
         | intros; apply adds_silent; reflexivity
         | let e := fresh "e" in
           intros e ? ?; apply adds_perform; destruct e; (discriminate || reflexivity) ])
    | |- Respects _ (ret _) => apply (Respects_ret _ (adds_refl _))
    | |- Respects _ (throw _) => apply (Respects_throw _ (adds_refl _))
    | |- Respects _ get => apply (Respects_get _ (adds_refl _))
    | |- Respects _ (Monad.lift _) => apply (Respects_lift _ (adds_refl _))
    | |- Respects _ (bind _ _) => apply (Respects_bind _ (adds_trans _)); [|intros ?]
    | |- Respects _ (try_catch _ _) => apply (Respects_try_catch _ (adds_trans _)); [|intros ?]
    | |- Respects _ (call _ _ _) => apply Respects_call
    | |- Respects _ (createRandom _) => apply Respects_createRandom
    | |- Respects _ (perform _ _) => intros ?; apply adds_perform; reflexivity
    | |- Respects _ (modify _) => apply Respects_modify; intros ?; apply adds_silent; reflexivity
    | |- Respects _ (match ?x with _ => _ end) => destruct x
    end.

Ltac unfold_monad_handlers :=
  unfold Monad.pay, Monad.pay_settle, Monad.pay_transfers, Monad.pay_principal, Monad.pay_fee,
    Monad.pay_record, Monad.pay_catch, Monad.transfer_all, Monad.withdrawal_message,
    Monad.withdraw_from, Monad.withdrawal_delete, Monad.drain, Monad.resetAccrual,
    Monad.gmonad, Monad.gmonad_timer, Monad.closeGmonadGiveaway, Monad.giveaway_transfers,
    Monad.gmonad_message, Monad.getOrCreateClaimWallet, Monad.accrue, Monad.getWalletBalance,
    sendMessage, saveClaimWallet, saveUserWallet, console_error, console_log, sleep;
  cbv zeta.

(** * What the Monad bot never asks *)

Section NeverAsked.
Context {num : Type} {NUM : JsNumber num} (env : Env num).

(** X7.  No handler of the Monad bot ever asks the chain for a
    transaction receipt: whatever the chain, the database and Telegram
    answer, the events that [/pay], [transfer_all], the withdrawal
    conversation, [/gmonad], its timer, [closeGmonadGiveaway] and the
    entry listener add to the trace include no receipt query.
    ([checkTransactionStatus] is the only code that makes one, and
    nothing calls it.) *)
Theorem monad_handlers_never_query_a_receipt
    (chatId uid : Z) (userId username chatType : string) (amount : num)
    (amountArg : option num) (text name : option string) (key : Z * Z) (w : World num) :
  adds not_requery w (snd (Monad.pay env chatId userId username amount w))
  /\ adds not_requery w (snd (Monad.transfer_all env chatId userId username w))
  /\ adds not_requery w (snd (Monad.withdrawal_message env chatId uid text w))
  /\ adds not_requery w (snd (Monad.gmonad env chatId userId chatType amountArg uid w))
  /\ adds not_requery w (snd (Monad.gmonad_timer env chatId key w))
  /\ adds not_requery w (snd (Monad.closeGmonadGiveaway env key w))
  /\ adds not_requery w (snd (Monad.gmonad_message env chatId uid text name w)).
Proof.
  repeat split;
    match goal with
    | |- adds _ _ (snd (?m w)) =>
        revert w; change (Respects (adds (num := num) not_requery) m)
    end;
    unfold_monad_handlers; adds_respects.
Qed.

End NeverAsked.

(** * The handlers on invalid input *)

Section Refusals.
Context {num : Type} {NUM : JsNumber num} (env : Env num).

Lemma sendMessage_then_ret {A} chatId (m : Message num) (a : A) (w : World num) :
  snd ((sendMessage env chatId m ;; ret a) w) = snd (perform env (BotSendMessage chatId m) w).
Proof.
  unfold bind, sendMessage, call. destruct (env_bot env _); reflexivity.
Qed.

(** X8.  An amount that is not a number or not positive, and a sender
    without a funding wallet, stop [/pay] and [/tip] at once: the chat
    gets the matching message and nothing else happens; no call reaches
    the chain. *)
Theorem invalid_amount_or_missing_wallet_is_refused_off_chain
    chatId userId recipient amount (w : World num) :
  (js_isNaN amount || (amount <=? js_0)%js = true ->
   snd (Monad.pay env chatId userId recipient amount w)
   = snd (perform env (BotSendMessage chatId InvalidAmount) w)
   /\ snd (Solana.tip env chatId userId recipient amount w)
      = snd (perform env (BotSendMessage chatId InvalidAmount) w))
  /\ (js_isNaN amount || (amount <=? js_0)%js = false ->
      userWallets w !! userId = None ->
      snd (Monad.pay env chatId userId recipient amount w)
      = snd (perform env (BotSendMessage chatId NoWalletYet) w)
      /\ snd (Solana.tip env chatId userId recipient amount w)
         = snd (perform env (BotSendMessage chatId NoWalletYet) w)).
Proof.
  split.
  - intros H. unfold Monad.pay, Solana.tip. rewrite H.
    split; apply sendMessage_then_ret.
  - intros H Hnone. unfold Monad.pay, Solana.tip. rewrite H. cbv zeta.
    unfold bind at 1, get at 1. rewrite Hnone.
    unfold bind at 2, get at 1. rewrite Hnone.
    split; apply sendMessage_then_ret.
Qed.

(** X9.  [drain], the transfer of a whole balance: when the gas cost
    and the 0.00001 buffer leave nothing to send, it tells the chat that
    the balance does not cover the gas and submits nothing.  The chain
    has been asked for the gas estimate and the gas price only. *)
Theorem drain_submits_nothing_when_gas_exceeds_the_balance
    chatId from to balance v g p (w : World num) :
  env_parseEther env balance = Ok v ->
  env_estimateGas env (calls_of KEstimateGas (trace w)) = Ok g ->
  env_getFeeData env (calls_of KGetFeeData (trace w)) = Ok p ->
  let gasCost := env_formatEther env (g * p)%Z in
  (balance - gasCost - js_0_00001 <=? js_0)%js = true ->
  trace (snd (Monad.drain env chatId from to balance w))
  = trace w ++ [RpcEstimateGas from to; RpcGetFeeData;
                BotSendMessage chatId (InsufficientForGas balance gasCost)].
Proof.
  intros Hv Hg Hp gasCost Hle.
  assert (Hrun : snd (Monad.drain env chatId from to balance w)
                 = after env (BotSendMessage chatId (InsufficientForGas balance gasCost))
                     (after env RpcGetFeeData
                        (delayed env (after env (RpcEstimateGas from to) (delayed env w))))).
  { unfold after, delayed. rewrite !rateLimitedDelay_run. cbn [snd].
    unfold Monad.drain.
    rewrite (bind_run _ _ _ _ _ (rateLimitedDelay_run env _)).
    unfold bind at 1, Monad.lift at 1. rewrite Hv.
    unfold bind at 1, call at 1.
    replace (env_estimateGas env _) with (Ok (A := Z) g)
      by (symmetry; rewrite <- Hg; f_equal; count_calls; reflexivity).
    rewrite (bind_run _ _ _ _ _ (rateLimitedDelay_run env _)).
    unfold bind at 1, call at 1.
    replace (env_getFeeData env _) with (Ok (A := Z) p)
      by (symmetry; rewrite <- Hp; f_equal; count_calls; reflexivity).
    fold gasCost. rewrite Hle. apply sendMessage_then_ret. }
  rewrite Hrun. unfold after, delayed. rewrite !rateLimitedDelay_run.
  trace_norm. reflexivity.
Qed.

End Refusals.

(** * Entries to a giveaway *)

Section Entries.
Context {num : Type} {NUM : JsNumber num}.

Lemma has_participant_false userId (ps : list (Z * string)) :
  Monad.has_participant userId ps = false -> ~ In userId (map fst ps).
Proof.
  unfold Monad.has_participant. induction ps as [|[u n] ps IH]; cbn; [tauto|].
  intros H. apply orb_false_iff in H. destruct H as [Hu Hrest].
  intros [-> | Hin]; [rewrite Z.eqb_refl in Hu; discriminate | exact (IH Hrest Hin)].
Qed.

Lemma has_participant_added userId username (ps : list (Z * string)) :
  Monad.has_participant userId (ps ++ [(userId, username)]) = true.
Proof.
  unfold Monad.has_participant. rewrite existsb_app. cbn. rewrite Z.eqb_refl.
  apply orb_true_iff. right. reflexivity.
Qed.

Lemma NoDup_added (x : Z) (l : list Z) : List.NoDup l -> ~ In x l -> List.NoDup (l ++ [x]).
Proof.
  induction 1 as [|y l Hy Hl IH]; cbn; intros Hx.
  - constructor; [intros [] | constructor].
  - constructor.
    + rewrite in_app_iff. cbn. intros [H | [H | []]]; [exact (Hy H) | apply Hx; left; symmetry; exact H].
    + apply IH. intros H. apply Hx. right. exact H.
Qed.

(** X10.  An entry keeps the participants of every giveaway free of
    repeated user ids, and the same entry made again changes nothing:
    the first entry of a user wins. *)
Theorem enter_keeps_participants_distinct chatId userId username
    (gs : list ((Z * Z) * Giveaway num)) :
  distinct_participants gs ->
  let entered := fst (Monad.enter chatId userId username gs) in
  distinct_participants entered
  /\ Monad.enter chatId userId username entered = (entered, false).
Proof.
  unfold distinct_participants. cbv zeta.
  induction gs as [|[k g] gs IH]; cbn [Monad.enter]; intros H.
  - split; [constructor | reflexivity].
  - inversion H as [|? ? Hg Hrest]; subst.
    destruct (g_chatId g =? chatId)%Z eqn:Hchat.
    + destruct (Monad.has_participant userId (participants g)) eqn:Hhas; cbn [fst].
      * split; [exact H|]. cbn [Monad.enter]. rewrite Hchat, Hhas. reflexivity.
      * split.
        -- constructor; [|exact Hrest]. cbn [snd participants g_set_participants].
           rewrite map_app. cbn [map fst]. apply NoDup_added; [exact Hg|].
           apply has_participant_false, Hhas.
        -- cbn [Monad.enter g_chatId g_set_participants participants].
           rewrite Hchat, has_participant_added. reflexivity.
    + destruct (IH Hrest) as [IH1 IH2].
      destruct (Monad.enter chatId userId username gs) as [rest added]. cbn [fst] in *.
      split; [constructor; assumption|].
      cbn [Monad.enter]. rewrite Hchat, IH2. reflexivity.
Qed.

End Entries.

(** * Closing a giveaway *)

Section Closing.
Context {num : Type} {NUM : JsNumber num} (env : Env num).

Lemma modify_returns (f : World num -> World num) w (r : unit) w' :
  modify f w = (Ok r, w') -> w' = f w.
Proof. unfold modify. intros [= _ <-]. reflexivity. Qed.

(** X11.  When [closeGmonadGiveaway] returns normally the giveaway is
    out of the registry, whether nobody entered, the prize went out or
    the transfers failed and the failure was announced. *)
Theorem closeGmonadGiveaway_removes_the_giveaway key (w w' : World num) :
  Monad.closeGmonadGiveaway env key w = (Ok tt, w') ->
  Monad.giveaway_get key (activeGmonadGiveaways w') = None.
Proof.
  unfold Monad.closeGmonadGiveaway. unfold bind at 1, get at 1.
  destruct (Monad.giveaway_get key (activeGmonadGiveaways w)) as [giveaway|] eqn:Hget.
  - destruct (participants giveaway) as [|first rest].
    + intros H. apply bind_returns in H. destruct H as (mid & w1 & _ & H).
      apply modify_returns in H. subst w'. apply giveaway_get_deleted.
    + intros H.
      apply bind_returns in H. destruct H as (pick & w1 & _ & H).
      apply bind_returns in H. destruct H as ([] & w2 & _ & H).
      apply bind_returns in H. destruct H as ([] & w3 & _ & H).
      apply modify_returns in H. subst w'. apply giveaway_get_deleted.
  - unfold ret. intros [= <-]. exact Hget.
Qed.

End Closing.

(** * Settlements that go through *)

Section Booked.
Context {num : Type} {NUM : JsNumber num} (env : Env num).

(** A property of the world a run ends in is proved on a name for it. *)
Lemma final_world {A} (x : A) (P : A -> Prop) : (exists y, x = y /\ P y) -> P x.
Proof. intros (y & -> & H). exact H. Qed.

(** X12.  [/pay] after both transfers returned, with the database
    accepting its two writes: the recipient's accrual is raised by the
    amount and upserted, one row goes to the table [payments] with the
    fee [amount * 0.10] and the hash of the principal transfer, and the
    chat is told that the payment was sent. *)
Theorem pay_books_the_tip_after_both_transfers
    chatId userId recipient amount sender recipientWallet statusMessage
    (w w1 w2 : World num) t t' :
  claimWallets w !! recipient = Some recipientWallet ->
  Monad.pay_principal env chatId recipient amount sender recipientWallet statusMessage w
    = (Ok t, w1) ->
  Monad.pay_fee env (amount * Monad.FEE_PERCENTAGE)%js sender w1 = (Ok t', w2) ->
  env_db env (calls_of KDb (trace w2)) = Ok tt ->
  env_db env (calls_of KDb (trace w2) + 1) = Ok tt ->
  let fee := (amount * Monad.FEE_PERCENTAGE)%js in
  let accrued :=
    cw_set_amount recipientWallet (js_or_0 (cw_amount recipientWallet) + amount)%js in
  let w' := snd (Monad.pay_transfers env chatId userId recipient amount fee sender
                   recipientWallet statusMessage w) in
  trace w' = trace w2
             ++ [DbUpsertClaimWallet recipient accrued;
                 DbInsert "payments" (mkTipRow userId recipient amount fee t);
                 BotSendMessage chatId (PaymentSent amount fee recipient t)]
  /\ claimWallets w' !! recipient = Some accrued.
Proof.
  intros Hclaim Hp Hf Hdb1 Hdb2 fee accrued w'. subst w'.
  assert (Hstored : claimWallets w2 !! recipient = Some recipientWallet).
  { pose proof (Respects_pay_principal env chatId recipient amount sender recipientWallet
                  statusMessage w) as [_ (_ & Q1 & _)].
    rewrite Hp in Q1. cbn [snd] in Q1.
    pose proof (Respects_pay_fee env fee sender w1) as [_ (_ & Q2 & _)].
    unfold fee in Q2. rewrite Hf in Q2. cbn [snd] in Q2.
    rewrite Q2, Q1. exact Hclaim. }
  pattern (snd (Monad.pay_transfers env chatId userId recipient amount fee sender
                  recipientWallet statusMessage w)).
  apply final_world.
  unfold Monad.pay_transfers.
  rewrite (bind_run _ _ _ _ _ Hp). unfold fee at 1. rewrite (bind_run _ _ _ _ _ Hf).
  unfold Monad.pay_record, Monad.accrue.
  unfold bind at 1. unfold bind at 1, get at 1. rewrite Hstored. cbn [default].
  fold accrued. unfold bind at 1, modify at 1.
  unfold saveClaimWallet, try_catch at 1, call at 1. count_calls. rewrite Hdb1.
  unfold bind at 1, call at 1. count_calls. rewrite Hdb2.
  rewrite sendMessage_last. eexists. split; [reflexivity|]. trace_norm.
  replace (calls_of KDb (trace w2) + 1)%nat with (S (calls_of KDb (trace w2))) by lia.
  split; [reflexivity | apply lookup_insert_eq].
Qed.

(** X13.  [/tip] when everything answers: the balance covers amount
    and fee, the target has a claim wallet, the transaction is accepted
    as [signature] and confirmed.  The handler raises the accrual and
    upserts it, submits one transaction whose two transfers are the tip
    to the claim wallet and the fee [amount * 0.10] to the fee wallet,
    both in lamports, inserts one row into [tips] with that fee and the
    signature, removes the processing message and reports the tip. *)
Theorem tip_settles_in_one_transaction
    chatId fromUserId target amount sender stored b mid mid' mid'' blockhash signature
    (w : World num) :
  js_isNaN amount || (amount <=? js_0)%js = false ->
  userWallets w !! fromUserId = Some sender ->
  claimWallets w !! target = Some stored ->
  env_isPublicKey env (Some (publicKey sender)) = true ->
  env_sol_getBalance env (calls_of KSolGetBalance (trace w)) = Ok b ->
  (b <? amount + amount * Solana.FEE_PERCENTAGE)%js = false ->
  env_bot env (calls_of KBot (trace w)) = Ok mid ->
  env_bot env (calls_of KBot (trace w) + 1) = Ok mid' ->
  env_bot env (calls_of KBot (trace w) + 2) = Ok mid'' ->
  env_db env (calls_of KDb (trace w)) = Ok tt ->
  env_db env (calls_of KDb (trace w) + 1) = Ok tt ->
  env_sol_getLatestBlockhash env (calls_of KSolGetLatestBlockhash (trace w)) = Ok blockhash ->
  env_sol_sendTransaction env (calls_of KSolSendTransaction (trace w)) = Ok signature ->
  env_sol_confirm env (calls_of KSolConfirmTransaction (trace w)) = Confirmed false ->
  let fee := (amount * Solana.FEE_PERCENTAGE)%js in
  let accrued := cw_set_amount stored (js_or_0 (cw_amount stored) + amount)%js in
  exists w',
  Solana.tip env chatId fromUserId target amount w = (Ok tt, w') /\
  trace w'
  = trace w
    ++ [SolGetBalance (publicKey sender);
        BotSendMessage chatId (Processing amount);
        DbUpsertClaimWallet target accrued;
        SolGetLatestBlockhash;
        SolSendTransaction
          (mkSolTransaction
             [mkTransfer (publicKey sender) (cw_publicKey stored)
                (amount * Solana.LAMPORTS_PER_SOL)%js;
              mkTransfer (publicKey sender) Solana.FEES_WALLET
                (fee * Solana.LAMPORTS_PER_SOL)%js]
             blockhash (publicKey sender));
        SolConfirmTransaction signature;
        DbInsert "tips" (mkTipRow fromUserId target amount fee signature);
        BotDeleteMessage chatId mid;
        BotSendMessage chatId (TipSent amount fee target signature)]
  /\ claimWallets w' !! target = Some accrued.
Proof.
  intros Hvalid Hsender Hstored Hkey Hb Hlt Hbot Hbot' Hbot'' Hdb Hdb' Hhash Hsend Hconfirm
         fee accrued.
  unfold Solana.tip. rewrite Hvalid. cbv zeta.
  unfold bind at 1, get at 1. rewrite Hsender.
  rewrite (bind_run _ _ _ _ _ (sol_getWalletBalance_answered env _ _ _ Hkey Hb)). rewrite Hlt.
  unfold Solana.resolveClaimWallet. unfold bind at 1. unfold bind at 1, get at 1.
  trace_norm. rewrite Hstored. fold accrued.
  unfold bind at 1, modify at 1, ret at 1. unfold try_catch at 1.
  unfold sendMessage at 1. answer Hbot.
  unfold bind at 1, saveClaimWallet at 1, try_catch at 1, call at 1. count_calls. rewrite Hdb.
  unfold Solana.submit. unfold bind at 1. answer Hhash. answer Hsend.
  unfold Solana.confirm_or_recheck. unfold bind at 1, try_catch at 1. answer Hconfirm.
  unfold ret at 1. unfold ret at 1.
  answer Hdb'. answer Hbot'. unfold sendMessage at 1. answer Hbot''.
  unfold ret. eexists. split; [reflexivity|].
  trace_norm. cbn [map fst snd cw_publicKey cw_set_amount].
  split; [reflexivity | apply lookup_insert_eq].
Qed.

(** X14.  [/pay] before [setStatus] is assigned: the balance suffices,
    the recipient has a claim wallet, and Telegram rejects the status
    message with [e].  Here the [catch] block works: it logs [e] and
    tells the chat that the payment failed, with the message of [e]; no
    transfer was started. *)
Theorem pay_reports_a_failure_before_the_transfers
    chatId userId recipient amount sender recipientWallet b e (w : World num) :
  js_isNaN amount || (amount <=? js_0)%js = false ->
  userWallets w !! userId = Some sender ->
  claimWallets w !! recipient = Some recipientWallet ->
  env_getBalance env (calls_of KGetBalance (trace w)) = Ok b ->
  (b <? amount + amount * Monad.FEE_PERCENTAGE + Monad.NETWORK_FEE)%js = false ->
  env_bot env (calls_of KBot (trace w)) = Throw e ->
  let w' := snd (Monad.pay env chatId userId recipient amount w) in
  trace w'
  = trace w
    ++ [RpcGetBalance (publicKey sender);
        BotSendMessage chatId (PaymentStatus recipient amount Monad.initial_status);
        ConsoleError "Tip error:" e;
        BotSendMessage chatId (PaymentFailed (message e))]
  /\ same_store w w'.
Proof.
  intros Hvalid Hsender Hclaim Hb Hlt Hbot w'. subst w'.
  assert (Hrun : snd (Monad.pay env chatId userId recipient amount w)
                 = after env (BotSendMessage chatId (PaymentFailed (message e)))
                     (after env (ConsoleError "Tip error:" e)
                        (after env (BotSendMessage chatId
                                      (PaymentStatus recipient amount Monad.initial_status))
                           (set_status Monad.initial_status
                              (asked_balance env (publicKey sender) w))))).
  { unfold after. unfold Monad.pay. rewrite Hvalid.
    unfold bind at 1, get at 1. rewrite Hsender.
    rewrite (bind_run _ _ _ _ _ (getWalletBalance_answered env _ _ _ Hb)). cbv zeta.
    rewrite Hlt. unfold Monad.pay_settle. unfold bind at 1. unfold try_catch at 1.
    rewrite (bind_run _ _ _ _ _
               (getOrCreateClaimWallet_found env recipient userId recipientWallet
                  (asked_balance env (publicKey sender) w) Hclaim)).
    unfold bind at 1, modify at 1. unfold bind at 1, sendMessage at 1, call at 1.
    replace (env_bot env _) with (Throw (A := Z) e)
      by (symmetry; rewrite <- Hbot; f_equal; unfold asked_balance; count_calls; reflexivity).
    unfold console_error. unfold bind at 1, perform at 1, modify at 1.
    unfold bind at 1, sendMessage at 1, call at 1.
    match goal with |- context [env_bot env ?n] => destruct (env_bot env n) end;
      reflexivity. }
  rewrite Hrun. unfold after, asked_balance.
  split; [trace_norm; reflexivity | repeat split].
Qed.

(** X15.  The Monad bot's [transfer_all] when the transfer is
    confirmed and the database accepts the write: the claim wallet's
    accrual is set to 0 and upserted, and the chat is told the amount
    sent, which is the balance less the gas cost and the 0.00001
    buffer. *)
Theorem monad_transfer_all_resets_the_accrual
    chatId userId username claimWallet userWallet b v g p v' t mid (w : World num) :
  claimWallets w !! username = Some claimWallet ->
  userWallets w !! userId = Some userWallet ->
  env_getBalance env (calls_of KGetBalance (trace w)) = Ok b ->
  (b <=? Monad.NETWORK_FEE)%js = false ->
  env_parseEther env b = Ok v ->
  env_estimateGas env (calls_of KEstimateGas (trace w)) = Ok g ->
  env_getFeeData env (calls_of KGetFeeData (trace w)) = Ok p ->
  let amountToSend := (b - env_formatEther env (g * p)%Z - js_0_00001)%js in
  (amountToSend <=? js_0)%js = false ->
  env_parseEther env amountToSend = Ok v' ->
  env_sendTransaction env (calls_of KSendTransaction (trace w)) = Ok t ->
  env_wait env (calls_of KWait (trace w)) = Ok tt ->
  env_db env (calls_of KDb (trace w)) = Ok tt ->
  env_bot env (calls_of KBot (trace w)) = Ok mid ->
  exists w',
    Monad.transfer_all env chatId userId username w = (Ok tt, w')
    /\ trace w'
       = trace w
         ++ [RpcGetBalance (cw_publicKey claimWallet);
             RpcEstimateGas (cw_publicKey claimWallet) (publicKey userWallet);
             RpcGetFeeData;
             RpcSendTransaction (cw_publicKey claimWallet)
               (mkTx (publicKey userWallet) v' None);
             RpcWait t;
             DbUpsertClaimWallet username (cw_set_amount claimWallet js_0);
             BotSendMessage chatId (TransferSuccessful amountToSend t)]
    /\ claimWallets w' !! username = Some (cw_set_amount claimWallet js_0).
Proof.
  intros Hclaim Huser Hb Hle Hv Hg Hp amountToSend Hpos Hv' Hsend Hwait Hdb Hbot.
  unfold Monad.transfer_all. unfold bind at 1, get at 1. rewrite Hclaim.
  rewrite (bind_run _ _ _ _ _ (getWalletBalance_answered env _ _ _ Hb)). rewrite Hle.
  unfold bind at 1, get at 1.
  replace (userWallets (asked_balance env (cw_publicKey claimWallet) w) !! userId)
    with (Some userWallet) by (symmetry; exact Huser).
  unfold bind at 1, ret at 1. unfold try_catch at 1. unfold bind at 1.
  unfold Monad.drain.
  rewrite (bind_run _ _ _ _ _ (rateLimitedDelay_run env _)).
  unfold bind at 1, Monad.lift at 1. rewrite Hv.
  unfold bind at 1, call at 1.
  replace (env_estimateGas env _) with (Ok (A := Z) g)
    by (symmetry; rewrite <- Hg; f_equal;
        unfold asked_balance; count_calls; reflexivity).
  rewrite (bind_run _ _ _ _ _ (rateLimitedDelay_run env _)).
  unfold bind at 1, call at 1.
  replace (env_getFeeData env _) with (Ok (A := Z) p)
    by (symmetry; rewrite <- Hp; f_equal;
        unfold asked_balance; count_calls; reflexivity).
  fold amountToSend. rewrite Hpos.
  unfold bind at 1, Monad.lift at 1. rewrite Hv'.
  unfold bind at 1, call at 1.
  replace (env_sendTransaction env _) with (Ok (A := string) t)
    by (symmetry; rewrite <- Hsend; f_equal;
        unfold asked_balance; count_calls; reflexivity).
  unfold bind at 1, call at 1.
  replace (env_wait env _) with (Ok (A := unit) tt)
    by (symmetry; rewrite <- Hwait; f_equal;
        unfold asked_balance; count_calls; reflexivity).
  unfold ret at 1. unfold Monad.resetAccrual.
  unfold bind at 1. unfold bind at 1, modify at 1.
  unfold saveClaimWallet, try_catch at 1, call at 1.
  replace (env_db env _) with (Ok (A := unit) tt)
    by (symmetry; rewrite <- Hdb; f_equal;
        unfold asked_balance; count_calls; reflexivity).
  unfold bind at 1, sendMessage at 1, call at 1.
  replace (env_bot env _) with (Ok (A := Z) mid)
    by (symmetry; rewrite <- Hbot; f_equal;
        unfold asked_balance; count_calls; reflexivity).
  unfold ret. eexists. split; [reflexivity|].
  unfold asked_balance. split; [trace_norm; reflexivity|].
  trace_norm. rewrite lookup_alter_eq, Hclaim. reflexivity.
Qed.

End Booked.

(** * A failed wait and the retry loop *)

Section Resubmission.
Context {num : Type} {NUM : JsNumber num} (env : Env num).

(** The [try] block also holds [transaction.wait()]: an attempt whose
    submission was accepted throws the error of the wait. *)
Lemma attempt_wait_fails address tx (w : World num) t e :
  env_sendTransaction env (calls_of KSendTransaction (trace w)) = Ok t ->
  env_wait env (calls_of KWait (trace w)) = Throw e ->
  exists w',
    Monad.attempt env address tx Monad.no_options w = (Throw e, w')
    /\ trace w' = trace w ++ [RpcSendTransaction address tx; RpcWait t].
Proof.
  intros Hsend Hwait. unfold Monad.attempt.
  rewrite (bind_run _ _ _ _ _ (rateLimitedDelay_run env w)).
  unfold bind at 1, call at 1. world_simpl. rewrite Hsend.
  unfold bind at 1, Monad.invokeCallback at 1, Monad.no_options at 1, Monad.onSent at 1, ret at 1.
  rewrite (bind_run _ _ _ _ _ (rateLimitedDelay_run env _)).
  unfold bind at 1, Monad.invokeCallback at 1, Monad.no_options at 1,
    Monad.onConfirming at 1, ret at 1.
  unfold bind at 1, call at 1. count_calls. rewrite Hwait.
  eexists. split; [reflexivity|]. trace_norm. reflexivity.
Qed.

(** C4, the divergence.  The executor without callbacks, with more
    than one pass: its first submission is accepted as [t], and the wait
    for [t] then throws an error [e] whose message names a nonce, a
    priority, a rate or a limit (a rate-limited receipt poll, say).  The
    [catch] block treats [e] like a rejected submission: after the log
    line and the pause of 2000 ms it asks the transaction count at
    ["latest"] and submits the transfer a second time, under the nonce
    [n] it was answered.  When that second submission is accepted as
    [t'] and confirmed, the executor returns [t'], after two
    submissions of the one transfer. *)
Theorem sendTransactionWithRetry_resubmits_after_a_failed_wait
    (maxRetries : nat) address tx (w : World num) t e n :
  (1 < maxRetries)%nat ->
  env_sendTransaction env (calls_of KSendTransaction (trace w)) = Ok t ->
  env_wait env (calls_of KWait (trace w)) = Throw e ->
  Monad.retryable e = true ->
  env_getTransactionCount env (calls_of KGetTransactionCount (trace w)) = Ok n ->
  let resubmitted :=
    [RpcSendTransaction address tx;
     RpcWait t;
     ConsoleLog "Error detected, retrying...";
     Sleep RetryBackoff 2000;
     RpcGetTransactionCount address "latest";
     RpcSendTransaction address (tx_with_nonce tx n)] in
  (exists rest,
     trace (snd (Monad.sendTransactionWithRetry env maxRetries address tx
                   Monad.no_options w))
     = trace w ++ resubmitted ++ rest)
  /\ (forall t',
        env_sendTransaction env (calls_of KSendTransaction (trace w) + 1) = Ok t' ->
        env_wait env (calls_of KWait (trace w) + 1) = Ok tt ->
        exists w',
          Monad.sendTransactionWithRetry env maxRetries address tx Monad.no_options w
          = (Ok (Some t'), w')
          /\ trace w' = trace w ++ resubmitted ++ [RpcWait t']).
Proof.
  intros Hmax Hsend Hwait Hretry Hnonce resubmitted. subst resubmitted.
  destruct maxRetries as [|[|remaining]]; try lia.
  unfold Monad.sendTransactionWithRetry.
  destruct (attempt_wait_fails address tx w t e Hsend Hwait) as (w1 & Ha & Htr1).
  destruct (recover_again env 0 (S (S remaining)) address tx e w1 n eq_refl Hretry)
    as (w2 & Hr & Htr2).
  { rewrite Htr1, calls_of_app. cbn [calls_of kind kind_eqb]. rewrite Nat.add_0_r.
    exact Hnonce. }
  assert (Hrun : Monad.retry_from env (S (S remaining)) 0 (S (S remaining)) address tx
                   Monad.no_options w
                 = Monad.retry_from env (S remaining) 1 (S (S remaining)) address
                     (tx_with_nonce tx n) Monad.no_options w2).
  { cbn [Monad.retry_from]. unfold bind at 1, try_catch at 1. rewrite Ha, Hr. reflexivity. }
  rewrite Hrun. split.
  - destruct (retry_from_submits env Monad.no_options remaining 1 (S (S remaining)) address
                (tx_with_nonce tx n) (RespectsOptions_none _) w2) as (rest & Hrest).
    exists rest. rewrite Hrest, Htr2, Htr1, <- !app_assoc. reflexivity.
  - intros t' Hsend' Hwait'.
    destruct (retry_from_returns env (S (S remaining)) address 0 (fun _ => e) (fun _ => n)
                (S remaining) 1 (tx_with_nonce tx n) w2 t') as (w3 & Hret & Htr3);
      try lia.
    + rewrite Htr2, Htr1, !calls_of_app. cbn [calls_of kind kind_eqb].
      rewrite !Nat.add_0_r. exact Hsend'.
    + rewrite Htr2, Htr1, !calls_of_app. cbn [calls_of kind kind_eqb].
      rewrite !Nat.add_0_r. exact Hwait'.
    + exists w3. split; [exact Hret|].
      rewrite Htr3, Htr2, Htr1. cbn [retries]. rewrite <- !app_assoc. reflexivity.
Qed.

End Resubmission.

(** * The theorems on the example runs *)

Module Witnesses.
Import Examples.

#[local] Set Warnings "-inexact-float".

(** Closes a goal that is the instance [H] of a theorem, once both are
    evaluated; what [H] still asks for holds by evaluation too. *)
Ltac instance_of H := vm_compute in H |- *; apply H; reflexivity.

(** User 42, with 1 in the wallet, asks to send 1 to bob: both bots
    refuse after the balance query. *)
Lemma insufficient_balance_is_refused_witness :
  (js_isNaN one || (one <=? js_0)%js = false)
  /\ userWallets (start (num := float)) !! "42" = Some sender
  /\ (let w' := snd (Monad.pay (working 1) 7 "42" "bob" one start) in
      trace w'
      = trace (start (num := float))
        ++ [RpcGetBalance (publicKey sender);
            BotSendMessage 7
              (InsufficientBalance
                 (Some (one + one * Monad.FEE_PERCENTAGE + Monad.NETWORK_FEE)%js) one)]
      /\ same_store start w')
  /\ (let w' := snd (Solana.tip (working 1) 7 "42" "bob" one start) in
      trace w'
      = trace (start (num := float))
        ++ [SolGetBalance (publicKey sender);
            BotSendMessage 7
              (InsufficientBalance (Some (one + one * Solana.FEE_PERCENTAGE)%js) one)]
      /\ same_store start w').
Proof.
  assert (Hvalid : js_isNaN one || (one <=? js_0)%js = false) by (vm_compute; reflexivity).
  assert (Hwallet : userWallets (start (num := float)) !! "42" = Some sender)
    by (vm_compute; reflexivity).
  destruct (insufficient_balance_is_refused (working 1) 7 "42" "bob" one sender start one
              Hvalid Hwallet) as [HM HS].
  split; [exact Hvalid|]. split; [exact Hwallet|].
  split; [apply HM; vm_compute; reflexivity | apply HS; vm_compute; reflexivity].
Defined.

(** C1, counterexample.  The wallet holds 1.1 and the tip is 1: the
    balance is below [1 + 1 * 0.10 + 0.000005], and [/tip] goes ahead:
    it submits the transaction and reports the tip as sent. *)
Lemma tip_ignores_the_network_fee_buffer :
  (1.1%float <? one + one * Solana.FEE_PERCENTAGE + Solana.NETWORK_FEE)%js = true
  /\ let w' := snd (Solana.tip (working 1.1) 7 "42" "bob" one start) in
     calls_of KSolSendTransaction (trace w') = 1%nat
     /\ sent_to 7 (trace w')
        = [Processing one;
           TipSent one (one * Solana.FEE_PERCENTAGE)%js "bob" "signature"].
Proof. vm_compute. repeat split. Qed.

(** User 42 holds 10 and pays 1 to bob; the principal transfer is
    confirmed and the fee transfer is rejected for lack of funds. *)
Lemma pay_fee_failure_dies_in_the_catch_block_witness :
  Monad.pay_principal fee_rejected 7 "bob" one "0xsender" (bobs_wallet 0%float) 100 start
  = (Ok "0xprincipal", principal_done)
  /\ Monad.pay_fee fee_rejected (1 * 0.10)%float "0xsender" principal_done
     = (Throw (error "insufficient funds"), fee_failed)
  /\ exists w',
       try_catch (Monad.pay_transfers fee_rejected 7 "42" "bob" one (1 * 0.10)%float
                    "0xsender" (bobs_wallet 0%float) 100)
                 (Monad.pay_catch fee_rejected) start
       = (Throw (ReferenceError "status"), w')
       /\ trace w' = trace fee_failed
                     ++ [ConsoleError "Tip error:" (error "insufficient funds")]
       /\ quiet transfer_event start w'
       /\ success (status w') = true
       /\ txHash (status w') = Some "0xprincipal"
       /\ failed (status w') = failed (status (start (num := float))).
Proof.
  assert (H1 : Monad.pay_principal fee_rejected 7 "bob" one "0xsender"
                 (bobs_wallet 0%float) 100 start = (Ok "0xprincipal", principal_done))
    by (vm_compute; reflexivity).
  assert (H2 : Monad.pay_fee fee_rejected (1 * 0.10)%float "0xsender" principal_done
               = (Throw (error "insufficient funds"), fee_failed))
    by (vm_compute; reflexivity).
  split; [exact H1|]. split; [exact H2|].
  exact (pay_fee_failure_dies_in_the_catch_block fee_rejected 7 "42" "bob" one
           (1 * 0.10)%float "0xsender" (bobs_wallet 0%float) 100
           start principal_done fee_failed "0xprincipal" (error "insufficient funds") H1 H2).
Defined.

(** The same run seen from the chat and the database: [/pay] ends with
    the ReferenceError.  Its last four events, the latest first, are the
    log line of the fee error, the rejected fee submission, its nonce
    query and the edit that shows the payment as successful; the only
    message sent is the status message, no row is inserted and bob's
    accrual is still 0. *)
Lemma pay_leaves_the_chat_at_success_when_the_fee_fails :
  let run := Monad.pay fee_rejected 7 "42" "bob" one start in
  let shown := mkStatus true false true false "" (Some "0xprincipal") in
  fst run = Throw (ReferenceError "status")
  /\ firstn 4 (rev (trace (snd run)))
     = [ConsoleError "Tip error:" (error "insufficient funds");
        RpcSendTransaction "0xsender" (mkTx Monad.FEES_WALLET 100000000000000000 (Some 8));
        RpcGetTransactionCount "0xsender" "latest";
        BotEditMessageText 7 100 (PaymentStatus "bob" one shown)]
  /\ sent_to 7 (trace (snd run)) = [PaymentStatus "bob" one Monad.initial_status]
  /\ inserted (trace (snd run)) = []
  /\ claimWallets (snd run) !! "bob" = Some (bobs_wallet 0%float).
Proof. vm_compute. repeat split. Qed.

(** The tip of the cluster-rejects example, to a bob who has 2 accrued. *)
Lemma tip_accrual_survives_failed_transfer_witness :
  exists w',
    Solana.tip cluster_rejects 7 "42" "bob" one (start_with_claim 2%float)
    = (Throw (ReferenceError "signature"), w')
    /\ claimWallets w' !! "bob" = Some (bobs_wallet (2 + 1)%float)
    /\ upserted (trace w') = [("bob", bobs_wallet (2 + 1)%float)]
    /\ inserted (trace w') = []
    /\ sent_to 7 (trace w') = [Processing one].
Proof.
  pose proof (tip_accrual_survives_failed_transfer cluster_rejects 7 "42" "bob" one sender
                10%float 100 "blockhash" (error "Transaction simulation failed")
                (start_with_claim 2%float)) as H.
  instance_of H.
Defined.

(** Three passes, each rejected for its nonce; and a submission
    rejected for lack of funds, which is not tried again. *)
Lemma sendTransactionWithRetry_retry_policy_witness :
  let tx := mkTx "0xclaim" 1000000000000000000 (Some 7) in
  (exists w',
     Monad.sendTransactionWithRetry nonce_too_low 3 "0xsender" tx Monad.no_options start
     = (Throw (error "nonce too low"), w')
     /\ trace w'
        = [RpcSendTransaction "0xsender" tx;
           ConsoleLog "Error detected, retrying...";
           Sleep RetryBackoff 2000;
           RpcGetTransactionCount "0xsender" "latest";
           RpcSendTransaction "0xsender" (tx_with_nonce tx 8);
           ConsoleLog "Error detected, retrying...";
           Sleep RetryBackoff 2000;
           RpcGetTransactionCount "0xsender" "latest";
           RpcSendTransaction "0xsender" (tx_with_nonce tx 9)])
  /\ (exists w',
        Monad.sendTransactionWithRetry funds_missing 3 "0xsender" tx Monad.no_options start
        = (Throw (error "insufficient funds"), w')
        /\ trace w' = [RpcSendTransaction "0xsender" tx]).
Proof.
  split.
  - exact (sendTransactionWithRetry_retry_policy nonce_too_low 3 "0xsender"
             (mkTx "0xclaim" 1000000000000000000 (Some 7)) Monad.no_options start
             2 (fun _ => error "nonce too low") (fun j => 8 + Z.of_nat j)
             (le_n 3)
             (fun j _ => eq_refl) (fun j _ => eq_refl) (fun j _ => eq_refl)
             (or_introl eq_refl)).
  - exact (sendTransactionWithRetry_retry_policy funds_missing 3 "0xsender"
             (mkTx "0xclaim" 1000000000000000000 (Some 7)) Monad.no_options start
             0 (fun _ => error "insufficient funds") (fun j => 8 + Z.of_nat j)
             (Nat.lt_0_succ 2)
             (fun j _ => eq_refl) (fun j (H : (j < 0)%nat) => match Nat.nlt_0_r j H with end)
             (fun j (H : (j < 0)%nat) => match Nat.nlt_0_r j H with end)
             (or_intror eq_refl)).
Defined.

(** The wait for the first submission fails on a rate limit: the
    transfer is submitted twice, and the second hash is returned. *)
Lemma sendTransactionWithRetry_resubmits_after_a_failed_wait_witness :
  let tx := mkTx "0xclaim" 1000000000000000000 (Some 7) in
  exists w',
    Monad.sendTransactionWithRetry wait_rate_limited 3 "0xsender" tx Monad.no_options start
    = (Ok (Some "0xsecond"), w')
    /\ trace w'
       = trace (start (num := float))
         ++ [RpcSendTransaction "0xsender" tx;
             RpcWait "0xfirst";
             ConsoleLog "Error detected, retrying...";
             Sleep RetryBackoff 2000;
             RpcGetTransactionCount "0xsender" "latest";
             RpcSendTransaction "0xsender" (tx_with_nonce tx 8)]
         ++ [RpcWait "0xsecond"].
Proof.
  assert (Hmax : (1 < 3)%nat) by lia.
  assert (Hsend : env_sendTransaction wait_rate_limited
                    (calls_of KSendTransaction (trace (start (num := float))))
                  = Ok "0xfirst") by (vm_compute; reflexivity).
  assert (Hwait : env_wait wait_rate_limited (calls_of KWait (trace (start (num := float))))
                  = Throw (error "rate limit exceeded")) by (vm_compute; reflexivity).
  assert (Hretry : Monad.retryable (error "rate limit exceeded") = true)
    by (vm_compute; reflexivity).
  assert (Hnonce : env_getTransactionCount wait_rate_limited
                     (calls_of KGetTransactionCount (trace (start (num := float))))
                   = Ok 8) by (vm_compute; reflexivity).
  pose proof (sendTransactionWithRetry_resubmits_after_a_failed_wait wait_rate_limited 3
                "0xsender" (mkTx "0xclaim" 1000000000000000000 (Some 7)) start
                "0xfirst" (error "rate limit exceeded") 8
                Hmax Hsend Hwait Hretry Hnonce) as H.
  cbv zeta in H. apply (proj2 H); vm_compute; reflexivity.
Defined.

(** The Monad claim wallet holds 1 MON; the transfer to the funding
    wallet is accepted and the wait for it times out. *)
Lemma monad_transfer_all_reports_failure_without_requery_witness :
  let w' := snd (Monad.transfer_all wait_times_out 7 "42" "bob" (start_with_claim 3%Q)) in
  trace w'
  = [RpcGetBalance "0xclaim";
     RpcEstimateGas "0xclaim" "0xsender";
     RpcGetFeeData;
     RpcSendTransaction "0xclaim" (mkTx "0xsender" 998940000000000000 None);
     RpcWait "0xhash";
     ConsoleError "Transfer error:" (error "timeout exceeded");
     BotSendMessage 7 (TransferFailed "timeout exceeded")]
  /\ same_store (start_with_claim 3%Q) w'.
Proof.
  pose proof (monad_transfer_all_reports_failure_without_requery wait_times_out 7 "42" "bob"
                (bobs_wallet 3%Q) sender 1%Q 1000000000000000000 21000 50000000000
                998940000000000000 "0xhash" (error "timeout exceeded")
                (start_with_claim 3%Q)) as H.
  instance_of H.
Defined.

(** The fee transfer that follows the confirmed principal transfer. *)
Lemma pay_fee_nonce_queried_after_confirmation_witness :
  Monad.pay_principal (working 10) 7 "bob" one "0xsender" (bobs_wallet 0%float) 100 start
  = (Ok "0xhash", principal_confirmed)
  /\ exists before after rest,
       trace (snd (Monad.pay_fee (working 10) (1 * 0.10)%float "0xsender"
                     principal_confirmed))
       = trace (start (num := float)) ++ before ++ RpcWait "0xhash" :: after
           ++ RpcGetTransactionCount "0xsender" "latest"
           :: RpcSendTransaction "0xsender"
                (mkTx Monad.FEES_WALLET 100000000000000000 (Some 8)) :: rest
       /\ forallb status_event after = true.
Proof.
  assert (H1 : Monad.pay_principal (working 10) 7 "bob" one "0xsender"
                 (bobs_wallet 0%float) 100 start = (Ok "0xhash", principal_confirmed))
    by (vm_compute; reflexivity).
  split; [exact H1|].
  apply (pay_fee_nonce_queried_after_confirmation (working 10) 7 "bob" one
           (1 * 0.10)%float "0xsender" (bobs_wallet 0%float) 100
           start principal_confirmed "0xhash" 8 100000000000000000 H1);
    vm_compute; reflexivity.
Defined.

(** C6, counterexample.  [/tip] makes one submission: a single
    transaction whose two instructions are the tip and the fee, with no
    nonce query anywhere.  And in [/pay], when the node answers the same
    transaction count twice, the fee transaction carries the nonce of
    the principal transaction. *)
Lemma tip_is_one_transaction_and_pay_can_reuse_a_nonce :
  (let tr := trace (snd (Solana.tip (working 10) 7 "42" "bob" one start)) in
   List.filter (fun e => negb (off_chain e)) tr
   = [SolGetBalance "0xsender";
      SolGetLatestBlockhash;
      SolSendTransaction
        (mkSolTransaction
           [mkTransfer "0xsender" "0xclaim" (one * Solana.LAMPORTS_PER_SOL)%js;
            mkTransfer "0xsender" Solana.FEES_WALLET
              (one * Solana.FEE_PERCENTAGE * Solana.LAMPORTS_PER_SOL)%js]
           "blockhash" "0xsender");
      SolConfirmTransaction "signature"])
  /\ (let tr := trace (snd (Monad.pay lagging_node 7 "42" "bob" one start)) in
      List.filter (fun e => match e with RpcSendTransaction _ _ => true | _ => false end) tr
      = [RpcSendTransaction "0xsender" (mkTx "0xclaim" 1000000000000000000 (Some 7));
         RpcSendTransaction "0xsender"
           (mkTx Monad.FEES_WALLET 100000000000000000 (Some 7))]).
Proof. vm_compute. split; reflexivity. Qed.

(** C7, counterexample.  Bob already has a claim wallet: resolving it
    twice in the Monad bot writes nothing, not once.  And two tips to
    bob in the Solana bot upsert his claim wallet twice. *)
Lemma claim_wallet_writes_are_not_exactly_one :
  (let w1 := snd (Monad.getOrCreateClaimWallet (working 10) "bob" "42"
                    (start_with_claim 0%float)) in
   let w2 := snd (Monad.getOrCreateClaimWallet (working 10) "bob" "42" w1) in
   upserted (trace w2) = [])
  /\ (let w1 := snd (Solana.tip (working 10) 7 "42" "bob" one start) in
      let w2 := snd (Solana.tip (working 10) 7 "42" "bob" one w1) in
      upserted (trace w2)
      = [("bob", mkClaimWallet "claim-key" "0xclaim" "42" one);
         ("bob", mkClaimWallet "claim-key" "0xclaim" "42" (1 + 1)%float)]).
Proof. vm_compute. split; reflexivity. Qed.

(** The timer of a giveaway nobody entered. *)
Lemma empty_giveaway_is_discarded_witness :
  Monad.giveaway_get (7, 940) (activeGmonadGiveaways (start_with_giveaway one 0.1%float))
  = Some (empty_giveaway one 0.1%float)
  /\ (let w' := snd (Monad.gmonad_timer (working 10) 7 (7, 940)
                       (start_with_giveaway one 0.1%float)) in
      trace w' = [BotSendMessage 7 GiveawayNoParticipants]
      /\ Monad.giveaway_get (7, 940) (activeGmonadGiveaways w') = None).
Proof.
  split; [reflexivity|].
  exact (proj1 (empty_giveaway_is_discarded_and_late_entries_ignored (working 10) 7 (7, 940)
                  (empty_giveaway one 0.1%float) (start_with_giveaway one 0.1%float)
                  eq_refl eq_refl)).
Defined.

(** Two handlers enter 50 ms after the last call: both are released at
    the same instant, 1050. *)
Lemma governor_releases_overlapping_calls_together_witness :
  exists s',
    Governor.run [Governor.Enter 0; Governor.Enter 1; Governor.Tick 50;
                  Governor.Resume 0; Governor.Resume 1] two_pending = Some s'
    /\ Governor.invocations s' !! 0%nat = Some (Governor.Released 1050)
    /\ Governor.invocations s' !! 1%nat = Some (Governor.Released 1050).
Proof.
  exact (governor_releases_overlapping_calls_together two_pending 0 1
           (O_S 0) eq_refl eq_refl eq_refl).
Defined.

(** The chain is unreachable: [/pay] answers that the balance is 0,
    the withdrawal of a funding wallet is refused and its conversation
    closed, and [/random] refuses after the administrator check. *)
Lemma getWalletBalance_never_throws_witness :
  trace (snd (Monad.pay unreachable 7 "42" "bob" one start))
  = trace (start (num := float))
    ++ [RpcGetBalance (publicKey sender);
        ConsoleError "Error getting balance:" (error "could not detect network");
        BotSendMessage 7 (InsufficientBalance
                            (Some (one + one * Monad.FEE_PERCENTAGE + Monad.NETWORK_FEE)%js)
                            js_0)]
  /\ (let w' := snd (Monad.withdrawal_message unreachable 7 42 (Some "0xdestination")
                       start_withdrawing) in
      trace w'
      = trace (start_withdrawing (num := float))
        ++ [RpcGetBalance "0xsender";
            ConsoleError "Error getting balance:" (error "could not detect network");
            BotSendMessage 7 (InsufficientBalance None js_0)]
      /\ withdrawalState w' !! 42 = None)
  /\ (let w' := snd (Monad.random unreachable 7 42 "42" "supergroup"
                       (Some (3%nat, "Member", one)) start) in
      trace w'
      = trace (start (num := float))
        ++ [BotGetChatMember 7 42;
            RpcGetBalance (publicKey sender);
            ConsoleError "Error getting balance:" (error "could not detect network");
            BotSendMessage 7
              (InsufficientForWinners
                 ((one + one * Monad.FEE_PERCENTAGE + Monad.NETWORK_FEE) * js_of_nat 3)%js
                 js_0 one 3)]
      /\ same_store start w').
Proof.
  pose proof (getWalletBalance_never_throws unreachable "0xsender" start)
    as (_ & _ & _ & _ & Hpay & _ & _ & _ & Hrandom & _).
  pose proof (getWalletBalance_never_throws unreachable "0xsender" start_withdrawing)
    as (_ & _ & _ & _ & _ & _ & Hwithdrawal & _).
  split; [|split].
  - apply (Hpay (error "could not detect network") 7 "42" "bob" one sender);
      vm_compute; reflexivity.
  - apply (Hwithdrawal (error "could not detect network") 7 42 (wd_funding sender)
             "0xsender" "0xdestination" 100); vm_compute; reflexivity.
  - apply (Hrandom (error "could not detect network") 7 42 "42" "supergroup" 3%nat "Member"
             one sender "administrator"); try (vm_compute; reflexivity). lia.
Defined.

(** The first submission is rejected for its nonce: the executor asks
    for the nonce again, resubmits, and returns the accepted hash. *)
Lemma sendTransactionWithRetry_returns_the_accepted_retry_witness :
  exists w',
    Monad.sendTransactionWithRetry accepted_on_retry 3 "0xsender" (mkTx "0xclaim" 1 None)
      Monad.no_options start
    = (Ok (Some "0xhash"), w')
    /\ trace w' = trace start
                  ++ RpcSendTransaction "0xsender" (mkTx "0xclaim" 1 None)
                     :: retries "0xsender" (mkTx "0xclaim" 1 None)
                          (fun j => 8 + Z.of_nat j) 1
                     ++ [RpcWait "0xhash"].
Proof.
  apply (sendTransactionWithRetry_returns_the_accepted_retry accepted_on_retry 3
           "0xsender" (mkTx "0xclaim" 1 None) start 1
           (fun _ => error "nonce too low") (fun j => 8 + Z.of_nat j) "0xhash").
  - lia.
  - intros j Hj. assert (j = O) as -> by lia. vm_compute; reflexivity.
  - intros j Hj. assert (j = O) as -> by lia. vm_compute; reflexivity.
  - intros j Hj. vm_compute; reflexivity.
  - vm_compute; reflexivity.
  - vm_compute; reflexivity.
Defined.

(** A status callback that throws: the error is logged and the call
    returns. *)
Lemma invokeCallback_swallows_the_error_witness :
  trace (snd (Monad.invokeCallback (working 10)
                (Some (fun _ => throw (error "message is too long"))) "0xhash" start))
  = trace start
    ++ [ConsoleError "Callback error in sendTransactionWithRetry:"
          (error "message is too long")].
Proof.
  exact (proj2 (invokeCallback_swallows_the_error (working 10)
                  (Some (fun _ => throw (error "message is too long"))) "0xhash" start)
           (fun _ => throw (error "message is too long")) (error "message is too long")
           start eq_refl eq_refl).
Defined.

(** The cluster confirms at once: one call, no status query. *)
Lemma confirm_or_recheck_outcome_witness :
  trace (snd (Solana.confirm_or_recheck (working 10) "signature" start))
  = trace start ++ [SolConfirmTransaction "signature"].
Proof.
  pose proof (confirm_or_recheck_outcome (working 10) "signature" start) as H.
  cbv zeta in H. apply (proj2 H). vm_compute; reflexivity.
Defined.

(** [/pay @bob 0] is refused with the invalid-amount message. *)
Lemma invalid_amount_is_refused_off_chain_witness :
  snd (Monad.pay (working 10) 7 "42" "bob" 0%float start)
  = snd (perform (working 10) (BotSendMessage 7 InvalidAmount) start).
Proof.
  apply (proj1 (invalid_amount_or_missing_wallet_is_refused_off_chain
                  (working 10) 7 "42" "bob" 0%float start)).
  vm_compute; reflexivity.
Defined.

(** A claim wallet holding 0.001 MON: the gas costs 0.00105, nothing is
    submitted. *)
Lemma drain_submits_nothing_when_gas_exceeds_the_balance_witness :
  trace (snd (Monad.drain wait_times_out 7 "0xclaim" "0xsender" (1 # 1000)%Q start))
  = trace start
    ++ [RpcEstimateGas "0xclaim" "0xsender"; RpcGetFeeData;
        BotSendMessage 7 (InsufficientForGas (1 # 1000)%Q
                            (formatEther_Q (21000 * 50000000000)))].
Proof.
  apply (drain_submits_nothing_when_gas_exceeds_the_balance wait_times_out 7
           "0xclaim" "0xsender" (1 # 1000)%Q 1000000000000000 21000 50000000000 start);
    vm_compute; reflexivity.
Defined.

(** Carol enters the empty giveaway; entering again changes nothing. *)
Lemma enter_keeps_participants_distinct_witness :
  distinct_participants
    (fst (Monad.enter 7 43 "carol" [((7, 940), empty_giveaway one one)]))
  /\ Monad.enter 7 43 "carol"
       (fst (Monad.enter 7 43 "carol" [((7, 940), empty_giveaway one one)]))
     = (fst (Monad.enter 7 43 "carol" [((7, 940), empty_giveaway one one)]), false).
Proof.
  apply (enter_keeps_participants_distinct 7 43 "carol"
           [((7, 940), empty_giveaway one one)]).
  repeat constructor.
Defined.

(** The empty giveaway of chat 7 is gone once it was closed. *)
Lemma closeGmonadGiveaway_removes_the_giveaway_witness :
  Monad.giveaway_get (7, 940)
    (activeGmonadGiveaways
       (snd (Monad.closeGmonadGiveaway (working 10) (7, 940)
               (start_with_giveaway one one))))
  = None.
Proof.
  apply (closeGmonadGiveaway_removes_the_giveaway (working 10) (7, 940)
           (start_with_giveaway one one)).
  vm_compute; reflexivity.
Defined.

(** [/pay @bob 1] with everything working: bob's accrual goes from 0 to 1. *)
Lemma pay_books_the_tip_after_both_transfers_witness :
  claimWallets
    (snd (Monad.pay_transfers (working 10) 7 "42" "bob" one
            (one * Monad.FEE_PERCENTAGE)%js "0xsender" (bobs_wallet 0%float) 100
            (start_with_claim 0%float)))
  !! "bob"
  = Some (cw_set_amount (bobs_wallet 0%float)
            (js_or_0 (cw_amount (bobs_wallet 0%float)) + one)%js).
Proof.
  assert (Hclaim : claimWallets (start_with_claim 0%float) !! "bob"
                   = Some (bobs_wallet 0%float)) by (vm_compute; reflexivity).
  assert (Hp : Monad.pay_principal (working 10) 7 "bob" one "0xsender"
                 (bobs_wallet 0%float) 100 (start_with_claim 0%float)
               = (Ok "0xhash", principal_paid)) by (vm_compute; reflexivity).
  assert (Hf : Monad.pay_fee (working 10) (one * Monad.FEE_PERCENTAGE)%js "0xsender"
                 principal_paid
               = (Ok "0xhash", fee_paid)) by (vm_compute; reflexivity).
  assert (Hdb1 : env_db (working 10) (calls_of KDb (trace fee_paid)) = Ok tt)
    by (vm_compute; reflexivity).
  assert (Hdb2 : env_db (working 10) (calls_of KDb (trace fee_paid) + 1) = Ok tt)
    by (vm_compute; reflexivity).
  pose proof (pay_books_the_tip_after_both_transfers (working 10) 7 "42" "bob" one
                "0xsender" (bobs_wallet 0%float) 100 (start_with_claim 0%float)
                principal_paid fee_paid "0xhash" "0xhash" Hclaim Hp Hf Hdb1 Hdb2) as H.
  cbv zeta in H. exact (proj2 H).
Defined.

(** [/tip @bob 1] with everything working returns, and bob's accrual
    goes from 0 to 1. *)
Lemma tip_settles_in_one_transaction_witness :
  exists w',
    Solana.tip (working 10) 7 "42" "bob" one (start_with_claim 0%float) = (Ok tt, w')
    /\ claimWallets w' !! "bob"
       = Some (cw_set_amount (bobs_wallet 0%float)
                 (js_or_0 (cw_amount (bobs_wallet 0%float)) + one)%js).
Proof.
  edestruct (tip_settles_in_one_transaction (working 10) 7 "42" "bob" one sender
               (bobs_wallet 0%float) 10%float 100 101 102 "blockhash" "signature"
               (start_with_claim 0%float))
    as (w' & Hrun & _ & Hstored); [vm_compute; reflexivity .. |].
  exists w'. split; assumption.
Defined.

(** Telegram rejects the status message of [/pay @bob 1]: the failure
    is logged and reported, and no transfer is started. *)
Lemma pay_reports_a_failure_before_the_transfers_witness :
  trace (snd (Monad.pay chat_rejects 7 "42" "bob" one (start_with_claim 0%float)))
  = trace (start_with_claim 0%float)
    ++ [RpcGetBalance (publicKey sender);
        BotSendMessage 7 (PaymentStatus "bob" one Monad.initial_status);
        ConsoleError "Tip error:" (error "Forbidden: bot was blocked by the user");
        BotSendMessage 7
          (PaymentFailed (message (error "Forbidden: bot was blocked by the user")))].
Proof.
  assert (Hvalid : js_isNaN one || (one <=? js_0)%js = false) by (vm_compute; reflexivity).
  assert (Hsender : userWallets (start_with_claim 0%float) !! "42" = Some sender)
    by (vm_compute; reflexivity).
  assert (Hclaim : claimWallets (start_with_claim 0%float) !! "bob"
                   = Some (bobs_wallet 0%float)) by (vm_compute; reflexivity).
  assert (Hb : env_getBalance chat_rejects
                 (calls_of KGetBalance (trace (start_with_claim 0%float)))
               = Ok 10%float) by (vm_compute; reflexivity).
  assert (Hlt : (10%float <? one + one * Monad.FEE_PERCENTAGE + Monad.NETWORK_FEE)%js
                = false) by (vm_compute; reflexivity).
  assert (Hbot : env_bot chat_rejects (calls_of KBot (trace (start_with_claim 0%float)))
                 = Throw (error "Forbidden: bot was blocked by the user"))
    by (vm_compute; reflexivity).
  pose proof (pay_reports_a_failure_before_the_transfers chat_rejects 7 "42" "bob" one
                sender (bobs_wallet 0%float) 10%float
                (error "Forbidden: bot was blocked by the user")
                (start_with_claim 0%float) Hvalid Hsender Hclaim Hb Hlt Hbot) as H.
  cbv zeta in H. exact (proj1 H).
Defined.

(** Bob's claim wallet holds 1 MON and an accrual of 5: the transfer
    goes through and the accrual is 0 afterwards. *)
Lemma monad_transfer_all_resets_the_accrual_witness :
  exists w',
    Monad.transfer_all (working_Q 1) 7 "42" "bob" (start_with_claim 5%Q) = (Ok tt, w')
    /\ claimWallets w' !! "bob" = Some (cw_set_amount (bobs_wallet 5%Q) js_0).
Proof.
  edestruct (monad_transfer_all_resets_the_accrual (working_Q 1) 7 "42" "bob"
               (bobs_wallet 5%Q) sender 1%Q 1000000000000000000 21000 50000000000
               998940000000000000 "0xhash" 100 (start_with_claim 5%Q))
    as (w' & Hrun & _ & Hstored); [vm_compute; reflexivity .. |].
  exists w'. split; assumption.
Defined.

End Witnesses.
